(** * Governing Amazon QuickSight with Okta: the three Lambda jobs

    A shallow embedding of [src/pkg/qs_user_gov.py], [src/pkg/qs_asset_gov.py]
    and [src/pkg/get_okta_info.py].  The remote services (QuickSight, S3, the
    Okta REST API) are not part of the repository: they are a parameter of
    the development, a deterministic transition function over an abstract
    world.  Every Python function that talks to them becomes a computation
    in a small monad that threads the world, may raise, and records the
    exchange with the services in a trace. *)

From Stdlib Require Import String Ascii List Bool Arith Lia.
Import ListNotations.
Local Open Scope string_scope.
Local Open Scope list_scope.

(** ** Python primitives on strings and lists *)

Module Py.

(** [s.startswith(pre)] *)
Definition startswith (s pre : string) : bool := String.prefix pre s.

(** [sub in s] for two strings: [sub] occurs in [s] at some offset. *)
Fixpoint str_in (sub s : string) : bool :=
  if String.prefix sub s then true
  else match s with
       | EmptyString => false
       | String _ rest => str_in sub rest
       end.

(** [x in l] for a list of strings. *)
Definition list_in (x : string) (l : list string) : bool :=
  existsb (String.eqb x) l.

(** [s.split(sep)] for a one-character separator. *)
Fixpoint split (sep : ascii) (s : string) : list string :=
  match s with
  | EmptyString => [EmptyString]
  | String c rest =>
      if Ascii.eqb c sep then EmptyString :: split sep rest
      else match split sep rest with
           | [] => [String c EmptyString]
           | field :: fields => String c field :: fields
           end
  end.

(** Truth value of a string and of a list: non-empty. *)
Definition truthy_str (s : string) : bool :=
  match s with EmptyString => false | _ => true end.

Definition truthy_list {A : Type} (l : list A) : bool :=
  match l with [] => false | _ => true end.

Definition dquote : string := String (ascii_of_nat 34) EmptyString.

(** [json.dumps(s)] for a string without characters that need escaping. *)
Definition json_dumps_str (s : string) : string := dquote ++ s ++ dquote.

End Py.

(** ** Exceptions, service calls and traces *)

(** The value the handlers return, or wrap in the exception they raise. *)
Record lambda_response : Type := mk_response {
  statusCode : nat;
  body : string
}.

Inductive exn : Type :=
| ClientError (code : string) (text : string)
    (** [botocore.exceptions.ClientError]: [code] is
        [err.response['Error']['Code']], [text] is [str(err)] *)
| OtherError (name : string)
    (** any exception that is not a [ClientError] *)
| Exception_ (payload : lambda_response)
    (** [Exception(FAILURE_RESPONSE)] *).

(** The value under ['Actions'] in a permission entry: a list of action
    names, or the string that [apply_dataset_governance] starts from. *)
Inductive actions_value : Type :=
| ActionList (names : list string)
| ActionStr (s : string).

(** One permission entry of a data set, as [describe_data_set_permissions]
    lists it and as [update_data_set_permissions] takes it. *)
Record permission : Type := mk_permission {
  Principal : string;
  Actions : actions_value
}.

Record dataset_summary : Type := mk_dataset {
  Name : string;
  DataSetId : string
}.

(** An entry of the user manifest: [{username, email, groups}]. *)
Record user_entry : Type := mk_user_entry {
  entry_username : string;
  entry_email : string;
  entry_groups : list string
}.

(** An entry of the asset manifest. *)
Record asset_entry : Type := mk_asset_entry {
  entry_name : string;
  entry_category : string;
  entry_namespace : string;
  entry_asset_groups : list string;
  entry_permission : string
}.

(** A user of the Okta application, as [GET /apps/{appId}/users] returns it.
    [okta_profile] stands for every attribute the fetcher has no use for,
    the profile's e-mail address among them. *)
Record okta_user : Type := mk_okta_user {
  okta_id : string;
  credentials_userName : string;
  okta_profile : list (string * string)
}.

Record okta_group : Type := mk_okta_group {
  profile_name : string
}.

(** The calls the three jobs make, with the keyword arguments of the source.
    A keyword [update_data_set_permissions] is called without is the empty
    list here. *)
Inductive api_call : Type :=
| describe_namespace (AwsAccountId Namespace : string)
| create_namespace (AwsAccountId Namespace IdentityStore : string)
| describe_user (UserName AwsAccountId Namespace : string)
| register_user (IdentityType Email UserRole IamArn SessionName
                 AwsAccountId Namespace : string)
| update_user (UserName AwsAccountId Namespace Role Email : string)
| delete_user_ (UserName AwsAccountId Namespace : string)
| describe_group (GroupName AwsAccountId Namespace : string)
| create_group (GroupName AwsAccountId Namespace : string)
| list_user_groups (UserName AwsAccountId Namespace : string)
| create_group_membership (MemberName GroupName AwsAccountId Namespace : string)
| delete_group_membership (MemberName GroupName AwsAccountId Namespace : string)
| list_data_sets (AwsAccountId : string) (NextToken : option string)
| describe_data_set_permissions (AwsAccountId DataSetId_ : string)
| update_data_set_permissions (AwsAccountId DataSetId_ : string)
    (GrantPermissions RevokePermissions : list permission)
| s3_get_object (Bucket Key : string)
| s3_put_users (Bucket Key : string) (users : list user_entry)
| http_get (url authorization : string).

(** What a call hands back.  A job that looks for a key the answer does not
    have fails with a [KeyError]. *)
Inductive payload : Type :=
| Empty
| GroupList (names : list string)
| DataSetSummaries (page : list dataset_summary) (NextToken : option string)
| Permissions (perms : list permission)
| UsersDocument (users : list user_entry)
| AssetsDocument (assets : list asset_entry)
| OktaUsers (users : list okta_user)
| OktaGroups (groups : list okta_group).

Inductive response : Type :=
| Ok (p : payload)
| Err (e : exn).

Inductive event : Type :=
| Call (c : api_call) (r : response)
| Sleep (seconds : nat)
| LogInfo (msg : string)
| LogManifest (users : list user_entry)
| LogTraceback (e : exn).

Definition trace : Type := list event.

(** A remote service: a deterministic answer to every call, and the world
    after it. *)
Definition service (W : Type) : Type := W -> api_call -> response * W.

(** ** The monad of the jobs *)

Inductive result (A : Type) : Type :=
| Ret (a : A)
| Raise (e : exn)
| Timeout.
Arguments Ret {A} a.
Arguments Raise {A} e.
Arguments Timeout {A}.

Section Monad.

Context {W : Type}.
Variable serve : service W.

Definition M (A : Type) : Type := W -> result A * W * trace.

Definition ret {A : Type} (a : A) : M A := fun w => (Ret a, w, []).

Definition bind {A B : Type} (m : M A) (f : A -> M B) : M B :=
  fun w =>
    match m w with
    | (Ret a, w1, t1) => let '(r, w2, t2) := f a w1 in (r, w2, t1 ++ t2)
    | (Raise e, w1, t1) => (Raise e, w1, t1)
    | (Timeout, w1, t1) => (Timeout, w1, t1)
    end.

Definition raise {A : Type} (e : exn) : M A := fun w => (Raise e, w, []).

Definition timeout {A : Type} : M A := fun w => (Timeout, w, []).

Definition emit (e : event) : M unit := fun w => (Ret tt, w, [e]).

(** A call to a remote service: the answer is returned or raised, and the
    exchange is recorded. *)
Definition call (c : api_call) : M payload :=
  fun w =>
    let '(r, w1) := serve w c in
    match r with
    | Ok p => (Ret p, w1, [Call c r])
    | Err e => (Raise e, w1, [Call c r])
    end.

(** [try: body / except ClientError as err: handler] *)
Definition try_except_ClientError {A : Type}
    (body : M A) (handler : string -> string -> M A) : M A :=
  fun w =>
    match body w with
    | (Raise (ClientError code text), w1, t1) =>
        let '(r, w2, t2) := handler code text w1 in (r, w2, t1 ++ t2)
    | other => other
    end.

(** [try: body / except Exception as err: handler] *)
Definition try_except_Exception {A : Type}
    (body : M A) (handler : exn -> M A) : M A :=
  fun w =>
    match body w with
    | (Raise e, w1, t1) =>
        let '(r, w2, t2) := handler e w1 in (r, w2, t1 ++ t2)
    | other => other
    end.

(** [for x in l: body(x)] *)
Fixpoint for_each {A : Type} (l : list A) (body : A -> M unit) : M unit :=
  match l with
  | [] => ret tt
  | x :: rest => bind (body x) (fun _ => for_each rest body)
  end.

End Monad.

Declare Scope job_scope.
Delimit Scope job_scope with job.
Notation "x <- m ;; k" := (bind m (fun x => k))
  (at level 61, m at next level, right associativity) : job_scope.
Notation "m ;; k" := (bind m (fun _ => k))
  (at level 61, right associativity) : job_scope.
Local Open Scope job_scope.

(** ** [qs_user_gov.py]: user governance *)

Module QsUserGov.

Definition FAILURE_RESPONSE : lambda_response :=
  mk_response 400
    (Py.json_dumps_str "QuickSight User Governance execution has failed").

Definition SUCCESS_RESPONSE : lambda_response :=
  mk_response 200
    (Py.json_dumps_str "QuickSight User Governance execution complete").

(** The environment variables the module reads when it is loaded. *)
Record environ : Type := mk_environ {
  OKTA_ROLE_NAME : string;
  BUCKET : string;
  KEY : string;
  QS_PREFIX : string;
  QS_ADMIN_OKTA_GROUP : string;
  QS_AUTHOR_OKTA_GROUP : string;
  QS_READER_OKTA_GROUP : string
}.

(** The [OktaUser] data class; the last three fields are set by
    [__post_init__]. *)
Record OktaUser : Type := mk_OktaUser {
  username : string;
  email : string;
  groups : list string;
  account_id : string;
  namespace : string;
  qs_username : string;
  qs_groups : list string;
  qs_role : string
}.

Section Job.

Context {W : Type}.
Variable serve : service W.
Variable env : environ.

(** The chain of tests of [__post_init__] on the filtered groups. *)
Definition post_init_role (filtered : list string) : string :=
  if Py.list_in (QS_ADMIN_OKTA_GROUP env) filtered then "ADMIN"
  else if Py.list_in (QS_AUTHOR_OKTA_GROUP env) filtered then "AUTHOR"
  else if Py.list_in (QS_READER_OKTA_GROUP env) filtered then "READER"
  else "".

(** [OktaUser(username=..., email=..., groups=..., account_id=...,
    namespace=...)]: the generated [__init__] followed by
    [__post_init__]. *)
Definition new_OktaUser
    (username email : string) (groups : list string)
    (account_id namespace : string) : OktaUser :=
  let filtered :=
    filter (fun grp => Py.startswith grp (QS_PREFIX env)) groups in
  {| username := username;
     email := email;
     groups := groups;
     account_id := account_id;
     namespace := namespace;
     qs_username := OKTA_ROLE_NAME env ++ "/" ++ username;
     qs_groups := filtered;
     qs_role := post_init_role filtered |}.

Definition get_user_manifest (account_id : string) : M (list OktaUser) :=
  users <-
    try_except_ClientError
      (data <- call serve (s3_get_object (BUCKET env) (KEY env)) ;;
       match data with
       | UsersDocument users =>
           ret (map (fun user => (user, account_id, "default")) users)
       | _ => raise (OtherError "KeyError")
       end)
      (fun _ text =>
         emit (LogInfo ("Could not retrieve manifest file. Error: " ++ text)) ;;
         ret []) ;;
  ret (map (fun '(user, account_id, namespace) =>
              new_OktaUser (entry_username user) (entry_email user)
                           (entry_groups user) account_id namespace)
           users).

Definition create_if_not_exists_namespace (user : OktaUser) : M unit :=
  try_except_ClientError
    (call serve (describe_namespace (account_id user) (namespace user)) ;;
     ret tt)
    (fun _ _ =>
       call serve
         (create_namespace (account_id user) (namespace user) "QUICKSIGHT") ;;
       emit (Sleep 120) ;;
       emit (LogInfo ("Namespace [" ++ namespace user ++ "] created."))).

Definition register_if_not_exists_user (user : OktaUser) : M unit :=
  try_except_ClientError
    (call serve
       (describe_user (qs_username user) (account_id user) (namespace user)) ;;
     ret tt)
    (fun _ _ =>
       if Py.truthy_str (qs_role user) then
         call serve
           (register_user "IAM" (email user) (qs_role user)
              ("arn:aws:iam::" ++ account_id user ++ ":role/"
                 ++ OKTA_ROLE_NAME env)
              (email user) (account_id user) (namespace user)) ;;
         emit (LogInfo ("[" ++ qs_username user ++ "] added to Namespace ["
                          ++ namespace user ++ "]."))
       else ret tt).

Definition delete_user (user : OktaUser) : M unit :=
  call serve
    (delete_user_ (qs_username user) (account_id user) (namespace user)) ;;
  emit (LogInfo ("[" ++ qs_username user ++ "] deleted.")).

Definition update_role (user : OktaUser) : M bool :=
  try_except_ClientError
    (call serve
       (update_user (qs_username user) (account_id user) (namespace user)
          (qs_role user) (email user)) ;;
     emit (LogInfo ("[" ++ qs_username user ++ "] role set to: "
                      ++ qs_role user)) ;;
     ret true)
    (fun code _ =>
       if (code =? "ResourceNotFoundException")
          || (code =? "InvalidParameterValueException")
       then delete_user user ;; ret false
       else ret false).

Definition create_if_not_exists_groups (user : OktaUser) : M unit :=
  for_each (qs_groups user) (fun grp =>
    try_except_ClientError
      (call serve (describe_group grp (account_id user) (namespace user)) ;;
       ret tt)
      (fun _ _ =>
         call serve (create_group grp (account_id user) (namespace user)) ;;
         emit (Sleep 3) ;;
         emit (LogInfo ("Group [" ++ grp ++ "] added to namespace ["
                          ++ namespace user ++ "]")))).

Definition get_memberships (user : OktaUser) : M (list string) :=
  list_users_response <-
    call serve
      (list_user_groups (qs_username user) (account_id user)
         (namespace user)) ;;
  match list_users_response with
  | GroupList names => ret names
  | _ => raise (OtherError "KeyError")
  end.

Definition update_memberships (user : OktaUser) : M unit :=
  current_memberships <- get_memberships user ;;
  for_each (qs_groups user) (fun grp =>
    if negb (Py.list_in grp current_memberships) then
      call serve
        (create_group_membership (qs_username user) grp (account_id user)
           (namespace user)) ;;
      emit (LogInfo ("[" ++ qs_username user ++ "] assigned to Group ["
                       ++ grp ++ "]."))
    else ret tt) ;;
  for_each current_memberships (fun grp =>
    if negb (Py.list_in grp (qs_groups user)) then
      call serve
        (delete_group_membership (qs_username user) grp (account_id user)
           (namespace user)) ;;
      emit (LogInfo ("[" ++ qs_username user ++ "] removed from Group ["
                       ++ grp ++ "]."))
    else ret tt).

Definition apply_user_governance (user : OktaUser) : M unit :=
  create_if_not_exists_namespace user ;;
  register_if_not_exists_user user ;;
  updated <- update_role user ;;
  if updated then
    if Py.truthy_list (qs_groups user) then
      create_if_not_exists_groups user ;;
      update_memberships user
    else ret tt
  else ret tt.

(** [handler(event, context)]; [event] is the event as the f-string
    prints it, [invoked_function_arn] the one attribute of [context]
    that is read. *)
Definition handler (event invoked_function_arn : string)
    : M lambda_response :=
  emit (LogInfo ("event: " ++ event)) ;;
  account_id <-
    match nth_error (Py.split ":" invoked_function_arn) 4 with
    | Some field => ret field
    | None => raise (OtherError "IndexError")
    end ;;
  manifest <- get_user_manifest account_id ;;
  try_except_Exception
    (for_each manifest apply_user_governance ;;
     ret SUCCESS_RESPONSE)
    (fun err =>
       emit (LogTraceback err) ;;
       raise (Exception_ FAILURE_RESPONSE)).

End Job.

End QsUserGov.

(** ** [qs_asset_gov.py]: asset governance *)

Module QsAssetGov.

Definition FAILURE_RESPONSE : lambda_response :=
  mk_response 400 (Py.json_dumps_str "QuickSight asset governance has failed").

Definition SUCCESS_RESPONSE : lambda_response :=
  mk_response 200
    (Py.json_dumps_str "QuickSight asset governance execution complete").

(** [REGION] is read from the client when the module is loaded, [BUCKET]
    and [KEY] from the environment. *)
Record environ : Type := mk_environ {
  REGION : string;
  BUCKET : string;
  KEY : string
}.

Definition READ_ACTIONS : list string :=
  [ "quicksight:DescribeDataSet";
    "quicksight:DescribeDataSetPermissions";
    "quicksight:PassDataSet";
    "quicksight:DescribeIngestion";
    "quicksight:ListIngestions" ].

(** The [QuickSightAsset] data class. *)
Record QuickSightAsset : Type := mk_QuickSightAsset {
  name : string;
  category : string;
  namespace : string;
  groups : list string;
  permission_ : string;
  account_id : string
}.

(** [get_dataset_id(asset, all_datasets)]: the first data set of that
    name, or the empty string. *)
Fixpoint get_dataset_id (asset : QuickSightAsset)
    (all_datasets : list dataset_summary) : string :=
  match all_datasets with
  | [] => ""
  | dset :: rest =>
      if Name dset =? name asset then DataSetId dset
      else get_dataset_id asset rest
  end.

Section Job.

Context {W : Type}.
Variable serve : service W.
Variable env : environ.

(** The [while] loop of [get_all_datasets]; [fuel] bounds the number of
    further pages the invocation has the time to ask for. *)
Fixpoint next_pages (fuel : nat) (account_id : string)
    (all_datasets : list dataset_summary) (token : option string)
    : M (list dataset_summary) :=
  match token with
  | None => ret all_datasets
  | Some tok =>
      match fuel with
      | 0 => timeout
      | S fuel' =>
          resp <- call serve (list_data_sets account_id (Some tok)) ;;
          match resp with
          | DataSetSummaries page next =>
              next_pages fuel' account_id (all_datasets ++ page) next
          | _ => raise (OtherError "KeyError")
          end
      end
  end.

Definition get_all_datasets (fuel : nat) (account_id : string)
    : M (list dataset_summary) :=
  resp <- call serve (list_data_sets account_id None) ;;
  match resp with
  | DataSetSummaries page next => next_pages fuel account_id ([] ++ page) next
  | _ => raise (OtherError "KeyError")
  end.

Definition get_asset_manifest (account_id : string)
    : M (list QuickSightAsset) :=
  assets <-
    try_except_ClientError
      (data <- call serve (s3_get_object (BUCKET env) (KEY env)) ;;
       match data with
       | AssetsDocument assets =>
           ret (map (fun asset => (asset, account_id)) assets)
       | _ => raise (OtherError "KeyError")
       end)
      (fun _ text =>
         emit (LogInfo ("Could not retrieve manifest file. Error: " ++ text)) ;;
         ret []) ;;
  ret (map (fun '(asset, account_id) =>
              {| name := entry_name asset;
                 category := entry_category asset;
                 namespace := entry_namespace asset;
                 groups := entry_asset_groups asset;
                 permission_ := entry_permission asset;
                 account_id := account_id |})
           assets).

Definition failed_to_apply (asset : QuickSightAsset) (what whom : string)
    : string :=
  "Failed to apply permissions. Please validate that ["
    ++ category asset ++ "] [" ++ name asset ++ "], namespace ["
    ++ namespace asset ++ "], and " ++ what ++ " [" ++ whom
    ++ "] all exist in QuickSight.".

Definition group_principal (asset : QuickSightAsset) (group : string)
    : string :=
  "arn:aws:quicksight:" ++ REGION env ++ ":" ++ account_id asset
    ++ ":group/" ++ namespace asset ++ "/" ++ group.

Definition apply_dataset_governance (asset : QuickSightAsset)
    (dataset_id : string) : M unit :=
  let actions :=
    if permission_ asset =? "READ" then ActionList READ_ACTIONS
    else ActionStr "" in
  for_each (groups asset) (fun group =>
    let principal := group_principal asset group in
    try_except_ClientError
      (call serve
         (update_data_set_permissions (account_id asset) dataset_id
            [ {| Principal := principal; Actions := actions |} ] []) ;;
       emit (LogInfo ("Dataset [" ++ name asset
                        ++ "] permissions given to group [" ++ group
                        ++ "] in namespace [" ++ namespace asset ++ "]")))
      (fun code _ =>
         if code =? "InvalidParameterValueException" then
           emit (LogInfo (failed_to_apply asset "group" group))
         else ret tt)).

Definition reset_dataset_permissions (asset : QuickSightAsset)
    (dataset_id : string) : M unit :=
  resp <-
    call serve (describe_data_set_permissions (account_id asset) dataset_id) ;;
  permissions <-
    match resp with
    | Permissions perms => ret perms
    | _ => raise (OtherError "KeyError")
    end ;;
  for_each permissions (fun permission =>
    let principal := Principal permission in
    let actions := Actions permission in
    if Py.str_in "group" principal then
      try_except_ClientError
        (call serve
           (update_data_set_permissions (account_id asset) dataset_id
              [] [ {| Principal := principal; Actions := actions |} ]) ;;
         ret tt)
        (fun code _ =>
           if code =? "InvalidParameterValueException" then
             emit (LogInfo (failed_to_apply asset "principal" principal))
           else ret tt)
    else ret tt) ;;
  emit (LogInfo ("Permissions reset for [" ++ category asset ++ "] ["
                   ++ name asset ++ "]")).

(** The body of the [for] loop of [handler]. *)
Definition govern_asset (all_datasets : list dataset_summary)
    (asset : QuickSightAsset) : M unit :=
  if category asset =? "dataset" then
    let dataset_id := get_dataset_id asset all_datasets in
    reset_dataset_permissions asset dataset_id ;;
    apply_dataset_governance asset dataset_id
  else ret tt.

Definition handler (fuel : nat) (event invoked_function_arn : string)
    : M lambda_response :=
  emit (LogInfo ("event: " ++ event)) ;;
  account_id <-
    match nth_error (Py.split ":" invoked_function_arn) 4 with
    | Some field => ret field
    | None => raise (OtherError "IndexError")
    end ;;
  all_datasets <- get_all_datasets fuel account_id ;;
  manifest <- get_asset_manifest account_id ;;
  try_except_Exception
    (for_each manifest (govern_asset all_datasets) ;;
     ret SUCCESS_RESPONSE)
    (fun err =>
       emit (LogTraceback err) ;;
       raise (Exception_ FAILURE_RESPONSE)).

End Job.

End QsAssetGov.

(** ** [get_okta_info.py]: the Okta fetcher *)

Module GetOktaInfo.

Definition FAILURE_RESPONSE : lambda_response :=
  mk_response 400
    (Py.json_dumps_str "Okta User Information Retrieval execution has failed").

Definition SUCCESS_RESPONSE : lambda_response :=
  mk_response 200
    (Py.json_dumps_str "Okta User Information Retrieval execution complete").

(** The environment variables and the secrets the module reads when it is
    loaded. *)
Record environ : Type := mk_environ {
  BUCKET : string;
  KEY : string;
  OKTA_ACCT_ID : string;
  OKTA_APP_ID : string;
  OKTA_APP_TOKEN : string
}.

Section Job.

Context {W : Type}.
Variable serve : service W.
Variable env : environ.

Definition OKTA_URL : string :=
  "https://" ++ OKTA_ACCT_ID env ++ ".okta.com/api/v1".

Definition OKTA_AUTH : string := "SSWS " ++ OKTA_APP_TOKEN env.

Definition get_users : M (list okta_user) :=
  let request_url :=
    (OKTA_URL ++ "/apps/" ++ OKTA_APP_ID env ++ "/users")%string in
  okta_users_request <- call serve (http_get request_url OKTA_AUTH) ;;
  emit (LogInfo ("Retrieved Okta Users Information from " ++ request_url)) ;;
  match okta_users_request with
  | OktaUsers users => ret users
  | _ => raise (OtherError "JSONDecodeError")
  end.

Definition get_users_groups (okta_user_id : string) : M (list okta_group) :=
  let request_url :=
    (OKTA_URL ++ "/users/" ++ okta_user_id ++ "/groups")%string in
  group_memberships_request <- call serve (http_get request_url OKTA_AUTH) ;;
  emit (LogInfo ("Retrieved Okta Users Groups Memberships from "
                   ++ request_url)) ;;
  match group_memberships_request with
  | OktaGroups group_memberships => ret group_memberships
  | _ => raise (OtherError "JSONDecodeError")
  end.

(** The [for usr in users] loop of [build_user_governance_manifest];
    [user_manifest] is the list under ["users"] built so far. *)
Fixpoint append_users (users : list okta_user)
    (user_manifest : list user_entry) : M (list user_entry) :=
  match users with
  | [] => ret user_manifest
  | usr :: rest =>
      group_memberships <- get_users_groups (okta_id usr) ;;
      let groups := [] ++ map profile_name group_memberships in
      append_users rest
        (user_manifest ++
           [ {| entry_username := credentials_userName usr;
                entry_email := credentials_userName usr;
                entry_groups := groups |} ])
  end.

Definition build_user_governance_manifest (users : list okta_user)
    : M (list user_entry) :=
  user_manifest <- append_users users [] ;;
  emit (LogManifest user_manifest) ;;
  ret user_manifest.

Definition upload_to_s3 (json_data : list user_entry) : M unit :=
  call serve (s3_put_users (BUCKET env) (KEY env) json_data) ;;
  emit (LogInfo ("Manifest uploaded to s3://" ++ BUCKET env ++ "/"
                   ++ KEY env)).

Definition handler (event : string) : M lambda_response :=
  emit (LogInfo ("event: " ++ event)) ;;
  try_except_Exception
    (users <- get_users ;;
     manifest <- build_user_governance_manifest users ;;
     upload_to_s3 manifest ;;
     ret SUCCESS_RESPONSE)
    (fun err =>
       emit (LogTraceback err) ;;
       raise (Exception_ FAILURE_RESPONSE)).

End Job.

End GetOktaInfo.

(** ** A stubbed client

    The client every concrete run below is made with: the answers are queued
    beforehand and handed out in the order of the calls, whatever the call. *)

Module Stubber.

Definition world : Type := list response.

Definition serve : service world :=
  fun w _ =>
    match w with
    | r :: rest => (r, rest)
    | [] => (Err (OtherError "StubResponseError"), [])
    end.

End Stubber.

(** ** Reading a trace *)

Module Tr.

(** The calls of a trace, in the order they were issued. *)
Definition calls (t : trace) : list api_call :=
  flat_map (fun e => match e with Call c _ => [c] | _ => [] end) t.

(** How many calls of a trace satisfy [p]. *)
Definition count (p : api_call -> bool) (t : trace) : nat :=
  length (filter p (calls t)).

Definition is_register_user (c : api_call) : bool :=
  match c with register_user _ _ _ _ _ _ _ => true | _ => false end.

Definition is_update_user (c : api_call) : bool :=
  match c with update_user _ _ _ _ _ => true | _ => false end.

(** [delete_user] for the QuickSight user [user_name]. *)
Definition is_delete_user_of (user_name : string) (c : api_call) : bool :=
  match c with delete_user_ n _ _ => n =? user_name | _ => false end.

Definition is_delete_user (c : api_call) : bool :=
  match c with delete_user_ _ _ _ => true | _ => false end.

Definition is_describe_namespace (c : api_call) : bool :=
  match c with describe_namespace _ _ => true | _ => false end.

Definition is_describe_group (c : api_call) : bool :=
  match c with describe_group _ _ _ => true | _ => false end.

Definition is_create_group_membership (c : api_call) : bool :=
  match c with create_group_membership _ _ _ _ => true | _ => false end.

Definition is_delete_group_membership (c : api_call) : bool :=
  match c with delete_group_membership _ _ _ _ => true | _ => false end.

(** Every call that looks at, creates or changes a group or a membership. *)
Definition is_group_operation (c : api_call) : bool :=
  match c with
  | describe_group _ _ _ | create_group _ _ _ | list_user_groups _ _ _
  | create_group_membership _ _ _ _ | delete_group_membership _ _ _ _ => true
  | _ => false
  end.

(** Every call that changes something at the remote end. *)
Definition is_mutation (c : api_call) : bool :=
  match c with
  | create_namespace _ _ _ | register_user _ _ _ _ _ _ _
  | update_user _ _ _ _ _ | delete_user_ _ _ _ | create_group _ _ _
  | create_group_membership _ _ _ _ | delete_group_membership _ _ _ _
  | update_data_set_permissions _ _ _ _ | s3_put_users _ _ _ => true
  | _ => false
  end.

(** A call of [update_data_set_permissions] that grants, and one that
    revokes. *)
Definition is_grant (c : api_call) : bool :=
  match c with
  | update_data_set_permissions _ _ (_ :: _) _ => true
  | _ => false
  end.

Definition is_revoke (c : api_call) : bool :=
  match c with
  | update_data_set_permissions _ _ _ (_ :: _) => true
  | _ => false
  end.

(** No revoke is issued once a grant has been. *)
Definition revokes_before_grants (t : trace) : Prop :=
  forall before after c,
    calls t = before ++ c :: after ->
    is_grant c = true ->
    forall c', In c' after -> is_revoke c' = false.

End Tr.

(** ** The role ladder, as the specification words it

    admin > author > reader > none: the role of the first rung whose group
    is among the relevant groups of the user. *)

Module Ladder.

Definition rungs (env : QsUserGov.environ) : list (string * string) :=
  [ (QsUserGov.QS_ADMIN_OKTA_GROUP env, "ADMIN");
    (QsUserGov.QS_AUTHOR_OKTA_GROUP env, "AUTHOR");
    (QsUserGov.QS_READER_OKTA_GROUP env, "READER") ].

Definition highest_role (env : QsUserGov.environ) (relevant : list string)
    : string :=
  match find (fun rung => Py.list_in (fst rung) relevant) (rungs env) with
  | Some rung => snd rung
  | None => ""
  end.

End Ladder.

(** The values [cdk_modules/config.py] and the stack give the environment of
    the user governance function; the bucket name is generated at
    deployment. *)
Definition deployed_user_gov (bucket : string) : QsUserGov.environ :=
  {| QsUserGov.OKTA_ROLE_NAME := "QSGovernance" ++ "-" ++ "FederatedQuickSightRole";
     QsUserGov.BUCKET := bucket;
     QsUserGov.KEY := "qs-user-governance.json";
     QsUserGov.QS_PREFIX := "qs_";
     QsUserGov.QS_ADMIN_OKTA_GROUP := "qs_role_admin";
     QsUserGov.QS_AUTHOR_OKTA_GROUP := "qs_role_author";
     QsUserGov.QS_READER_OKTA_GROUP := "qs_role_reader" |}.

(** The manifest of the end-to-end scenario: one user, in the reader group. *)
Definition single_reader_manifest : list user_entry :=
  [ {| entry_username := "a@x.com";
       entry_email := "a@x.com";
       entry_groups := ["qs_role_reader"] |} ].

(** How a QuickSight account that does not have the user yet answers during
    the scenario: [describe_user] fails with a [ClientError], the new user
    belongs to no group, [describe_namespace] and [describe_group] either
    find what they look for or fail with a [ClientError], and every other
    call succeeds. *)
Definition fresh_account_exchange (e : event) : Prop :=
  match e with
  | Call (s3_get_object _ _) _ => True
  | Call (describe_user _ _ _) r =>
      match r with Err (ClientError _ _) => True | _ => False end
  | Call (list_user_groups _ _ _) r => r = Ok (GroupList [])
  | Call (describe_namespace _ _) r | Call (describe_group _ _ _) r =>
      match r with Ok _ | Err (ClientError _ _) => True | _ => False end
  | Call _ r => match r with Ok _ => True | _ => False end
  | _ => True
  end.

(** [refused is_call t]: the trace [t] holds a call selected by [is_call]
    that was answered with a [ClientError]. *)
Definition refused (is_call : api_call -> bool) (t : trace) : bool :=
  existsb (fun e => match e with
                    | Call c (Err (ClientError _ _)) => is_call c
                    | _ => false
                    end) t.

(** The pauses of a trace, in seconds, in the order they were made. *)
Definition pauses (t : trace) : list nat :=
  flat_map (fun e => match e with Sleep seconds => [seconds] | _ => [] end) t.

(** The revoke [reset_dataset_permissions] issues for one permission entry,
    and the test it selects the entries with. *)
Definition revoke_call (asset : QsAssetGov.QuickSightAsset)
    (dataset_id : string) (p : permission) : api_call :=
  update_data_set_permissions (QsAssetGov.account_id asset) dataset_id [] [p].

Definition mentions_group (p : permission) : bool :=
  Py.str_in "group" (Principal p).

(** Events that are not a grant; events that are not a revoke; events that
    change nothing at the remote end. *)
Definition no_grant_event (e : event) : Prop :=
  match e with Call c _ => Tr.is_grant c = false | _ => True end.

Definition no_revoke_event (e : event) : Prop :=
  match e with Call c _ => Tr.is_revoke c = false | _ => True end.

Definition read_only_event (e : event) : Prop :=
  match e with Call c _ => Tr.is_mutation c = false | _ => True end.

(** An entry of the user manifest whose e-mail address is its user name. *)
Definition email_is_username (entry : user_entry) : Prop :=
  entry_email entry = entry_username entry.

(** [emits_only P m]: whatever the world, every event of [m] satisfies [P]. *)
Definition emits_only {W A : Type} (P : event -> Prop) (m : @M W A) : Prop :=
  forall w, Forall P (snd (m w)).

(** The events of the group synchronisation: calls on groups and
    memberships, pauses and log lines. *)
Definition group_sync_event (e : event) : Prop :=
  match e with
  | Call c _ => Tr.is_group_operation c = true
  | _ => True
  end.

(** ** Concrete runs

    The inputs of the runs the properties are tried on: an account, the
    environment of each function, manifests, and the answers queued in the
    stubbed client. *)

Module Example.

Definition account : string := "111122223333".

Definition function_arn : string :=
  "arn:aws:lambda:us-east-1:111122223333:function:QSGovernance-Job".

Definition user_env : QsUserGov.environ := deployed_user_gov "qs-governance".

Definition asset_env : QsAssetGov.environ :=
  {| QsAssetGov.REGION := "us-east-1";
     QsAssetGov.BUCKET := "qs-governance";
     QsAssetGov.KEY := "qs-asset-governance.json" |}.

Definition okta_env : GetOktaInfo.environ :=
  {| GetOktaInfo.BUCKET := "qs-governance";
     GetOktaInfo.KEY := "qs-user-governance.json";
     GetOktaInfo.OKTA_ACCT_ID := "dev-000000";
     GetOktaInfo.OKTA_APP_ID := "0oa1";
     GetOktaInfo.OKTA_APP_TOKEN := "token" |}.

Definition client_error (code : string) : response :=
  Err (ClientError code ("An error occurred (" ++ code ++ ")")).

(** A user who is in the reader group, and one who has lost every role
    group but is still in a group with the QuickSight prefix. *)
Definition reader : QsUserGov.OktaUser :=
  QsUserGov.new_OktaUser user_env "a@x.com" "a@x.com" ["qs_role_reader"]
    account "default".

Definition downgraded : QsUserGov.OktaUser :=
  QsUserGov.new_OktaUser user_env "b@x.com" "b@x.com"
    ["Everyone"; "qs_group_ops"] account "default".

(** The namespace and the user exist, the role update is refused, the
    user is deleted. *)
Definition downgrade_answers : Stubber.world :=
  [ Ok Empty; Ok Empty; client_error "InvalidParameterValueException";
    Ok Empty ].

(** The end-to-end scenario: the manifest, the namespace exists, the user
    does not, the registration and the update succeed, the group does not
    exist and is created, the user has no membership, the membership is
    created. *)
Definition fresh_account_answers : Stubber.world :=
  [ Ok (UsersDocument single_reader_manifest);
    Ok Empty;
    client_error "ResourceNotFoundException";
    Ok Empty;
    Ok Empty;
    client_error "ResourceNotFoundException";
    Ok Empty;
    Ok (GroupList []);
    Ok Empty ].

(** A data set [sales] with three permission entries: a group, a user
    whose name contains the text ["group"], and another user. *)
Definition sales : QsAssetGov.QuickSightAsset :=
  {| QsAssetGov.name := "sales";
     QsAssetGov.category := "dataset";
     QsAssetGov.namespace := "default";
     QsAssetGov.groups := ["qs_group_finance"];
     QsAssetGov.permission_ := "READ";
     QsAssetGov.account_id := account |}.

Definition listing : list dataset_summary :=
  [ {| Name := "sales"; DataSetId := "ds-1" |} ].

Definition group_entry : permission :=
  {| Principal :=
       "arn:aws:quicksight:us-east-1:111122223333:group/default/qs_group_ops";
     Actions := ActionList QsAssetGov.READ_ACTIONS |}.

Definition workgroup_user_entry : permission :=
  {| Principal :=
       "arn:aws:quicksight:us-east-1:111122223333:user/default/workgroup-admin";
     Actions := ActionList ["quicksight:UpdateDataSet"] |}.

Definition other_user_entry : permission :=
  {| Principal :=
       "arn:aws:quicksight:us-east-1:111122223333:user/default/alice";
     Actions := ActionList ["quicksight:UpdateDataSet"] |}.

Definition sales_permissions : list permission :=
  [ group_entry; workgroup_user_entry; other_user_entry ].

Definition reset_answers : Stubber.world :=
  [ Ok (Permissions sales_permissions); Ok Empty; Ok Empty ].

Definition govern_answers : Stubber.world := reset_answers ++ [ Ok Empty ].

(** An asset manifest whose first entry names a data set the account does
    not have. *)
Definition missing_then_sales : list asset_entry :=
  [ {| entry_name := "missing";
       entry_category := "dataset";
       entry_namespace := "default";
       entry_asset_groups := ["qs_group_ops"];
       entry_permission := "READ" |};
    {| entry_name := "sales";
       entry_category := "dataset";
       entry_namespace := "default";
       entry_asset_groups := ["qs_group_finance"];
       entry_permission := "READ" |} ].

Definition missing : QsAssetGov.QuickSightAsset :=
  {| QsAssetGov.name := "missing";
     QsAssetGov.category := "dataset";
     QsAssetGov.namespace := "default";
     QsAssetGov.groups := ["qs_group_ops"];
     QsAssetGov.permission_ := "READ";
     QsAssetGov.account_id := account |}.

Definition missing_dataset_answers : Stubber.world :=
  [ Ok (DataSetSummaries listing None);
    Ok (AssetsDocument missing_then_sales);
    client_error "InvalidParameterValueException" ].

(** An Okta user whose profile has an e-mail address that is not the user
    name. *)
Definition okta_alice : okta_user :=
  {| okta_id := "00u1";
     credentials_userName := "a@x.com";
     okta_profile := [ ("email", "alice@corp.example") ] |}.

Definition okta_answers : Stubber.world :=
  [ Ok (OktaGroups [ {| profile_name := "Everyone" |};
                     {| profile_name := "qs_role_reader" |} ]) ].

End Example.

(** ** Further notions for the properties of the jobs *)

(** [listed serve account_id w token pages w']: from the world [w], the
    requests for the pages after the continuation [token] are answered with
    [pages], one after the other, and leave the world [w']. *)
Inductive listed {W : Type} (serve : service W) (account_id : string)
    : W -> option string -> list (list dataset_summary) -> W -> Prop :=
| listed_end (w : W) : listed serve account_id w None [] w
| listed_page (w w1 w' : W) (tok : string) (page : list dataset_summary)
    (next : option string) (pages : list (list dataset_summary)) :
    serve w (list_data_sets account_id (Some tok))
      = (Ok (DataSetSummaries page next), w1) ->
    listed serve account_id w1 next pages w' ->
    listed serve account_id w (Some tok) (page :: pages) w'.

(** The grant [apply_dataset_governance] issues for one group of an asset. *)
Definition grant_call (env : QsAssetGov.environ)
    (asset : QsAssetGov.QuickSightAsset) (dataset_id group : string)
    : api_call :=
  update_data_set_permissions (QsAssetGov.account_id asset) dataset_id
    [ {| Principal :=
           "arn:aws:quicksight:" ++ QsAssetGov.REGION env ++ ":"
             ++ QsAssetGov.account_id asset ++ ":group/"
             ++ QsAssetGov.namespace asset ++ "/" ++ group;
         Actions :=
           if QsAssetGov.permission_ asset =? "READ"
           then ActionList QsAssetGov.READ_ACTIONS
           else ActionStr "" |} ]
    [].

(** The result of a computation is not a [ClientError]. *)
Definition no_client_error {A : Type} (r : result A) : Prop :=
  match r with
  | Raise (ClientError _ _) => False
  | _ => True
  end.

(** The calls [update_memberships] makes to add a user to a group and to
    remove the user from one. *)
Definition add_membership_call (user : QsUserGov.OktaUser) (grp : string)
    : api_call :=
  create_group_membership (QsUserGov.qs_username user) grp
    (QsUserGov.account_id user) (QsUserGov.namespace user).

Definition remove_membership_call (user : QsUserGov.OktaUser) (grp : string)
    : api_call :=
  delete_group_membership (QsUserGov.qs_username user) grp
    (QsUserGov.account_id user) (QsUserGov.namespace user).

(** The [update_user] call of a user. *)
Definition update_user_call (user : QsUserGov.OktaUser) : api_call :=
  update_user (QsUserGov.qs_username user) (QsUserGov.account_id user)
    (QsUserGov.namespace user) (QsUserGov.qs_role user)
    (QsUserGov.email user).

(** A registration as an IAM identity, with the e-mail address as session
    name and one of the three roles. *)
Definition registers_with_role (e : event) : Prop :=
  match e with
  | Call (register_user identity_type email_ role _ session _ _) _ =>
      identity_type = "IAM" /\ session = email_
      /\ (role = "ADMIN" \/ role = "AUTHOR" \/ role = "READER")
  | _ => True
  end.

(** [finishes m]: whatever the world, [m] does not run out of time. *)
Definition finishes {W A : Type} (m : @M W A) : Prop :=
  forall w, fst (fst (m w)) <> Timeout.

(** [returns Q m]: whatever [m] returns satisfies [Q]. *)
Definition returns {W A : Type} (Q : A -> Prop) (m : @M W A) : Prop :=
  forall w a w' t, m w = (Ret a, w', t) -> Q a.

(** The users [get_user_manifest] builds: made by the data class from an
    entry of the manifest. *)
Definition from_manifest (env : QsUserGov.environ) (user : QsUserGov.OktaUser)
    : Prop :=
  exists username email groups account_id namespace,
    user = QsUserGov.new_OktaUser env username email groups account_id
             namespace.

Definition is_s3_get_object (c : api_call) : bool :=
  match c with s3_get_object _ _ => true | _ => false end.

Definition is_s3_put_users (c : api_call) : bool :=
  match c with s3_put_users _ _ _ => true | _ => false end.

(** An event that is not a request to Okta that failed. *)
Definition okta_answered (e : event) : Prop :=
  match e with
  | Call (http_get _ _) (Err _) => False
  | _ => True
  end.

(** The request [get_users_groups] makes for one Okta user, and the group
    names the answers of a trace carry, answer by answer. *)
Definition groups_request (env : GetOktaInfo.environ) (usr : okta_user)
    : api_call :=
  http_get (GetOktaInfo.OKTA_URL env ++ "/users/" ++ okta_id usr ++ "/groups")
    (GetOktaInfo.OKTA_AUTH env).

Definition answered_groups (t : trace) : list (list string) :=
  flat_map (fun e =>
              match e with
              | Call _ (Ok (OktaGroups groups)) => [map profile_name groups]
              | _ => []
              end) t.

Definition no_traceback (e : event) : Prop :=
  match e with LogTraceback _ => False | _ => True end.

Definition no_upload_event (e : event) : Prop :=
  match e with Call c _ => is_s3_put_users c = false | _ => True end.

(** ** Further concrete runs *)

Module More.

(** A listing with two data sets of the same name, in three pages. *)
Definition other_ds : dataset_summary := {| Name := "other"; DataSetId := "ds-0" |}.
Definition sales_ds : dataset_summary := {| Name := "sales"; DataSetId := "ds-1" |}.
Definition sales_again : dataset_summary := {| Name := "sales"; DataSetId := "ds-2" |}.

Definition three_pages : Stubber.world :=
  [ Ok (DataSetSummaries [other_ds] (Some "page-2"));
    Ok (DataSetSummaries [sales_ds] (Some "page-3"));
    Ok (DataSetSummaries [sales_again] None) ].

(** An asset with two groups; the first grant is refused. *)
Definition shared : QsAssetGov.QuickSightAsset :=
  {| QsAssetGov.name := "sales";
     QsAssetGov.category := "dataset";
     QsAssetGov.namespace := "default";
     QsAssetGov.groups := ["qs_group_ops"; "qs_group_finance"];
     QsAssetGov.permission_ := "READ";
     QsAssetGov.account_id := Example.account |}.

Definition refused_then_granted : Stubber.world :=
  [ Example.client_error "AccessDeniedException"; Ok Empty ].

(** The reset of [sales] with the first revoke refused. *)
Definition refused_revoke : Stubber.world :=
  [ Ok (Permissions Example.sales_permissions);
    Example.client_error "ThrottlingException"; Ok Empty ].

(** An asset manifest without a data set: a dashboard, and a data set whose
    category is written with a capital letter. *)
Definition no_dataset : list asset_entry :=
  [ {| entry_name := "overview";
       entry_category := "dashboard";
       entry_namespace := "default";
       entry_asset_groups := ["qs_group_ops"];
       entry_permission := "READ" |};
    {| entry_name := "sales";
       entry_category := "Dataset";
       entry_namespace := "default";
       entry_asset_groups := ["qs_group_ops"];
       entry_permission := "READ" |} ].

Definition no_dataset_answers : Stubber.world :=
  [ Ok (DataSetSummaries Example.listing None); Ok (AssetsDocument no_dataset) ].

(** A reader who is also in [qs_group_ops], and who QuickSight has in
    [qs_old] and [qs_role_reader]. *)
Definition analyst : QsUserGov.OktaUser :=
  QsUserGov.new_OktaUser Example.user_env "c@x.com" "c@x.com"
    ["Everyone"; "qs_role_reader"; "qs_group_ops"] Example.account "default".

Definition analyst_memberships : list string := ["qs_old"; "qs_role_reader"].

Definition reconcile_answers : Stubber.world :=
  [ Ok (GroupList analyst_memberships); Ok Empty; Ok Empty ].

(** [qs_role_reader] exists, [qs_group_ops] does not. *)
Definition ensure_answers : Stubber.world :=
  [ Ok Empty; Example.client_error "ResourceNotFoundException"; Ok Empty ].

(** The reader is known and in sync. *)
Definition steady_answers : Stubber.world :=
  [ Ok Empty; Ok Empty; Ok Empty; Ok Empty; Ok (GroupList ["qs_role_reader"]) ].

(** The role update is throttled. *)
Definition throttled_answers : Stubber.world :=
  [ Ok Empty; Ok Empty; Example.client_error "ThrottlingException" ].

(** The downgraded user is not in QuickSight: the delete fails. *)
Definition unknown_downgraded_answers : Stubber.world :=
  [ Ok Empty;
    Example.client_error "ResourceNotFoundException";
    Example.client_error "InvalidParameterValueException";
    Example.client_error "ResourceNotFoundException" ].

(** An environment whose admin group does not have the prefix. *)
Definition misnamed_admin : QsUserGov.environ :=
  {| QsUserGov.OKTA_ROLE_NAME := "QSGovernance-FederatedQuickSightRole";
     QsUserGov.BUCKET := "qs-governance";
     QsUserGov.KEY := "qs-user-governance.json";
     QsUserGov.QS_PREFIX := "qs_";
     QsUserGov.QS_ADMIN_OKTA_GROUP := "role_admin";
     QsUserGov.QS_AUTHOR_OKTA_GROUP := "qs_role_author";
     QsUserGov.QS_READER_OKTA_GROUP := "qs_role_reader" |}.

(** A manifest of three users; the second has no role and is not in
    QuickSight. *)
Definition entry_a : user_entry :=
  {| entry_username := "a@x.com"; entry_email := "a@x.com";
     entry_groups := ["qs_role_reader"] |}.
Definition entry_b : user_entry :=
  {| entry_username := "b@x.com"; entry_email := "b@x.com";
     entry_groups := ["Everyone"; "qs_group_ops"] |}.
Definition entry_c : user_entry :=
  {| entry_username := "c@x.com"; entry_email := "c@x.com";
     entry_groups := ["qs_role_author"] |}.

Definition three_users_answers : Stubber.world :=
  Ok (UsersDocument [entry_a; entry_b; entry_c])
    :: steady_answers ++ unknown_downgraded_answers.

(** The description of the namespace is refused for want of a permission;
    the creation is accepted. *)
Definition denied_namespace_answers : Stubber.world :=
  [ Example.client_error "AccessDeniedException"; Ok Empty ].

End More.

(** ** Data sets over a whole run *)

(** The calls on the permissions of the data set [dataset_id]. *)
Definition on_data_set (dataset_id : string) (c : api_call) : bool :=
  match c with
  | describe_data_set_permissions _ id
  | update_data_set_permissions _ id _ _ => id =? dataset_id
  | _ => false
  end.

(** Among the calls [cs], no revoke on the data set [dataset_id] comes after
    a grant on that data set. *)
Definition reset_before_grants_on (dataset_id : string)
    (cs : list api_call) : Prop :=
  forall before after c c',
    cs = before ++ c :: after ->
    on_data_set dataset_id c = true -> Tr.is_grant c = true ->
    In c' after -> on_data_set dataset_id c' = true ->
    Tr.is_revoke c' = false.

(** Events that are not a call on the data set, and events that are not a
    call on another data set or on anything else. *)
Definition off_data_set (dataset_id : string) (e : event) : Prop :=
  match e with Call c _ => on_data_set dataset_id c = false | _ => True end.

Definition about_data_set (dataset_id : string) (e : event) : Prop :=
  match e with Call c _ => on_data_set dataset_id c = true | _ => True end.

(** The data sets the entries of category ["dataset"] of a manifest resolve
    to, in the order of the manifest. *)
Definition governed_data_sets (all_datasets : list dataset_summary)
    (manifest : list QsAssetGov.QuickSightAsset) : list string :=
  map (fun asset => QsAssetGov.get_dataset_id asset all_datasets)
    (filter (fun asset => QsAssetGov.category asset =? "dataset") manifest).

Module Scenario.

(** An asset manifest with two entries for the data set [sales], the first
    for the group [qs_group_finance] and the second for [qs_group_ops]. *)
Definition sales_twice : list asset_entry :=
  [ {| entry_name := "sales";
       entry_category := "dataset";
       entry_namespace := "default";
       entry_asset_groups := ["qs_group_finance"];
       entry_permission := "READ" |};
    {| entry_name := "sales";
       entry_category := "dataset";
       entry_namespace := "default";
       entry_asset_groups := ["qs_group_ops"];
       entry_permission := "READ" |} ].

Definition finance_entry : permission :=
  {| Principal :=
       "arn:aws:quicksight:us-east-1:111122223333:group/default/qs_group_finance";
     Actions := ActionList QsAssetGov.READ_ACTIONS |}.

Definition ops_entry : permission :=
  {| Principal :=
       "arn:aws:quicksight:us-east-1:111122223333:group/default/qs_group_ops";
     Actions := ActionList QsAssetGov.READ_ACTIONS |}.

(** The data set has no permission at first; the second describe call
    lists what the first entry has been granted. *)
Definition sales_twice_answers : Stubber.world :=
  [ Ok (DataSetSummaries Example.listing None);
    Ok (AssetsDocument sales_twice);
    Ok (Permissions []);
    Ok Empty;
    Ok (Permissions [finance_entry]);
    Ok Empty;
    Ok Empty ].


(** An asset manifest with two data sets, and an account that has both;
    [sales] has a permission for the group [qs_group_ops]. *)
Definition two_data_sets : list asset_entry :=
  [ {| entry_name := "sales";
       entry_category := "dataset";
       entry_namespace := "default";
       entry_asset_groups := ["qs_group_finance"];
       entry_permission := "READ" |};
    {| entry_name := "other";
       entry_category := "dataset";
       entry_namespace := "default";
       entry_asset_groups := ["qs_group_ops"];
       entry_permission := "READ" |} ].

Definition two_data_sets_answers : Stubber.world :=
  [ Ok (DataSetSummaries [More.other_ds; More.sales_ds] None);
    Ok (AssetsDocument two_data_sets);
    Ok (Permissions [Example.group_entry]);
    Ok Empty;
    Ok Empty;
    Ok (Permissions []);
    Ok Empty ].

End Scenario.

(** * Properties *)

(** ** Strings and lists *)

Lemma list_in_true (x : string) (l : list string) :
  Py.list_in x l = true <-> In x l.
Proof.
  unfold Py.list_in. rewrite existsb_exists. split.
  - intros [y [Hy E]]. apply String.eqb_eq in E. now subst.
  - intros H. exists x. split; [exact H | apply String.eqb_refl].
Qed.

Lemma list_in_false (x : string) (l : list string) :
  Py.list_in x l = false <-> ~ In x l.
Proof.
  rewrite <- list_in_true. destruct (Py.list_in x l); split; intros H;
    try reflexivity; try discriminate; try (intros H'; discriminate).
  exfalso. apply H. reflexivity.
Qed.


(** ** The resolved role *)

Section Role.

Variable env : QsUserGov.environ.

(** C2.  The role [__post_init__] gives a user is the ladder lookup over
    the user's groups filtered by prefix: ADMIN exactly when the admin
    group is among them, AUTHOR exactly when the admin group is not and the
    author group is, READER exactly when neither of these is and the reader
    group is, the empty role exactly when none of the three is.  The role is
    therefore one of these four values, and only one. *)
Theorem role_is_priority_lookup
    (username email : string) (groups : list string)
    (account_id namespace : string) :
  let user :=
    QsUserGov.new_OktaUser env username email groups account_id namespace in
  let relevant := filter (fun grp => Py.startswith grp (QsUserGov.QS_PREFIX env)) groups in
  let admin := Py.list_in (QsUserGov.QS_ADMIN_OKTA_GROUP env) relevant in
  let author := Py.list_in (QsUserGov.QS_AUTHOR_OKTA_GROUP env) relevant in
  let reader := Py.list_in (QsUserGov.QS_READER_OKTA_GROUP env) relevant in
  QsUserGov.qs_groups user = relevant
  /\ QsUserGov.qs_role user = Ladder.highest_role env relevant
  /\ (QsUserGov.qs_role user = "ADMIN" <-> admin = true)
  /\ (QsUserGov.qs_role user = "AUTHOR" <-> admin = false /\ author = true)
  /\ (QsUserGov.qs_role user = "READER"
      <-> admin = false /\ author = false /\ reader = true)
  /\ (QsUserGov.qs_role user = ""
      <-> admin = false /\ author = false /\ reader = false).
Proof.
  cbv zeta. unfold QsUserGov.new_OktaUser, Ladder.highest_role, Ladder.rungs.
  cbn [QsUserGov.qs_groups QsUserGov.qs_role find fst snd].
  unfold QsUserGov.post_init_role.
  set (relevant := filter _ groups).
  destruct (Py.list_in (QsUserGov.QS_ADMIN_OKTA_GROUP env) relevant);
    destruct (Py.list_in (QsUserGov.QS_AUTHOR_OKTA_GROUP env) relevant);
    destruct (Py.list_in (QsUserGov.QS_READER_OKTA_GROUP env) relevant);
    repeat split; intros; try reflexivity; try discriminate;
    repeat match goal with H : _ /\ _ |- _ => destruct H end;
    try discriminate.
Qed.

End Role.

(** ** What a computation emits *)

Section MonadFacts.

Context {W : Type}.
Variable serve : service W.
Variable P : event -> Prop.

Lemma emits_only_ret {A : Type} (a : A) : emits_only P (@ret W A a).
Proof. intros w. constructor. Qed.

Lemma emits_only_raise {A : Type} (e : exn) : emits_only P (@raise W A e).
Proof. intros w. constructor. Qed.

Lemma emits_only_timeout {A : Type} : emits_only P (@timeout W A).
Proof. intros w. constructor. Qed.

Lemma emits_only_emit (e : event) : P e -> emits_only P (@emit W e).
Proof. intros H w. cbn. auto. Qed.

Lemma emits_only_call (c : api_call) :
  (forall r, P (Call c r)) -> emits_only P (call serve c).
Proof.
  intros H w. unfold call. destruct (serve w c) as [[p | e] w1]; cbn; auto.
Qed.

Lemma emits_only_bind {A B : Type} (m : M A) (f : A -> @M W B) :
  emits_only P m -> (forall a, emits_only P (f a)) -> emits_only P (bind m f).
Proof.
  intros Hm Hf w. unfold bind. specialize (Hm w).
  destruct (m w) as [[[a | e |] w1] t1]; cbn in *; auto.
  specialize (Hf a w1). destruct (f a w1) as [[r w2] t2]; cbn in *.
  apply Forall_app; auto.
Qed.

Lemma emits_only_try_ClientError {A : Type} (m : @M W A) handler :
  emits_only P m -> (forall code text, emits_only P (handler code text)) ->
  emits_only P (try_except_ClientError m handler).
Proof.
  intros Hm Hh w. unfold try_except_ClientError. specialize (Hm w).
  destruct (m w) as [[[a | [code text | nm | pl] |] w1] t1]; cbn in *; auto.
  specialize (Hh code text w1).
  destruct (handler code text w1) as [[r w2] t2]; cbn in *.
  apply Forall_app; auto.
Qed.

Lemma emits_only_for_each {A : Type} (l : list A) (body : A -> @M W unit) :
  (forall x, emits_only P (body x)) -> emits_only P (for_each l body).
Proof.
  intros H. induction l as [| x l IH]; cbn [for_each].
  - apply emits_only_ret.
  - apply emits_only_bind; auto.
Qed.

End MonadFacts.

(** Breaks a computation down to its calls, log lines and pauses. *)
Ltac emits :=
  repeat first
    [ apply emits_only_bind; [| intros ?]
    | apply emits_only_try_ClientError; [| intros ? ?]
    | apply emits_only_for_each; intros ?
    | apply emits_only_ret
    | apply emits_only_raise
    | apply emits_only_timeout
    | apply emits_only_emit; exact I
    | apply emits_only_call; intros ?; reflexivity
    | match goal with
      | |- emits_only _ (if ?b then _ else _) => destruct b
      | |- emits_only _ (match ?p with _ => _ end) => destruct p
      end ].

(** One step of a run kept in hypothesis [H]: the answer to the next call,
    or the next test, is split into its cases. *)
Ltac step_in H :=
  match type of H with
  | context [?serve ?w ?c] =>
      match type of serve with service _ => idtac end;
      let E := fresh "E" in
      destruct (serve w c) as [[? | [? ? | ? | ?]] ?] eqn:E;
      cbn -[append] in H
  | context [if ?b then _ else _] =>
      let E := fresh "E" in destruct b eqn:E; cbn -[append] in H
  end.

Lemma In_group_sync (t : trace) (c : api_call) (r : response) :
  Forall group_sync_event t -> In (Call c r) t ->
  Tr.is_group_operation c = true.
Proof.
  intros HF Hin. rewrite Forall_forall in HF. exact (HF _ Hin).
Qed.

Lemma group_sync_filter (p : api_call -> bool) (t : trace) :
  (forall c, Tr.is_group_operation c = true -> p c = false) ->
  Forall group_sync_event t -> filter p (Tr.calls t) = [].
Proof.
  intros Hp HF. induction HF as [| e t He _ IH]; [reflexivity |].
  destruct e; cbn in *; auto.
  now rewrite (Hp _ He).
Qed.

(** ** User governance *)

Section UserGovFacts.

Context {W : Type}.
Variable serve : service W.
Variable env : QsUserGov.environ.

Lemma groups_emit_group_sync (user : QsUserGov.OktaUser) :
  emits_only group_sync_event
    (QsUserGov.create_if_not_exists_groups serve user).
Proof. unfold QsUserGov.create_if_not_exists_groups. emits. Qed.

Lemma memberships_emit_group_sync (user : QsUserGov.OktaUser) :
  emits_only group_sync_event (QsUserGov.update_memberships serve user).
Proof.
  unfold QsUserGov.update_memberships, QsUserGov.get_memberships. emits.
Qed.

Lemma sync_emits_group_sync (user : QsUserGov.OktaUser) :
  emits_only group_sync_event
    (QsUserGov.create_if_not_exists_groups serve user ;;
     QsUserGov.update_memberships serve user).
Proof.
  apply emits_only_bind; [apply groups_emit_group_sync |].
  intros _. apply memberships_emit_group_sync.
Qed.

(** Runs [apply_user_governance] in [H] up to the group synchronisation,
    which is kept whole: [Hs] says what its trace is made of. *)
Ltac run_user_governance H :=
  unfold QsUserGov.apply_user_governance in H;
  match type of H with
  | context [bind (QsUserGov.create_if_not_exists_groups ?s ?u) ?k] =>
      pose proof (sync_emits_group_sync u) as Hsync;
      set (sync := bind (QsUserGov.create_if_not_exists_groups s u) k) in *
  end;
  unfold QsUserGov.create_if_not_exists_namespace,
    QsUserGov.register_if_not_exists_user, QsUserGov.update_role,
    QsUserGov.delete_user in H;
  unfold bind, call, try_except_ClientError, ret, emit, raise in H;
  repeat step_in H;
  try match goal with
      | Hsync : emits_only group_sync_event ?sync |- _ =>
          match type of H with
          | context [sync ?w1] =>
              let Hs := fresh "Hs" in
              pose proof (Hsync w1) as Hs;
              destruct (sync w1) as [[? ?] ?]; cbn -[append] in H, Hs
          end
      end;
  injection H as <- <- <-.

(** C1.  When the [update_user] call of a user is answered by a
    [ClientError] whose code is [ResourceNotFoundException] or
    [InvalidParameterValueException], the run of [apply_user_governance]
    for that user issues exactly one [delete_user] call, the one for that
    user, and no call at all on groups or memberships. *)
Theorem failed_role_update_deletes_user
    (user : QsUserGov.OktaUser) (w w' : W) (r : result unit) (t : trace)
    (code text : string) :
  QsUserGov.apply_user_governance serve env user w = (r, w', t) ->
  In (Call (update_user (QsUserGov.qs_username user)
              (QsUserGov.account_id user) (QsUserGov.namespace user)
              (QsUserGov.qs_role user) (QsUserGov.email user))
           (Err (ClientError code text))) t ->
  code = "ResourceNotFoundException"
  \/ code = "InvalidParameterValueException" ->
  filter Tr.is_delete_user (Tr.calls t)
    = [ delete_user_ (QsUserGov.qs_username user)
          (QsUserGov.account_id user) (QsUserGov.namespace user) ]
  /\ Tr.count Tr.is_group_operation t = 0.
Proof.
  intros H Hin Hcode.
  run_user_governance H.
  all: cbn -[append] in Hin.
  all: repeat match type of Hin with
       | _ \/ _ => destruct Hin as [Hin | Hin]
       | False => destruct Hin
       | In _ ?l =>
           match goal with
           | Hs : Forall group_sync_event l |- _ =>
               apply (In_group_sync _ _ _ Hs) in Hin; discriminate Hin
           end
       end.
  all: try discriminate Hin.
  all: injection Hin as -> ->.
  all: try (destruct Hcode; subst; discriminate).
  all: split; reflexivity.
Qed.



(** A loop whose body does nothing for the elements of the list does
    nothing. *)
Lemma for_each_skip {A : Type} (l : list A) (body : A -> @M W unit) (w : W) :
  (forall x, In x l -> body x = ret tt) ->
  for_each l body w = (Ret tt, w, []).
Proof.
  induction l as [| x l IH]; intros Hskip; [reflexivity |].
  cbn [for_each]. unfold bind.
  rewrite (Hskip x (or_introl eq_refl)). cbn.
  rewrite IH; [reflexivity |].
  intros y Hy. apply Hskip. right. exact Hy.
Qed.

(** C4.  When [list_user_groups] answers with exactly the groups the
    manifest gives the user (filtered by prefix), [update_memberships]
    makes that one call and returns: it issues no
    [create_group_membership] and no [delete_group_membership] call. *)
Theorem memberships_in_sync_no_change
    (user : QsUserGov.OktaUser) (w w1 : W) (names : list string) :
  serve w (list_user_groups (QsUserGov.qs_username user)
             (QsUserGov.account_id user) (QsUserGov.namespace user))
    = (Ok (GroupList names), w1) ->
  (forall grp, In grp names <-> In grp (QsUserGov.qs_groups user)) ->
  let '(r, w', t) := QsUserGov.update_memberships serve user w in
  r = Ret tt /\ w' = w1
  /\ Tr.calls t = [ list_user_groups (QsUserGov.qs_username user)
                      (QsUserGov.account_id user) (QsUserGov.namespace user) ]
  /\ Tr.count Tr.is_create_group_membership t = 0
  /\ Tr.count Tr.is_delete_group_membership t = 0.
Proof.
  intros Hlist Hsame.
  unfold QsUserGov.update_memberships, QsUserGov.get_memberships.
  unfold bind at 1 2. unfold call. rewrite Hlist. cbn [ret].
  unfold bind. rewrite for_each_skip.
  - rewrite for_each_skip; [cbn; auto |].
    intros grp Hgrp.
    apply Hsame, list_in_true in Hgrp. rewrite Hgrp. reflexivity.
  - intros grp Hgrp.
    apply Hsame, list_in_true in Hgrp. rewrite Hgrp. reflexivity.
Qed.

End UserGovFacts.

(** ** The end-to-end scenario of user governance *)

Section EndToEnd.
Context {W : Type}.
Variable serve : service W.

(** The leading exchanges of a trace, taken off the scenario one by one. *)
Ltac split_answers HF :=
  repeat match type of HF with
         | Forall _ (_ :: _) =>
             let Hhd := fresh "Hhd" in
             apply Forall_cons_iff in HF; destruct HF as [Hhd HF];
             cbn in Hhd
         end.

Ltac norm_in H :=
  repeat (progress (cbn -[append] in H;
                    unfold bind, call, try_except_ClientError, ret, emit,
                      raise in H)).

Ltac step_scenario H :=
  match type of H with
  | context [?serve ?w ?c] =>
      match type of serve with service _ => idtac end;
      let E := fresh "E" in
      let p := fresh "p" in
      let e := fresh "e" in
      destruct (serve w c) as [[p | e] ?] eqn:E;
      [ try match c with list_user_groups _ _ _ => destruct p end;
        norm_in H
      | norm_in H;
        lazymatch type of H with
        | (_, _, _) = _ => idtac
        | _ => destruct e as [? ? | ? | ?]; norm_in H
        end ]
  | context [if ?b then _ else _] =>
      let E := fresh "E" in destruct b eqn:E; norm_in H
  end.

(** The scenario for the one user of the manifest. *)
Lemma fresh_reader_run (bucket account_id : string) (w w' : W)
    (r : result unit) (t : trace) :
  let env := deployed_user_gov bucket in
  let qs_name := "QSGovernance-FederatedQuickSightRole/a@x.com" in
  let user :=
    QsUserGov.new_OktaUser env "a@x.com" "a@x.com" ["qs_role_reader"]
      account_id "default" in
  QsUserGov.apply_user_governance serve env user w = (r, w', t) ->
  Forall fresh_account_exchange t ->
  r = Ret tt
  /\ filter Tr.is_describe_namespace (Tr.calls t)
       = [ describe_namespace account_id "default" ]
  /\ filter Tr.is_register_user (Tr.calls t)
       = [ register_user "IAM" "a@x.com" "READER"
             ("arn:aws:iam::" ++ account_id
                ++ ":role/QSGovernance-FederatedQuickSightRole")
             "a@x.com" account_id "default" ]
  /\ filter Tr.is_update_user (Tr.calls t)
       = [ update_user qs_name account_id "default" "READER" "a@x.com" ]
  /\ filter Tr.is_describe_group (Tr.calls t)
       = [ describe_group "qs_role_reader" account_id "default" ]
  /\ filter Tr.is_create_group_membership (Tr.calls t)
       = [ create_group_membership qs_name "qs_role_reader" account_id
             "default" ]
  /\ Tr.calls t
     = describe_namespace account_id "default"
         :: (if refused Tr.is_describe_namespace t
             then [ create_namespace account_id "default" "QUICKSIGHT" ]
             else [])
         ++ [ describe_user qs_name account_id "default";
              register_user "IAM" "a@x.com" "READER"
                ("arn:aws:iam::" ++ account_id
                   ++ ":role/QSGovernance-FederatedQuickSightRole")
                "a@x.com" account_id "default";
              update_user qs_name account_id "default" "READER" "a@x.com";
              describe_group "qs_role_reader" account_id "default" ]
         ++ (if refused Tr.is_describe_group t
             then [ create_group "qs_role_reader" account_id "default" ]
             else [])
         ++ [ list_user_groups qs_name account_id "default";
              create_group_membership qs_name "qs_role_reader" account_id
                "default" ]
  /\ pauses t
     = (if refused Tr.is_describe_namespace t then [120] else [])
         ++ (if refused Tr.is_describe_group t then [3] else []).
Proof.
  intros env qs_name user H HF. subst env qs_name user.
  unfold QsUserGov.apply_user_governance,
    QsUserGov.create_if_not_exists_namespace,
    QsUserGov.register_if_not_exists_user, QsUserGov.update_role,
    QsUserGov.delete_user, QsUserGov.create_if_not_exists_groups,
    QsUserGov.update_memberships, QsUserGov.get_memberships in H.
  norm_in H.
  repeat step_scenario H.
  all: try match type of H with
       | context [for_each ?l ?b ?w0] =>
           destruct (for_each l b w0) as [[? ?] ?] eqn:Eloop; norm_in H
       end.
  all: injection H as <- <- <-.
  all: split_answers HF.
  all: try contradiction.
  all: try discriminate.
  all: repeat match goal with
       | Hn : Ok (GroupList ?names) = Ok (GroupList []) |- _ =>
           injection Hn as ->
       end.
  all: try discriminate.
  all: cbn in Eloop; injection Eloop as <- <- <-.
  all: repeat split; reflexivity.
Qed.

(** C8.  The manifest holds the one user [a@x.com] with the one group
    [qs_role_reader], the function is deployed with the values of
    [config.py], and QuickSight answers as an account without that user.
    Then the run of [handler] succeeds, and it issues exactly one
    [describe_namespace] call, one [register_user] call, with role READER,
    one [update_user] call, with role READER, one [describe_group] call, for
    [qs_role_reader], and one [create_group_membership] call, of the user in
    [qs_role_reader].  The namespace and the group are ensured: the calls
    of the run are, in this order, the read of the manifest, the describe
    call of the namespace, its creation exactly when the describe call was
    refused, the describe call of the user, the registration, the role
    update, the describe call of the group, its creation exactly when that
    describe call was refused, the listing of the user's groups and the
    creation of the membership; and the run pauses for 120 seconds after it
    has created the namespace and for 3 seconds after it has created the
    group, and at no other time. *)
Theorem single_reader_end_to_end
    (bucket event arn account_id : string) (w w1 w' : W)
    (r : result lambda_response) (t : trace) :
  let env := deployed_user_gov bucket in
  let qs_name := "QSGovernance-FederatedQuickSightRole/a@x.com" in
  nth_error (Py.split ":" arn) 4 = Some account_id ->
  serve w (s3_get_object bucket "qs-user-governance.json")
    = (Ok (UsersDocument single_reader_manifest), w1) ->
  QsUserGov.handler serve env event arn w = (r, w', t) ->
  Forall fresh_account_exchange t ->
  r = Ret QsUserGov.SUCCESS_RESPONSE
  /\ filter Tr.is_describe_namespace (Tr.calls t)
       = [ describe_namespace account_id "default" ]
  /\ filter Tr.is_register_user (Tr.calls t)
       = [ register_user "IAM" "a@x.com" "READER"
             ("arn:aws:iam::" ++ account_id
                ++ ":role/QSGovernance-FederatedQuickSightRole")
             "a@x.com" account_id "default" ]
  /\ filter Tr.is_update_user (Tr.calls t)
       = [ update_user qs_name account_id "default" "READER" "a@x.com" ]
  /\ filter Tr.is_describe_group (Tr.calls t)
       = [ describe_group "qs_role_reader" account_id "default" ]
  /\ filter Tr.is_create_group_membership (Tr.calls t)
       = [ create_group_membership qs_name "qs_role_reader" account_id
             "default" ]
  /\ Tr.calls t
     = s3_get_object bucket "qs-user-governance.json"
         :: describe_namespace account_id "default"
         :: (if refused Tr.is_describe_namespace t
             then [ create_namespace account_id "default" "QUICKSIGHT" ]
             else [])
         ++ [ describe_user qs_name account_id "default";
              register_user "IAM" "a@x.com" "READER"
                ("arn:aws:iam::" ++ account_id
                   ++ ":role/QSGovernance-FederatedQuickSightRole")
                "a@x.com" account_id "default";
              update_user qs_name account_id "default" "READER" "a@x.com";
              describe_group "qs_role_reader" account_id "default" ]
         ++ (if refused Tr.is_describe_group t
             then [ create_group "qs_role_reader" account_id "default" ]
             else [])
         ++ [ list_user_groups qs_name account_id "default";
              create_group_membership qs_name "qs_role_reader" account_id
                "default" ]
  /\ pauses t
     = (if refused Tr.is_describe_namespace t then [120] else [])
         ++ (if refused Tr.is_describe_group t then [3] else []).
Proof.
  intros env qs_name Harn Hs3 H HF. subst env qs_name.
  unfold QsUserGov.handler in H. rewrite Harn in H.
  unfold QsUserGov.get_user_manifest in H.
  unfold bind, call, emit, ret, raise, try_except_ClientError,
    try_except_Exception in H.
  cbn [QsUserGov.BUCKET QsUserGov.KEY deployed_user_gov] in H.
  rewrite Hs3 in H.
  cbn -[append QsUserGov.apply_user_governance] in H.
  unfold bind, ret in H.
  match type of H with
  | context [QsUserGov.apply_user_governance ?s ?e ?u ?w0] =>
      destruct (QsUserGov.apply_user_governance s e u w0)
        as [[r1 w2] t1] eqn:Erun
  end.
  assert (HF1 : Forall fresh_account_exchange t1).
  { destruct r1; injection H as <- <- <-;
      repeat (apply Forall_cons_iff in HF; destruct HF as [_ HF]);
      repeat (apply Forall_app in HF; destruct HF as [HF _]); exact HF. }
  destruct (fresh_reader_run _ _ _ _ _ _ Erun HF1)
    as [-> [Hns [Hreg [Hupd [Hgrp [Hmem [Hcalls Hpauses]]]]]]].
  injection H as <- <- <-.
  rewrite !app_nil_r.
  change (refused Tr.is_describe_namespace (_ :: _ :: t1))
    with (refused Tr.is_describe_namespace t1).
  change (refused Tr.is_describe_group (_ :: _ :: t1))
    with (refused Tr.is_describe_group t1).
  change (pauses (_ :: _ :: t1)) with (pauses t1).
  change (Tr.calls (_ :: _ :: t1))
    with (s3_get_object bucket "qs-user-governance.json" :: Tr.calls t1).
  rewrite <- Hcalls.
  repeat split; assumption || reflexivity.
Qed.
End EndToEnd.

(** ** Substrings *)

Lemma prefix_true (pre s : string) :
  String.prefix pre s = true <-> exists rest, s = (pre ++ rest)%string.
Proof.
  revert s. induction pre as [| c pre IH]; intros s; cbn.
  - split; [intros _; exists s; reflexivity | intros _; destruct s; reflexivity].
  - destruct s as [| d s]; cbn;
      [split; [discriminate | intros [rest Hrest]; discriminate] |].
    destruct (ascii_dec c d) as [-> | Hne]; cbn.
    + rewrite IH. split; intros [rest Hrest]; exists rest.
      * now subst.
      * now injection Hrest.
    + split; [discriminate |].
      intros [rest Hrest]. injection Hrest as Hcd _. congruence.
Qed.

Lemma str_in_true (sub s : string) :
  Py.str_in sub s = true <-> exists before after, s = (before ++ sub ++ after)%string.
Proof.
  induction s as [| c s IH]; cbn [Py.str_in].
  - destruct (String.prefix sub "") eqn:Hp.
    + split; [intros _ | reflexivity].
      apply prefix_true in Hp. destruct Hp as [rest Hrest].
      exists "", rest. exact Hrest.
    + split; [discriminate |].
      intros [before [after Heq]].
      destruct before as [| b before]; [| discriminate].
      assert (String.prefix sub "" = true) by (apply prefix_true; eauto).
      congruence.
  - destruct (String.prefix sub (String c s)) eqn:Hp.
    + split; [intros _ | reflexivity].
      apply prefix_true in Hp. destruct Hp as [rest Hrest].
      exists "", rest. exact Hrest.
    + rewrite IH. split.
      * intros [before [after Heq]]. exists (String c before), after.
        cbn. now rewrite Heq.
      * intros [before [after Heq]].
        destruct before as [| b before].
        -- assert (String.prefix sub (String c s) = true)
             by (apply prefix_true; eauto).
           congruence.
        -- injection Heq as _ Heq. eauto.
Qed.

(** ** Calls of a trace *)

Lemma calls_app (t1 t2 : trace) : Tr.calls (t1 ++ t2) = Tr.calls t1 ++ Tr.calls t2.
Proof. unfold Tr.calls. apply flat_map_app. Qed.

Lemma calls_Forall (P : event -> Prop) (Q : api_call -> Prop) (t : trace) :
  (forall c r, P (Call c r) -> Q c) -> Forall P t -> Forall Q (Tr.calls t).
Proof.
  intros HPQ HF. induction HF as [| e t He _ IH]; [constructor |].
  destruct e; cbn; eauto.
Qed.

Lemma filter_none {A : Type} (p : A -> bool) (l : list A) :
  Forall (fun x => p x = false) l -> filter p l = [].
Proof.
  intros HF. induction HF as [| x l Hx _ IH]; [reflexivity |].
  cbn. now rewrite Hx.
Qed.

Lemma filter_all {A : Type} (p : A -> bool) (l : list A) :
  Forall (fun x => p x = true) l -> filter p l = l.
Proof.
  intros HF. induction HF as [| x l Hx _ IH]; [reflexivity |].
  cbn. now rewrite Hx, IH.
Qed.

(** A trace made of a part without grants and then a part without revokes
    has its revokes before its grants. *)
Lemma revokes_then_grants (t1 t2 : trace) :
  Forall no_grant_event t1 -> Forall no_revoke_event t2 ->
  Tr.revokes_before_grants (t1 ++ t2).
Proof.
  intros H1 H2 before after c Heq Hgrant c' Hc'.
  apply (calls_Forall _ (fun c => Tr.is_grant c = false)) in H1; [| auto].
  apply (calls_Forall _ (fun c => Tr.is_revoke c = false)) in H2; [| auto].
  rewrite calls_app in Heq. rewrite Forall_forall in H1, H2.
  apply app_eq_app in Heq. destruct Heq as [l [[Ht1 Hrest] | [Hbefore Ht2]]].
  - destruct l as [| x l].
    + cbn in Hrest. apply H2. rewrite <- Hrest. right. exact Hc'.
    + injection Hrest as <- Hafter.
      assert (Tr.is_grant c = false).
      { apply H1. rewrite Ht1. apply in_or_app. right. left. reflexivity. }
      congruence.
  - apply H2. rewrite Ht2. apply in_or_app. right. right. exact Hc'.
Qed.

(** ** Asset governance *)

Lemma revoke_call_is_revoke asset dataset_id (perms : list permission) :
  filter Tr.is_revoke (map (revoke_call asset dataset_id) perms)
  = map (revoke_call asset dataset_id) perms.
Proof.
  apply filter_all. apply Forall_forall. intros c Hc.
  apply in_map_iff in Hc. destruct Hc as [p [<- _]]. reflexivity.
Qed.

Lemma get_dataset_id_no_match (asset : QsAssetGov.QuickSightAsset)
    (all_datasets : list dataset_summary) :
  (forall dset, In dset all_datasets -> Name dset <> QsAssetGov.name asset) ->
  QsAssetGov.get_dataset_id asset all_datasets = "".
Proof.
  induction all_datasets as [| dset rest IH]; intros Hno; [reflexivity |].
  cbn. destruct (String.eqb_spec (Name dset) (QsAssetGov.name asset)) as [Heq | _].
  - exfalso. apply (Hno dset); [left; reflexivity | exact Heq].
  - apply IH. intros d Hd. apply Hno. right. exact Hd.
Qed.

Section AssetGovFacts.

Context {W : Type}.
Variable serve : service W.
Variable env : QsAssetGov.environ.

Lemma grants_emit_no_revoke asset dataset_id :
  emits_only no_revoke_event
    (QsAssetGov.apply_dataset_governance serve env asset dataset_id).
Proof. unfold QsAssetGov.apply_dataset_governance. emits. Qed.

(** What a run of [reset_dataset_permissions] is made of: the describe
    call, then revokes only; and when it returns, one revoke for each
    entry whose principal mentions ["group"], in the order of the
    answer. *)
Lemma reset_run asset dataset_id (w w' : W) (r : result unit) (t : trace) :
  QsAssetGov.reset_dataset_permissions serve asset dataset_id w = (r, w', t) ->
  exists resp rest,
    t = Call (describe_data_set_permissions (QsAssetGov.account_id asset)
                dataset_id) resp :: rest
    /\ fst (serve w (describe_data_set_permissions
                       (QsAssetGov.account_id asset) dataset_id)) = resp
    /\ Forall no_grant_event t
    /\ (r = Ret tt ->
        exists perms,
          resp = Ok (Permissions perms)
          /\ Tr.calls rest
             = map (revoke_call asset dataset_id)
                 (filter mentions_group perms)).
Proof.
  unfold QsAssetGov.reset_dataset_permissions.
  unfold bind at 1 2. unfold call.
  destruct (serve w _) as [[p | e] w1] eqn:Edesc; cbn [fst].
  2: { intros H. injection H as <- <- <-. eexists _, []. repeat split.
       - repeat constructor.
       - discriminate. }
  destruct p as [| names | page next | perms | users | assets | users | groups];
    cbn [raise ret app].
  all: try (intros H; injection H as <- <- <-; eexists _, []; repeat split;
            [repeat constructor | discriminate]).
  unfold bind.
  match goal with |- context [for_each perms ?b w1] => set (body := b) end.
  assert (Hloop : forall w0 r0 w0' t0,
             for_each perms body w0 = (r0, w0', t0) ->
             Forall no_grant_event t0
             /\ (r0 = Ret tt ->
                 Tr.calls t0 = map (revoke_call asset dataset_id)
                                 (filter mentions_group perms))).
  { clear Edesc w w1. induction perms as [| p perms IH]; intros w0 r0 w0' t0 H.
    - injection H as <- <- <-. split; [constructor | reflexivity].
    - cbn [for_each] in H. unfold bind in H.
      destruct (body p w0) as [[rb wb] tb] eqn:Eb.
      assert (Hb : Forall no_grant_event tb
                   /\ (rb = Ret tt ->
                       Tr.calls tb
                       = if mentions_group p
                         then [revoke_call asset dataset_id p] else [])).
      { unfold body, mentions_group in *. destruct p as [principal actions].
        cbn [Principal Actions] in *.
        destruct (Py.str_in "group" principal).
        - unfold try_except_ClientError, bind, call, ret, emit in Eb.
          destruct (serve w0 _) as [[p0 | [code text | nm | pl]] w2];
            cbn in Eb; try (destruct (code =? _); cbn in Eb);
            injection Eb as <- <- <-; split;
            try (repeat constructor; fail); try reflexivity; discriminate.
        - injection Eb as <- <- <-. split; [constructor | reflexivity]. }
      destruct Hb as [Hb1 Hb2].
      destruct rb as [[] | e |].
      + destruct (for_each perms body wb) as [[r1 w1] t1] eqn:El.
        destruct (IH _ _ _ _ El) as [IH1 IH2].
        injection H as <- <- <-. split.
        * apply Forall_app; auto.
        * intros Hr. rewrite calls_app, (Hb2 eq_refl), (IH2 Hr).
          cbn [filter]. destruct (mentions_group p); reflexivity.
      + injection H as <- <- <-. split; [exact Hb1 | discriminate].
      + injection H as <- <- <-. split; [exact Hb1 | discriminate]. }
  destruct (for_each perms body w1) as [[r1 w2] t1] eqn:El.
  destruct (Hloop _ _ _ _ El) as [Hl1 Hl2].
  destruct r1 as [[] | e |]; cbn; intros H; injection H as <- <- <-.
  - eexists _, _. split; [reflexivity |]. split; [reflexivity |]. split.
    + constructor; [reflexivity |]. apply Forall_app. split; [exact Hl1 |].
      repeat constructor.
    + intros _. exists perms. split; [reflexivity |].
      rewrite calls_app, (Hl2 eq_refl). cbn. apply app_nil_r.
  - eexists _, _. split; [reflexivity |]. split; [reflexivity |]. split.
    + constructor; [reflexivity | exact Hl1].
    + discriminate.
  - eexists _, _. split; [reflexivity |]. split; [reflexivity |]. split.
    + constructor; [reflexivity | exact Hl1].
    + discriminate.
Qed.

Lemma no_grant_in_calls (t : trace) (c : api_call) :
  Forall no_grant_event t -> In c (Tr.calls t) -> Tr.is_grant c = false.
Proof.
  intros HF Hin.
  apply (calls_Forall _ (fun c => Tr.is_grant c = false)) in HF; [| auto].
  rewrite Forall_forall in HF. auto.
Qed.

(** C3.  For an asset of category ["dataset"], whatever the state of the
    account and whatever the asset asks for, the loop body of [handler]
    starts with the describe call of the reset; in its trace no revoke
    comes after a grant; and if it returns, or issues any grant at all,
    then the describe call had an answer and one revoke was issued for
    each listed entry whose principal mentions ["group"]. *)
Theorem reset_precedes_grants
    (all_datasets : list dataset_summary) (asset : QsAssetGov.QuickSightAsset)
    (w w' : W) (r : result unit) (t : trace) :
  QsAssetGov.category asset = "dataset" ->
  QsAssetGov.govern_asset serve env all_datasets asset w = (r, w', t) ->
  let dataset_id := QsAssetGov.get_dataset_id asset all_datasets in
  let describe :=
    describe_data_set_permissions (QsAssetGov.account_id asset) dataset_id in
  (exists resp, hd_error t = Some (Call describe resp))
  /\ Tr.revokes_before_grants t
  /\ (r = Ret tt \/ (exists c, In c (Tr.calls t) /\ Tr.is_grant c = true) ->
      exists perms,
        hd_error t = Some (Call describe (Ok (Permissions perms)))
        /\ filter Tr.is_revoke (Tr.calls t)
           = map (revoke_call asset dataset_id)
               (filter mentions_group perms)).
Proof.
  intros Hcat H dataset_id describe.
  unfold QsAssetGov.govern_asset in H. rewrite Hcat in H. cbn in H.
  fold dataset_id in H. unfold bind in H.
  destruct (QsAssetGov.reset_dataset_permissions serve asset dataset_id w)
    as [[r1 w1] t1] eqn:Ereset.
  destruct (reset_run _ _ _ _ _ _ Ereset)
    as [resp [rest [Ht1 [_ [Hnogrant Hfull]]]]].
  destruct r1 as [[] | e |].
  - pose proof (grants_emit_no_revoke asset dataset_id w1) as Hgrants.
    destruct (QsAssetGov.apply_dataset_governance serve env asset dataset_id w1)
      as [[r2 w2] t2].
    cbn in Hgrants. injection H as <- <- <-.
    destruct (Hfull eq_refl) as [perms [-> Hrest]].
    split; [exists (Ok (Permissions perms)); rewrite Ht1; reflexivity |].
    split; [apply revokes_then_grants; assumption |].
    intros _. exists perms. split; [rewrite Ht1; reflexivity |].
    rewrite calls_app, filter_app, Ht1. cbn [Tr.calls flat_map app filter].
    fold (Tr.calls rest). rewrite Hrest.
    change (Tr.is_revoke describe) with false. cbn iota.
    rewrite revoke_call_is_revoke.
    rewrite (filter_none Tr.is_revoke (Tr.calls t2)); [apply app_nil_r |].
    apply (calls_Forall no_revoke_event); [auto | exact Hgrants].
  - injection H as <- <- <-.
    split; [exists resp; rewrite Ht1; reflexivity |].
    split.
    { rewrite <- (app_nil_r t1). apply revokes_then_grants; [assumption |].
      constructor. }
    intros [Hr | [c [Hc Hg]]]; [discriminate |].
    rewrite (no_grant_in_calls _ _ Hnogrant Hc) in Hg. discriminate.
  - injection H as <- <- <-.
    split; [exists resp; rewrite Ht1; reflexivity |].
    split.
    { rewrite <- (app_nil_r t1). apply revokes_then_grants; [assumption |].
      constructor. }
    intros [Hr | [c [Hc Hg]]]; [discriminate |].
    rewrite (no_grant_in_calls _ _ Hnogrant Hc) in Hg. discriminate.
Qed.

(** C9.  When [reset_dataset_permissions] returns, the calls it has made
    are the describe call and then one revoke for each listed entry for
    which [["group" in principal]] holds, in the order of the listing.  So
    an entry is revoked exactly when the text ["group"] occurs somewhere in
    its principal, whatever kind of principal it is. *)
Theorem reset_revokes_by_substring
    (asset : QsAssetGov.QuickSightAsset) (dataset_id : string)
    (w w1 w' : W) (t : trace) (perms : list permission) :
  let describe :=
    describe_data_set_permissions (QsAssetGov.account_id asset) dataset_id in
  serve w describe = (Ok (Permissions perms), w1) ->
  QsAssetGov.reset_dataset_permissions serve asset dataset_id w
    = (Ret tt, w', t) ->
  Tr.calls t
    = describe :: map (revoke_call asset dataset_id)
                    (filter mentions_group perms)
  /\ forall p, In p perms ->
       (In (revoke_call asset dataset_id p) (Tr.calls t)
        <-> exists before after,
              Principal p = (before ++ "group" ++ after)%string).
Proof.
  intros describe Hdesc H.
  destruct (reset_run _ _ _ _ _ _ H) as [resp [rest [Ht [Hresp [_ Hfull]]]]].
  fold describe in Hresp. rewrite Hdesc in Hresp. cbn in Hresp. subst resp.
  destruct (Hfull eq_refl) as [perms' [Heq Hrest]].
  injection Heq as <-.
  assert (Hcalls : Tr.calls t
                   = describe :: map (revoke_call asset dataset_id)
                                   (filter mentions_group perms)).
  { rewrite Ht. cbn [Tr.calls flat_map app]. fold (Tr.calls rest).
    now rewrite Hrest. }
  split; [exact Hcalls |].
  intros p Hp. rewrite Hcalls, <- str_in_true. split.
  - intros [Hd | Hin]; [discriminate |].
    apply in_map_iff in Hin. destruct Hin as [q [Hq Hin]].
    injection Hq as ->. apply filter_In in Hin. apply Hin.
  - intros Hgroup. right. apply in_map. apply filter_In. split; assumption.
Qed.

(** An exception of the describe call is not handled in the loop body: it
    ends the processing of the asset, and nothing else is called. *)
Lemma failed_describe_propagates
    (all_datasets : list dataset_summary) (asset : QsAssetGov.QuickSightAsset)
    (w w1 : W) (e : exn) :
  QsAssetGov.category asset = "dataset" ->
  let describe :=
    describe_data_set_permissions (QsAssetGov.account_id asset)
      (QsAssetGov.get_dataset_id asset all_datasets) in
  serve w describe = (Err e, w1) ->
  QsAssetGov.govern_asset serve env all_datasets asset w
  = (Raise e, w1, [ Call describe (Err e) ]).
Proof.
  intros Hcat describe Hdesc.
  unfold QsAssetGov.govern_asset. rewrite Hcat. cbn.
  unfold QsAssetGov.reset_dataset_permissions, bind, call.
  fold describe. rewrite Hdesc. reflexivity.
Qed.

End AssetGovFacts.

(** ** A manifest that cannot be retrieved *)

Section ManifestFailure.

Context {W : Type}.
Variable serve : service W.

Lemma listing_is_read_only (fuel : nat) (account_id : string) :
  emits_only read_only_event (QsAssetGov.get_all_datasets serve fuel account_id).
Proof.
  assert (Hpages : forall fuel acc token,
             emits_only read_only_event
               (QsAssetGov.next_pages serve fuel account_id acc token)).
  { clear fuel. induction fuel as [| fuel IH]; intros acc [tok |]; cbn; emits.
    apply IH. }
  unfold QsAssetGov.get_all_datasets. emits. apply Hpages.
Qed.

(** C7.  When the [get_object] call for the manifest raises a
    [ClientError], either job logs the error, goes on with an empty
    manifest and returns its success response.  The user job has then made
    no other call; the asset job has made, before it, the calls that list
    the data sets, and neither has changed anything at the remote end. *)
Theorem manifest_retrieval_failure_is_noop
    (user_env : QsUserGov.environ) (asset_env : QsAssetGov.environ)
    (fuel : nat) (event arn account_id code text : string) :
  nth_error (Py.split ":" arn) 4 = Some account_id ->
  (forall w w1 : W,
      serve w (s3_get_object (QsUserGov.BUCKET user_env)
                 (QsUserGov.KEY user_env))
        = (Err (ClientError code text), w1) ->
      QsUserGov.handler serve user_env event arn w
        = (Ret QsUserGov.SUCCESS_RESPONSE, w1,
           [ LogInfo ("event: " ++ event);
             Call (s3_get_object (QsUserGov.BUCKET user_env)
                     (QsUserGov.KEY user_env))
                  (Err (ClientError code text));
             LogInfo ("Could not retrieve manifest file. Error: " ++ text) ]))
  /\ (forall (all_datasets : list dataset_summary) (w w0 w1 : W)
             (listing : trace),
        QsAssetGov.get_all_datasets serve fuel account_id w
          = (Ret all_datasets, w0, listing) ->
        serve w0 (s3_get_object (QsAssetGov.BUCKET asset_env)
                    (QsAssetGov.KEY asset_env))
          = (Err (ClientError code text), w1) ->
        let t :=
          LogInfo ("event: " ++ event)
            :: listing
            ++ [ Call (s3_get_object (QsAssetGov.BUCKET asset_env)
                         (QsAssetGov.KEY asset_env))
                      (Err (ClientError code text));
                 LogInfo ("Could not retrieve manifest file. Error: " ++ text) ] in
        QsAssetGov.handler serve asset_env fuel event arn w
          = (Ret QsAssetGov.SUCCESS_RESPONSE, w1, t)
        /\ Tr.count Tr.is_mutation t = 0).
Proof.
  intros Harn. split.
  - intros w w1 Hs3. unfold QsUserGov.handler, QsUserGov.get_user_manifest.
    rewrite Harn.
    unfold bind, call, emit, ret, raise, try_except_ClientError,
      try_except_Exception.
    rewrite Hs3. reflexivity.
  - intros all_datasets w w0 w1 listing Hlist Hs3 t.
    split.
    + unfold QsAssetGov.handler, QsAssetGov.get_asset_manifest.
      rewrite Harn.
      unfold bind at 1 2 3. cbn [emit ret]. rewrite Hlist.
      unfold bind, call, emit, ret, raise, try_except_ClientError,
        try_except_Exception.
      rewrite Hs3. cbn -[append]. reflexivity.
    + pose proof (listing_is_read_only fuel account_id w) as Hro.
      rewrite Hlist in Hro. cbn in Hro.
      unfold Tr.count. subst t. cbn [Tr.calls flat_map app].
      match goal with
      | |- context [flat_map ?f (listing ++ ?tl)] =>
          change (flat_map f (listing ++ tl)) with (Tr.calls (listing ++ tl))
      end.
      rewrite calls_app, filter_app. cbn.
      rewrite app_nil_r, filter_none; [reflexivity |].
      apply (calls_Forall read_only_event); [auto | exact Hro].
Qed.

End ManifestFailure.

(** ** The Okta fetcher *)

Section OktaFacts.

Context {W : Type}.
Variable serve : service W.
Variable env : GetOktaInfo.environ.

Lemma append_users_run (users : list okta_user) :
  forall (acc manifest : list user_entry) (w w' : W) (t : trace),
    GetOktaInfo.append_users serve env users acc w = (Ret manifest, w', t) ->
    exists added,
      manifest = acc ++ added
      /\ Forall email_is_username added
      /\ map entry_username added = map credentials_userName users.
Proof.
  induction users as [| usr users IH]; intros acc manifest w w' t H.
  - injection H as <- <- <-. exists []. rewrite app_nil_r. repeat split.
    constructor.
  - cbn [GetOktaInfo.append_users] in H. unfold bind at 1 in H.
    destruct (GetOktaInfo.get_users_groups serve env (okta_id usr) w)
      as [[[memberships | e |] w1] t1]; try discriminate.
    destruct (GetOktaInfo.append_users serve env users _ w1)
      as [[r2 w2] t2] eqn:Erest.
    injection H as -> <- <-.
    destruct (IH _ _ _ _ _ Erest) as [added [-> [Hadded Hnames]]].
    eexists (_ :: added). rewrite <- app_assoc. split; [reflexivity |].
    split; [constructor; [reflexivity | exact Hadded] |].
    cbn. now rewrite Hnames.
Qed.

Lemma append_users_reads_id_and_userName (users : list okta_user) :
  forall (users' : list okta_user) (acc : list user_entry) (w : W),
    map okta_id users' = map okta_id users ->
    map credentials_userName users' = map credentials_userName users ->
    GetOktaInfo.append_users serve env users' acc w
    = GetOktaInfo.append_users serve env users acc w.
Proof.
  induction users as [| usr users IH]; intros [| usr' users'] acc w Hid Hname;
    try discriminate; [reflexivity |].
  injection Hid as Hid Hids. injection Hname as Hname Hnames.
  cbn [GetOktaInfo.append_users]. unfold bind. rewrite Hid, Hname.
  destruct (GetOktaInfo.get_users_groups serve env (okta_id usr) w)
    as [[[memberships | e |] w1] t1]; try reflexivity.
  now rewrite (IH users' _ w1 Hids Hnames).
Qed.

(** C10.  In the manifest [build_user_governance_manifest] returns, every
    entry has its [email] equal to its [username], both being the
    [credentials.userName] of the Okta user the entry is made from; and
    the run is the same for any list of Okta users with the same ids and
    user names, whatever else their records hold. *)
Theorem manifest_email_is_username
    (users : list okta_user) (manifest : list user_entry) (w w' : W)
    (t : trace) :
  GetOktaInfo.build_user_governance_manifest serve env users w
    = (Ret manifest, w', t) ->
  Forall email_is_username manifest
  /\ map entry_username manifest = map credentials_userName users
  /\ map entry_email manifest = map credentials_userName users
  /\ forall users',
       map okta_id users' = map okta_id users ->
       map credentials_userName users' = map credentials_userName users ->
       GetOktaInfo.build_user_governance_manifest serve env users' w
       = (Ret manifest, w', t).
Proof.
  intros H.
  assert (Hsame : forall users',
             map okta_id users' = map okta_id users ->
             map credentials_userName users' = map credentials_userName users ->
             GetOktaInfo.build_user_governance_manifest serve env users' w
             = (Ret manifest, w', t)).
  { intros users' Hid Hname. rewrite <- H.
    unfold GetOktaInfo.build_user_governance_manifest, bind.
    now rewrite (append_users_reads_id_and_userName users users' [] w). }
  unfold GetOktaInfo.build_user_governance_manifest in H.
  unfold bind at 1 in H.
  destruct (GetOktaInfo.append_users serve env users [] w)
    as [[[m | e |] w1] t1] eqn:Erun; try discriminate.
  cbn in H. injection H as <- <- <-.
  destruct (append_users_run _ _ _ _ _ _ Erun) as [added [-> [Hadded Hnames]]].
  cbn [app]. repeat split; try assumption.
  rewrite <- Hnames. clear Hnames Erun Hsame.
  induction Hadded as [| entry added Hentry _ IH]; [reflexivity |].
  cbn. now rewrite Hentry, IH.
Qed.

End OktaFacts.

(** ** The properties on concrete runs *)

(** The downgraded user: the update is refused with
    [InvalidParameterValueException], one [delete_user] call follows and
    nothing is done on groups. *)
Lemma failed_role_update_deletes_user_witness :
  let t :=
    snd (QsUserGov.apply_user_governance Stubber.serve Example.user_env
           Example.downgraded Example.downgrade_answers) in
  filter Tr.is_delete_user (Tr.calls t)
    = [ delete_user_ "QSGovernance-FederatedQuickSightRole/b@x.com"
          Example.account "default" ]
  /\ Tr.count Tr.is_group_operation t = 0.
Proof.
  apply (failed_role_update_deletes_user Stubber.serve Example.user_env
           Example.downgraded Example.downgrade_answers [] (Ret tt) _
           "InvalidParameterValueException"
           "An error occurred (InvalidParameterValueException)").
  - reflexivity.
  - vm_compute. right. right. left. reflexivity.
  - right. reflexivity.
Defined.


(** The reader is already in [qs_role_reader] and in no other group: the
    second reconciliation lists the groups and changes nothing. *)
Lemma memberships_in_sync_no_change_witness :
  let '(r, w', t) :=
    QsUserGov.update_memberships Stubber.serve Example.reader
      [ Ok (GroupList ["qs_role_reader"]) ] in
  r = Ret tt /\ w' = []
  /\ Tr.calls t
     = [ list_user_groups "QSGovernance-FederatedQuickSightRole/a@x.com"
           Example.account "default" ]
  /\ Tr.count Tr.is_create_group_membership t = 0
  /\ Tr.count Tr.is_delete_group_membership t = 0.
Proof.
  apply (memberships_in_sync_no_change Stubber.serve Example.reader
           [ Ok (GroupList ["qs_role_reader"]) ] [] ["qs_role_reader"]
           eq_refl).
  intros grp. vm_compute. tauto.
Defined.

(** The end-to-end scenario on the stubbed client: the namespace is
    there, the group is not and is created, with its pause. *)
Lemma single_reader_end_to_end_witness :
  let qs_name := "QSGovernance-FederatedQuickSightRole/a@x.com" in
  let '(r, _, t) :=
    QsUserGov.handler Stubber.serve Example.user_env "{}" Example.function_arn
      Example.fresh_account_answers in
  r = Ret QsUserGov.SUCCESS_RESPONSE
  /\ filter Tr.is_describe_namespace (Tr.calls t)
       = [ describe_namespace Example.account "default" ]
  /\ filter Tr.is_register_user (Tr.calls t)
       = [ register_user "IAM" "a@x.com" "READER"
             "arn:aws:iam::111122223333:role/QSGovernance-FederatedQuickSightRole"
             "a@x.com" Example.account "default" ]
  /\ filter Tr.is_update_user (Tr.calls t)
       = [ update_user qs_name Example.account "default" "READER" "a@x.com" ]
  /\ filter Tr.is_describe_group (Tr.calls t)
       = [ describe_group "qs_role_reader" Example.account "default" ]
  /\ filter Tr.is_create_group_membership (Tr.calls t)
       = [ create_group_membership qs_name "qs_role_reader" Example.account
             "default" ]
  /\ Tr.calls t
     = [ s3_get_object "qs-governance" "qs-user-governance.json";
         describe_namespace Example.account "default";
         describe_user qs_name Example.account "default";
         register_user "IAM" "a@x.com" "READER"
           "arn:aws:iam::111122223333:role/QSGovernance-FederatedQuickSightRole"
           "a@x.com" Example.account "default";
         update_user qs_name Example.account "default" "READER" "a@x.com";
         describe_group "qs_role_reader" Example.account "default";
         create_group "qs_role_reader" Example.account "default";
         list_user_groups qs_name Example.account "default";
         create_group_membership qs_name "qs_role_reader" Example.account
           "default" ]
  /\ pauses t = [3].
Proof.
  cbv zeta.
  destruct (QsUserGov.handler Stubber.serve Example.user_env "{}"
              Example.function_arn Example.fresh_account_answers)
    as [[r w'] t] eqn:Erun.
  assert (HF : Forall fresh_account_exchange t).
  { vm_compute in Erun. injection Erun as <- <- <-. repeat constructor. }
  destruct (single_reader_end_to_end Stubber.serve "qs-governance" "{}"
              Example.function_arn Example.account
              Example.fresh_account_answers
              (tl Example.fresh_account_answers) w' r t
              eq_refl eq_refl Erun HF)
    as [Hr [Hns [Hreg [Hupd [Hgrp [Hmem [Hcalls Hpauses]]]]]]].
  repeat (split; [assumption |]).
  vm_compute in Erun. injection Erun as <- <- <-.
  split; [exact Hcalls | exact Hpauses].
Defined.

(** The data set [sales]: the group entry and the user entry whose name
    contains ["group"] are revoked, the other user entry is not, and the
    grant for the group of the manifest comes last. *)
Lemma reset_precedes_grants_witness :
  let t :=
    snd (QsAssetGov.govern_asset Stubber.serve Example.asset_env
           Example.listing Example.sales Example.govern_answers) in
  Tr.revokes_before_grants t
  /\ filter Tr.is_revoke (Tr.calls t)
     = [ revoke_call Example.sales "ds-1" Example.group_entry;
         revoke_call Example.sales "ds-1" Example.workgroup_user_entry ]
  /\ filter Tr.is_grant (Tr.calls t)
     = [ update_data_set_permissions Example.account "ds-1"
           [ {| Principal :=
                  "arn:aws:quicksight:us-east-1:111122223333:group/default/qs_group_finance";
                Actions := ActionList QsAssetGov.READ_ACTIONS |} ] [] ].
Proof.
  destruct (reset_precedes_grants Stubber.serve Example.asset_env
              Example.listing Example.sales Example.govern_answers []
              (Ret tt) _ eq_refl eq_refl) as [_ [Horder Hreset]].
  split; [exact Horder |]. split; [| reflexivity].
  destruct (Hreset (or_introl eq_refl)) as [perms [Hhd Hrevokes]].
  vm_compute in Hhd. injection Hhd as <-. exact Hrevokes.
Defined.

(** The reset of [sales] alone: the user [workgroup-admin] is revoked because
    its name contains ["group"], the user [alice] is not. *)
Lemma reset_revokes_by_substring_witness :
  let t :=
    snd (QsAssetGov.reset_dataset_permissions Stubber.serve Example.sales
           "ds-1" Example.reset_answers) in
  Tr.calls t
  = [ describe_data_set_permissions Example.account "ds-1";
      revoke_call Example.sales "ds-1" Example.group_entry;
      revoke_call Example.sales "ds-1" Example.workgroup_user_entry ]
  /\ In (revoke_call Example.sales "ds-1" Example.workgroup_user_entry)
        (Tr.calls t)
  /\ ~ In (revoke_call Example.sales "ds-1" Example.other_user_entry)
          (Tr.calls t).
Proof.
  destruct (reset_revokes_by_substring Stubber.serve Example.sales "ds-1"
              Example.reset_answers (tl Example.reset_answers) [] _
              Example.sales_permissions eq_refl eq_refl) as [Hcalls Hiff].
  split; [exact Hcalls |]. split.
  - apply (Hiff Example.workgroup_user_entry).
    + right. left. reflexivity.
    + exists "arn:aws:quicksight:us-east-1:111122223333:user/default/work",
        "-admin". reflexivity.
  - vm_compute. intros [H | [H | [H | []]]]; discriminate H.
Defined.

(** Neither job finds its manifest: both return their success response
    without a change at the remote end. *)
Lemma manifest_retrieval_failure_is_noop_witness :
  let no_such_key := ClientError "NoSuchKey" "An error occurred (NoSuchKey)" in
  QsUserGov.handler Stubber.serve Example.user_env "{}" Example.function_arn
    [ Err no_such_key ]
  = (Ret QsUserGov.SUCCESS_RESPONSE, [],
     [ LogInfo "event: {}";
       Call (s3_get_object "qs-governance" "qs-user-governance.json")
            (Err no_such_key);
       LogInfo "Could not retrieve manifest file. Error: An error occurred (NoSuchKey)" ])
  /\ QsAssetGov.handler Stubber.serve Example.asset_env 8 "{}"
       Example.function_arn
       [ Ok (DataSetSummaries Example.listing None); Err no_such_key ]
     = (Ret QsAssetGov.SUCCESS_RESPONSE, [],
        [ LogInfo "event: {}";
          Call (list_data_sets Example.account None)
               (Ok (DataSetSummaries Example.listing None));
          Call (s3_get_object "qs-governance" "qs-asset-governance.json")
               (Err no_such_key);
          LogInfo "Could not retrieve manifest file. Error: An error occurred (NoSuchKey)" ]).
Proof.
  intros no_such_key.
  destruct (manifest_retrieval_failure_is_noop Stubber.serve Example.user_env
              Example.asset_env 8 "{}" Example.function_arn Example.account
              "NoSuchKey" "An error occurred (NoSuchKey)" eq_refl)
    as [Huser Hasset].
  split.
  - apply (Huser [ Err no_such_key ] []). reflexivity.
  - apply (Hasset Example.listing
             [ Ok (DataSetSummaries Example.listing None); Err no_such_key ]
             [ Err no_such_key ] []
             [ Call (list_data_sets Example.account None)
                 (Ok (DataSetSummaries Example.listing None)) ]);
      reflexivity.
Defined.

(** The Okta user whose profile e-mail address is [alice@corp.example]
    enters the manifest with the user name [a@x.com] as e-mail address. *)
Lemma manifest_email_is_username_witness :
  let manifest :=
    [ {| entry_username := "a@x.com";
         entry_email := "a@x.com";
         entry_groups := ["Everyone"; "qs_role_reader"] |} ] in
  fst (fst (GetOktaInfo.build_user_governance_manifest Stubber.serve
              Example.okta_env [ Example.okta_alice ] Example.okta_answers))
  = Ret manifest
  /\ Forall email_is_username manifest.
Proof.
  intros manifest. split; [reflexivity |].
  apply (manifest_email_is_username Stubber.serve Example.okta_env
           [ Example.okta_alice ] manifest Example.okta_answers [] _ eq_refl).
Defined.

(** C5.  The first entry of the manifest names a data set the account does
    not list.  [get_dataset_id] gives the empty string for it; the describe
    call of the reset, made with that identifier outside any [try], is
    refused with [InvalidParameterValueException]; the error reaches
    [handler], which logs the traceback and raises its failure payload.  The
    second entry, for a data set that exists, is never looked at. *)
Theorem missing_dataset_aborts_run :
  QsAssetGov.get_dataset_id Example.missing Example.listing = ""
  /\ QsAssetGov.handler Stubber.serve Example.asset_env 8 "{}"
       Example.function_arn Example.missing_dataset_answers
     = (Raise (Exception_ QsAssetGov.FAILURE_RESPONSE), [],
        [ LogInfo "event: {}";
          Call (list_data_sets Example.account None)
               (Ok (DataSetSummaries Example.listing None));
          Call (s3_get_object "qs-governance" "qs-asset-governance.json")
               (Ok (AssetsDocument Example.missing_then_sales));
          Call (describe_data_set_permissions Example.account "")
               (Example.client_error "InvalidParameterValueException");
          LogTraceback
            (ClientError "InvalidParameterValueException"
               "An error occurred (InvalidParameterValueException)") ]).
Proof. split; reflexivity. Qed.

(** * Further properties *)

(** ** Loops *)

(** The calls of a loop that returns are the calls of its turns, in order. *)
Lemma for_each_calls {W A : Type} (body : A -> @M W unit)
    (turn : A -> list api_call) (l : list A) :
  (forall x w w' t, body x w = (Ret tt, w', t) -> Tr.calls t = turn x) ->
  forall w w' t,
    for_each l body w = (Ret tt, w', t) -> Tr.calls t = flat_map turn l.
Proof.
  intros Hturn. induction l as [| x l IH]; intros w w' t H.
  - injection H as <- <-. reflexivity.
  - cbn [for_each] in H. unfold bind in H.
    destruct (body x w) as [[[[] | e |] w1] t1] eqn:Ex; try discriminate.
    destruct (for_each l body w1) as [[r2 w2] t2] eqn:El.
    injection H as -> <- <-.
    rewrite calls_app, (Hturn _ _ _ _ Ex), (IH _ _ _ El). reflexivity.
Qed.

(** A loop whose turns do not end on a [ClientError] does not either. *)
Lemma for_each_no_client_error {W A : Type} (body : A -> @M W unit)
    (l : list A) :
  (forall x w, no_client_error (fst (fst (body x w)))) ->
  forall w, no_client_error (fst (fst (for_each l body w))).
Proof.
  intros Hbody. induction l as [| x l IH]; intros w; [exact I |].
  cbn [for_each]. unfold bind. specialize (Hbody x w).
  destruct (body x w) as [[[[] | e |] w1] t1]; cbn in *; auto.
  specialize (IH w1). destruct (for_each l body w1) as [[r2 w2] t2].
  exact IH.
Qed.

(** ** Data set resolution and listing *)

(** X1.  [get_dataset_id] returns the identifier of the first data set of
    the listing that has the name of the asset, whatever comes after it. *)
Theorem get_dataset_id_first_match
    (asset : QsAssetGov.QuickSightAsset) (before after : list dataset_summary)
    (dset : dataset_summary) :
  (forall other, In other before -> Name other <> QsAssetGov.name asset) ->
  Name dset = QsAssetGov.name asset ->
  QsAssetGov.get_dataset_id asset (before ++ dset :: after) = DataSetId dset.
Proof.
  intros Hbefore Hname. induction before as [| other before IH]; cbn.
  - rewrite Hname, String.eqb_refl. reflexivity.
  - destruct (String.eqb_spec (Name other) (QsAssetGov.name asset)) as [Heq | _].
    + exfalso. exact (Hbefore other (or_introl eq_refl) Heq).
    + apply IH. intros x Hx. apply Hbefore. right. exact Hx.
Qed.

Section Listing.

Context {W : Type}.
Variable serve : service W.

Lemma next_pages_listed (account_id : string) (w w' : W)
    (token : option string) (pages : list (list dataset_summary)) :
  listed serve account_id w token pages w' ->
  forall fuel acc,
    (length pages <= fuel ->
     exists t,
       QsAssetGov.next_pages serve fuel account_id acc token w
       = (Ret (acc ++ concat pages), w', t)
       /\ length (Tr.calls t) = length pages)
    /\ (fuel < length pages ->
        fst (fst (QsAssetGov.next_pages serve fuel account_id acc token w))
        = Timeout).
Proof.
  induction 1 as [w | w w1 w' tok page next pages Hpage Hrest IH];
    intros fuel acc.
  - split.
    + intros _. exists []. destruct fuel; cbn; rewrite app_nil_r; auto.
    + cbn. lia.
  - destruct fuel as [| fuel]; cbn [QsAssetGov.next_pages length].
    + split; [lia | reflexivity].
    + unfold bind, call. rewrite Hpage.
      destruct (IH fuel (acc ++ page)) as [IHret IHtimeout].
      split.
      * intros Hfuel. destruct IHret as [t [Hrun Hlen]]; [lia |].
        rewrite Hrun. eexists. split.
        { cbn [concat]. rewrite app_assoc. reflexivity. }
        rewrite calls_app, length_app, Hlen. reflexivity.
      * intros Hfuel.
        destruct (QsAssetGov.next_pages serve fuel account_id (acc ++ page)
                    next w1) as [[r2 w2] t2].
        cbn in *. now rewrite IHtimeout by lia.
Qed.

(** X2.  When the first request is answered with a page and a continuation,
    and the requests that follow are answered with [pages], then
    [get_all_datasets] returns the data sets of all pages in the order they
    were listed, after one request per page, provided the invocation lasts
    for that many requests; if it does not, the job times out. *)
Theorem get_all_datasets_concatenates
    (account_id : string) (fuel : nat) (w w1 w' : W)
    (first : list dataset_summary) (next : option string)
    (pages : list (list dataset_summary)) :
  serve w (list_data_sets account_id None)
    = (Ok (DataSetSummaries first next), w1) ->
  listed serve account_id w1 next pages w' ->
  (length pages <= fuel ->
   exists t,
     QsAssetGov.get_all_datasets serve fuel account_id w
     = (Ret (first ++ concat pages), w', t)
     /\ length (Tr.calls t) = 1 + length pages)
  /\ (fuel < length pages ->
      fst (fst (QsAssetGov.get_all_datasets serve fuel account_id w))
      = Timeout).
Proof.
  intros Hfirst Hlisted.
  destruct (next_pages_listed _ _ _ _ _ Hlisted fuel ([] ++ first))
    as [Hret Htimeout].
  unfold QsAssetGov.get_all_datasets, bind, call. rewrite Hfirst. split.
  - intros Hfuel. destruct (Hret Hfuel) as [t [Hrun Hlen]].
    rewrite Hrun. eexists. split; [reflexivity |].
    rewrite calls_app, length_app, Hlen. reflexivity.
  - intros Hfuel.
    destruct (QsAssetGov.next_pages serve fuel account_id ([] ++ first) next w1)
      as [[r2 w2] t2].
    cbn in *. now rewrite Htimeout by assumption.
Qed.

End Listing.

(** ** Grants, and the reset and the grants together *)

Lemma flat_map_single {A B : Type} (f : A -> B) (l : list A) :
  flat_map (fun x => [f x]) l = map f l.
Proof. induction l as [| x l IH]; [reflexivity |]. cbn. now rewrite IH. Qed.

Section Grants.

Context {W : Type}.
Variable serve : service W.
Variable env : QsAssetGov.environ.

Lemma grants_run (asset : QsAssetGov.QuickSightAsset) (dataset_id : string)
    (w : W) :
  let '(r, _, t) :=
    QsAssetGov.apply_dataset_governance serve env asset dataset_id w in
  no_client_error r
  /\ (r = Ret tt ->
      Tr.calls t = map (grant_call env asset dataset_id)
                     (QsAssetGov.groups asset)).
Proof.
  unfold QsAssetGov.apply_dataset_governance. cbv zeta.
  match goal with |- context [for_each _ ?b w] => set (body := b) end.
  assert (Hturn : forall group w0,
             let '(r, _, t) := body group w0 in
             no_client_error r
             /\ (r = Ret tt ->
                 Tr.calls t = [grant_call env asset dataset_id group])).
  { intros group w0. unfold body, try_except_ClientError, bind, call, emit, ret.
    unfold grant_call, QsAssetGov.group_principal.
    destruct (serve w0 _) as [[p | [code text | nm | pl]] w1]; cbn -[append];
      try (destruct (code =? _); cbn -[append]);
      split; try exact I; try reflexivity; discriminate. }
  pose proof (for_each_no_client_error body (QsAssetGov.groups asset)) as Hnce.
  pose proof (for_each_calls body
                (fun group => [grant_call env asset dataset_id group])
                (QsAssetGov.groups asset)) as Hcalls.
  destruct (for_each (QsAssetGov.groups asset) body w) as [[r w'] t] eqn:Erun.
  split.
  - assert (Hbody : forall x w0, no_client_error (fst (fst (body x w0)))).
    { intros x w0. specialize (Hturn x w0).
      destruct (body x w0) as [[r0 w1] t0]. apply Hturn. }
    specialize (Hnce Hbody w). now rewrite Erun in Hnce.
  - intros ->. rewrite <- flat_map_single. apply (Hcalls) with (w := w) (w' := w').
    + intros x w0 w1 t0 Hx. specialize (Hturn x w0). rewrite Hx in Hturn.
      apply Hturn. reflexivity.
    + exact Erun.
Qed.

(** X3.  [apply_dataset_governance] never ends on a [ClientError]: a grant
    that is refused is passed over, with a log line only when the code is
    [InvalidParameterValueException].  When it returns it has issued one
    grant per group of the asset, in the order of the manifest, each to the
    group's ARN in the asset's namespace, with the five read actions when
    the permission is ["READ"] and with the empty string as actions for any
    other permission. *)
Theorem grants_one_per_group
    (asset : QsAssetGov.QuickSightAsset) (dataset_id : string) (w w' : W)
    (r : result unit) (t : trace) :
  QsAssetGov.apply_dataset_governance serve env asset dataset_id w
    = (r, w', t) ->
  no_client_error r
  /\ (r = Ret tt ->
      Tr.calls t = map (grant_call env asset dataset_id)
                     (QsAssetGov.groups asset)).
Proof.
  intros H. pose proof (grants_run asset dataset_id w) as Hrun.
  rewrite H in Hrun. exact Hrun.
Qed.

(** X4.  When the processing of a data set asset returns, its calls are the
    describe call, one revoke per listed entry whose principal mentions
    ["group"], and one grant per group of the asset, in this order. *)
Theorem govern_asset_calls
    (all_datasets : list dataset_summary) (asset : QsAssetGov.QuickSightAsset)
    (w w1 w' : W) (perms : list permission) (t : trace) :
  QsAssetGov.category asset = "dataset" ->
  let dataset_id := QsAssetGov.get_dataset_id asset all_datasets in
  let describe :=
    describe_data_set_permissions (QsAssetGov.account_id asset) dataset_id in
  serve w describe = (Ok (Permissions perms), w1) ->
  QsAssetGov.govern_asset serve env all_datasets asset w = (Ret tt, w', t) ->
  Tr.calls t
  = describe
      :: map (revoke_call asset dataset_id) (filter mentions_group perms)
      ++ map (grant_call env asset dataset_id) (QsAssetGov.groups asset).
Proof.
  intros Hcat dataset_id describe Hdesc H.
  unfold QsAssetGov.govern_asset in H. rewrite Hcat in H. cbn in H.
  fold dataset_id in H. unfold bind in H.
  destruct (QsAssetGov.reset_dataset_permissions serve asset dataset_id w)
    as [[[[] | e |] w2] t1] eqn:Ereset; try discriminate.
  destruct (reset_run _ _ _ _ _ _ _ Ereset)
    as [resp [rest [Ht1 [Hresp [_ Hfull]]]]].
  fold describe in Hresp. rewrite Hdesc in Hresp. cbn in Hresp. subst resp.
  destruct (Hfull eq_refl) as [perms' [Heq Hrest]]. injection Heq as <-.
  pose proof (grants_run asset dataset_id w2) as Hgrants.
  destruct (QsAssetGov.apply_dataset_governance serve env asset dataset_id w2)
    as [[r2 w3] t2].
  injection H as -> <- <-. destruct Hgrants as [_ Hgrants].
  rewrite calls_app, (Hgrants eq_refl), Ht1.
  cbn [Tr.calls flat_map app]. fold (Tr.calls rest). now rewrite Hrest.
Qed.

(** X5.  Once the describe call has been answered, [reset_dataset_permissions]
    does not end on a [ClientError]: a revoke that is refused does not stop
    the reset. *)
Theorem reset_passes_over_refused_revokes
    (asset : QsAssetGov.QuickSightAsset) (dataset_id : string) (w w1 : W)
    (p : payload) :
  serve w (describe_data_set_permissions (QsAssetGov.account_id asset)
             dataset_id) = (Ok p, w1) ->
  no_client_error
    (fst (fst (QsAssetGov.reset_dataset_permissions serve asset dataset_id w))).
Proof.
  intros Hdesc. unfold QsAssetGov.reset_dataset_permissions.
  unfold bind at 1 2. unfold call. rewrite Hdesc.
  destruct p; cbn [raise ret fst]; try exact I.
  unfold bind.
  match goal with |- context [for_each perms ?b w1] => set (body := b) end.
  pose proof (for_each_no_client_error body perms) as Hloop.
  assert (Hbody : forall x w0, no_client_error (fst (fst (body x w0)))).
  { intros x w0. unfold body, try_except_ClientError, bind, call, emit, ret.
    destruct (Py.str_in "group" (Principal x)); [| exact I].
    destruct (serve w0 _) as [[p0 | [code text | nm | pl]] w2]; cbn;
      try (destruct (code =? _)); exact I. }
  specialize (Hloop Hbody w1).
  destruct (for_each perms body w1) as [[[[] | e |] w2] t2]; cbn in *; auto.
Qed.

(** X6.  An asset manifest none of whose entries has the category
    ["dataset"], compared letter for letter, makes the asset job do nothing
    after it has listed the data sets and read the manifest. *)
Theorem other_categories_are_ignored
    (fuel : nat) (event arn account_id : string) (w w0 w1 : W)
    (all_datasets : list dataset_summary) (listing : trace)
    (assets : list asset_entry) :
  nth_error (Py.split ":" arn) 4 = Some account_id ->
  QsAssetGov.get_all_datasets serve fuel account_id w
    = (Ret all_datasets, w0, listing) ->
  serve w0 (s3_get_object (QsAssetGov.BUCKET env) (QsAssetGov.KEY env))
    = (Ok (AssetsDocument assets), w1) ->
  Forall (fun asset => entry_category asset <> "dataset") assets ->
  QsAssetGov.handler serve env fuel event arn w
  = (Ret QsAssetGov.SUCCESS_RESPONSE, w1,
     LogInfo ("event: " ++ event)
       :: listing
       ++ [ Call (s3_get_object (QsAssetGov.BUCKET env) (QsAssetGov.KEY env))
                 (Ok (AssetsDocument assets)) ]).
Proof.
  intros Harn Hlist Hs3 Hcats.
  unfold QsAssetGov.handler, QsAssetGov.get_asset_manifest. rewrite Harn.
  unfold bind at 1 2 3. cbn [emit ret]. rewrite Hlist.
  unfold bind at 1 2 3, try_except_ClientError, call. rewrite Hs3.
  cbn [ret app]. unfold try_except_Exception, bind.
  rewrite for_each_skip.
  - cbn -[append]. rewrite ?app_nil_r. reflexivity.
  - intros asset Hasset. rewrite map_map in Hasset.
    apply in_map_iff in Hasset. destruct Hasset as [entry [<- Hentry]].
    rewrite Forall_forall in Hcats. specialize (Hcats entry Hentry).
    unfold QsAssetGov.govern_asset. cbn.
    destruct (String.eqb_spec (entry_category entry) "dataset");
      [contradiction | reflexivity].
Qed.

End Grants.

(** ** Group and membership synchronisation *)

Lemma flat_map_filter {A B : Type} (p : A -> bool) (f : A -> B) (l : list A) :
  flat_map (fun x => if p x then [f x] else []) l = map f (filter p l).
Proof.
  induction l as [| x l IH]; [reflexivity |].
  cbn. destruct (p x); cbn; now rewrite IH.
Qed.

Section Sync.

Context {W : Type}.
Variable serve : service W.
Variable env : QsUserGov.environ.

(** X7.  When [update_memberships] returns, it has listed the groups of the
    user, then added the user to each relevant group of the manifest that
    was not in the answer, then removed the user from each group of the
    answer that is not a relevant group of the manifest; names are compared
    letter for letter and the order is that of the manifest and of the
    answer. *)
Theorem update_memberships_reconciles
    (user : QsUserGov.OktaUser) (w w1 w' : W) (names : list string)
    (t : trace) :
  let list_call :=
    list_user_groups (QsUserGov.qs_username user) (QsUserGov.account_id user)
      (QsUserGov.namespace user) in
  serve w list_call = (Ok (GroupList names), w1) ->
  QsUserGov.update_memberships serve user w = (Ret tt, w', t) ->
  Tr.calls t
  = list_call
      :: map (add_membership_call user)
           (filter (fun grp => negb (Py.list_in grp names))
              (QsUserGov.qs_groups user))
      ++ map (remove_membership_call user)
           (filter (fun grp => negb (Py.list_in grp (QsUserGov.qs_groups user)))
              names).
Proof.
  intros list_call Hlist H.
  unfold QsUserGov.update_memberships, QsUserGov.get_memberships in H.
  fold list_call in H. unfold bind at 1 2 in H. unfold call in H.
  rewrite Hlist in H. cbn [ret] in H. unfold bind in H.
  match type of H with
  | context [for_each (QsUserGov.qs_groups user) ?b w1] => set (add := b) in H
  end.
  destruct (for_each (QsUserGov.qs_groups user) add w1)
    as [[[[] | e |] w2] t1] eqn:Eadd; try discriminate.
  match type of H with
  | context [for_each names ?b w2] => set (remove := b) in H
  end.
  destruct (for_each names remove w2) as [[r3 w3] t2] eqn:Eremove.
  injection H as -> <- <-.
  cbn [app Tr.calls flat_map]. fold (Tr.calls (t1 ++ t2)). rewrite calls_app.
  f_equal. f_equal.
  - rewrite <- flat_map_filter.
    apply (for_each_calls add _ _) with (w := w1) (w' := w2); [| exact Eadd].
    intros grp w0 w0' t0 Hturn. unfold add in Hturn.
    destruct (negb (Py.list_in grp names)).
    + unfold bind, call, emit in Hturn.
      destruct (serve w0 _) as [[p | e] w4]; [| discriminate].
      injection Hturn as <- <-. reflexivity.
    + injection Hturn as <- <-. reflexivity.
  - rewrite <- flat_map_filter.
    apply (for_each_calls remove _ _) with (w := w2) (w' := w3);
      [| exact Eremove].
    intros grp w0 w0' t0 Hturn. unfold remove in Hturn.
    destruct (negb (Py.list_in grp (QsUserGov.qs_groups user))).
    + unfold bind, call, emit in Hturn.
      destruct (serve w0 _) as [[p | e] w4]; [| discriminate].
      injection Hturn as <- <-. reflexivity.
    + injection Hturn as <- <-. reflexivity.
Qed.

Lemma ensure_groups_run (user : QsUserGov.OktaUser) (l : list string) :
  forall (w w' : W) (t : trace),
    QsUserGov.create_if_not_exists_groups serve
      {| QsUserGov.username := QsUserGov.username user;
         QsUserGov.email := QsUserGov.email user;
         QsUserGov.groups := QsUserGov.groups user;
         QsUserGov.account_id := QsUserGov.account_id user;
         QsUserGov.namespace := QsUserGov.namespace user;
         QsUserGov.qs_username := QsUserGov.qs_username user;
         QsUserGov.qs_groups := l;
         QsUserGov.qs_role := QsUserGov.qs_role user |} w
    = (Ret tt, w', t) ->
    filter Tr.is_describe_group (Tr.calls t)
    = map (fun grp => describe_group grp (QsUserGov.account_id user)
                        (QsUserGov.namespace user)) l
    /\ forall grp,
        In (create_group grp (QsUserGov.account_id user)
              (QsUserGov.namespace user)) (Tr.calls t) ->
        exists code text,
          In (Call (describe_group grp (QsUserGov.account_id user)
                      (QsUserGov.namespace user))
                   (Err (ClientError code text))) t.
Proof.
  unfold QsUserGov.create_if_not_exists_groups.
  cbn [QsUserGov.qs_groups QsUserGov.account_id QsUserGov.namespace].
  induction l as [| grp l IH]; intros w w' t H.
  - injection H as <- <-. split; [reflexivity | intros grp []].
  - cbn [for_each] in H. unfold bind at 1 in H.
    match type of H with
    | context [match ?turn w with _ => _ end] =>
        destruct (turn w) as [[[[] | e |] w1] t1] eqn:Eturn
    end; try discriminate.
    match type of H with
    | context [for_each l ?b w1] =>
        destruct (for_each l b w1) as [[r2 w2] t2] eqn:Erest
    end.
    injection H as -> <- <-.
    destruct (IH _ _ _ Erest) as [IHdescribe IHcreate].
    unfold try_except_ClientError, bind, call, ret, emit in Eturn.
    destruct (serve w _) as [[p | [code text | nm | pl]] w3] eqn:Edescribe;
      cbn in Eturn; try discriminate.
    + injection Eturn as <- <-. split.
      * cbn. fold (Tr.calls t2). now rewrite IHdescribe.
      * intros g [Hg | Hg]; [discriminate |].
        destruct (IHcreate g Hg) as [code [text Hin]].
        exists code, text. right. exact Hin.
    + destruct (serve w3 _) as [[p | e] w4] eqn:Ecreate; cbn in Eturn;
        [| discriminate].
      injection Eturn as <- <-. split.
      * cbn. fold (Tr.calls t2). now rewrite IHdescribe.
      * intros g [Hg | [Hg | Hg]]; [discriminate | |].
        -- injection Hg as <-. exists code, text. left. reflexivity.
        -- destruct (IHcreate g Hg) as [code' [text' Hin]].
           exists code', text'. right. right. right. right. exact Hin.
Qed.

(** X8.  When [create_if_not_exists_groups] returns, it has made one
    [describe_group] call per relevant group of the user, in order, and it
    has created only groups whose [describe_group] call had failed with a
    [ClientError], whatever its code. *)
Theorem groups_created_only_if_absent
    (user : QsUserGov.OktaUser) (w w' : W) (t : trace) :
  QsUserGov.create_if_not_exists_groups serve user w = (Ret tt, w', t) ->
  filter Tr.is_describe_group (Tr.calls t)
  = map (fun grp => describe_group grp (QsUserGov.account_id user)
                      (QsUserGov.namespace user))
      (QsUserGov.qs_groups user)
  /\ forall grp,
      In (create_group grp (QsUserGov.account_id user)
            (QsUserGov.namespace user)) (Tr.calls t) ->
      exists code text,
        In (Call (describe_group grp (QsUserGov.account_id user)
                    (QsUserGov.namespace user))
                 (Err (ClientError code text))) t.
Proof.
  intros H. destruct user as [un em gs acct ns qun qgs role].
  exact (ensure_groups_run (QsUserGov.mk_OktaUser un em gs acct ns qun qgs role)
           qgs w w' t H).
Qed.

End Sync.

(** ** One user *)

Lemma In_calls_group_sync (t : trace) (c : api_call) :
  Forall group_sync_event t -> In c (Tr.calls t) ->
  Tr.is_group_operation c = true.
Proof.
  intros HF Hin.
  apply (calls_Forall _ (fun c => Tr.is_group_operation c = true)) in HF;
    [| auto].
  rewrite Forall_forall in HF. auto.
Qed.

Section OneUser.

Context {W : Type}.
Variable serve : service W.
Variable env : QsUserGov.environ.

(** Runs [apply_user_governance] in [H], the group synchronisation kept
    whole. *)
Ltac run_governance H :=
  unfold QsUserGov.apply_user_governance in H;
  match type of H with
  | context [bind (QsUserGov.create_if_not_exists_groups ?s ?u) ?k] =>
      pose proof (sync_emits_group_sync s u) as Hsync;
      set (sync := bind (QsUserGov.create_if_not_exists_groups s u) k) in *
  end;
  unfold QsUserGov.create_if_not_exists_namespace,
    QsUserGov.register_if_not_exists_user, QsUserGov.update_role,
    QsUserGov.delete_user in H;
  unfold bind, call, try_except_ClientError, ret, emit, raise in H;
  repeat step_in H;
  try match goal with
      | Hsync : emits_only group_sync_event ?sync |- _ =>
          match type of H with
          | context [sync ?w1] =>
              let Hs := fresh "Hs" in
              pose proof (Hsync w1) as Hs;
              destruct (sync w1) as [[? ?] ?]; cbn -[append] in H, Hs
          end
      end;
  injection H as <- <- <-.

(** Splits a membership in a trace that is given event by event. *)
Ltac split_in Hin :=
  cbn -[append] in Hin;
  repeat match type of Hin with
         | _ \/ _ => destruct Hin as [Hin | Hin]
         | False => destruct Hin
         end.

(** X9.  Whenever [apply_user_governance] returns for a user, it has issued
    exactly one [update_user] call, the one with the role resolved for the
    user, whether or not anything has changed for that user. *)
Theorem one_role_update_per_user
    (user : QsUserGov.OktaUser) (w w' : W) (r : result unit) (t : trace) :
  QsUserGov.apply_user_governance serve env user w = (r, w', t) ->
  r = Ret tt ->
  filter Tr.is_update_user (Tr.calls t) = [ update_user_call user ].
Proof.
  intros H Hr. run_governance H.
  all: try discriminate Hr.
  all: try reflexivity.
  all: cbn -[append Tr.calls];
    match goal with
    | Hs : Forall group_sync_event ?l |- _ =>
        change (update_user_call user :: filter Tr.is_update_user (Tr.calls l)
                = [update_user_call user]);
        rewrite (group_sync_filter Tr.is_update_user l);
        [reflexivity | intros c; destruct c; (discriminate || reflexivity)
        | exact Hs]
    end.
Qed.

(** X10.  When the [update_user] call fails with a [ClientError] whose code
    is neither [ResourceNotFoundException] nor
    [InvalidParameterValueException], the error is dropped: the failed call
    is the last event of the run for that user, which returns without a
    [delete_user] call, without a call on groups and without a log line
    about the failure. *)
Theorem other_update_errors_are_dropped
    (user : QsUserGov.OktaUser) (w w' : W) (r : result unit) (t : trace)
    (code text : string) :
  QsUserGov.apply_user_governance serve env user w = (r, w', t) ->
  In (Call (update_user_call user) (Err (ClientError code text))) t ->
  code <> "ResourceNotFoundException" ->
  code <> "InvalidParameterValueException" ->
  r = Ret tt
  /\ last t (Sleep 0) = Call (update_user_call user) (Err (ClientError code text))
  /\ filter Tr.is_delete_user (Tr.calls t) = []
  /\ Tr.count Tr.is_group_operation t = 0.
Proof.
  intros H Hin Hrnf Hipv. unfold update_user_call in *.
  run_governance H.
  all: split_in Hin.
  all: try discriminate Hin.
  all: try match goal with
       | Hs : Forall group_sync_event ?l, Hin : In _ ?l |- _ =>
           apply (In_group_sync _ _ _ Hs) in Hin; discriminate Hin
       end.
  all: injection Hin as -> ->.
  all: try match goal with
       | E : (_ || _) = true |- _ =>
           apply orb_true_iff in E; destruct E as [E | E];
           apply String.eqb_eq in E; contradiction
       end.
  all: repeat split; reflexivity.
Qed.

(** X11.  When the [delete_user] call of the downgrade path raises, the
    exception leaves [apply_user_governance] as it is, right after that
    call: deleting a user that QuickSight does not have ends the run for
    that user with an error. *)
Theorem failed_delete_propagates
    (user : QsUserGov.OktaUser) (w w' : W) (r : result unit) (t : trace)
    (e : exn) :
  QsUserGov.apply_user_governance serve env user w = (r, w', t) ->
  let delete :=
    delete_user_ (QsUserGov.qs_username user) (QsUserGov.account_id user)
      (QsUserGov.namespace user) in
  In (Call delete (Err e)) t ->
  r = Raise e /\ last t (Sleep 0) = Call delete (Err e).
Proof.
  intros H delete Hin. subst delete.
  run_governance H.
  all: split_in Hin.
  all: try discriminate Hin.
  all: try match goal with
       | Hs : Forall group_sync_event ?l, Hin : In _ ?l |- _ =>
           apply (In_group_sync _ _ _ Hs) in Hin; discriminate Hin
       end.
  all: injection Hin as <-.
  all: split; reflexivity.
Qed.

(** X12.  A [register_user] call is issued for a user only after the
    [describe_user] call for that user has failed with a [ClientError], and
    only if the user has a role: a user QuickSight describes is never
    registered again, and a user without a role is never registered. *)
Theorem registers_only_unknown_users_with_role
    (user : QsUserGov.OktaUser) (w w' : W) (r : result unit) (t : trace)
    (c : api_call) :
  QsUserGov.apply_user_governance serve env user w = (r, w', t) ->
  In c (Tr.calls t) ->
  Tr.is_register_user c = true ->
  QsUserGov.qs_role user <> ""
  /\ exists code text,
      In (Call (describe_user (QsUserGov.qs_username user)
                  (QsUserGov.account_id user) (QsUserGov.namespace user))
               (Err (ClientError code text))) t.
Proof.
  intros H Hin Hreg.
  run_governance H.
  all: unfold Tr.calls in Hin; cbn -[append] in Hin.
  all: repeat match type of Hin with
       | _ \/ _ => destruct Hin as [Hin | Hin]
       | False => destruct Hin
       | In _ (flat_map _ ?l) =>
           match goal with
           | Hs : Forall group_sync_event l |- _ =>
               apply (In_calls_group_sync _ _ Hs) in Hin;
               destruct c; discriminate
           end
       end.
  all: try (subst c; discriminate Hreg).
  all: split;
    [ intros Hrole;
      match goal with
      | E : Py.truthy_str _ = true |- _ => rewrite Hrole in E; discriminate E
      end
    | do 2 eexists; cbn -[append]; eauto 10 ].
Qed.

(** X20.  [create_if_not_exists_namespace] creates the namespace after any
    [ClientError] of [describe_namespace], whatever its code, and after
    nothing else; it pauses for 120 seconds exactly when the creation has
    succeeded; and when the namespace is described it does nothing more. *)
Theorem namespace_created_after_any_client_error
    (user : QsUserGov.OktaUser) (w w' : W) (r : result unit) (t : trace) :
  QsUserGov.create_if_not_exists_namespace serve user w = (r, w', t) ->
  let describe :=
    describe_namespace (QsUserGov.account_id user) (QsUserGov.namespace user) in
  let create :=
    create_namespace (QsUserGov.account_id user) (QsUserGov.namespace user)
      "QUICKSIGHT" in
  (In create (Tr.calls t)
   <-> exists code text, In (Call describe (Err (ClientError code text))) t)
  /\ (In (Sleep 120) t <-> exists p, In (Call create (Ok p)) t)
  /\ (forall p, In (Call describe (Ok p)) t ->
      r = Ret tt /\ t = [Call describe (Ok p)]).
Proof.
  intros H describe create. subst describe create.
  unfold QsUserGov.create_if_not_exists_namespace in H.
  unfold bind, call, try_except_ClientError, ret, emit, raise in H.
  repeat step_in H.
  all: injection H as <- <- <-.
  all: repeat split; intros; cbn -[append] in *.
  all: repeat match goal with
       | Hx : exists _, _ |- _ => destruct Hx as [? Hx]
       | Hx : _ \/ _ |- _ => destruct Hx as [Hx | Hx]
       | Hx : False |- _ => destruct Hx
       | Hx : _ = _ |- _ => discriminate Hx
       end.
  all: try congruence.
  all: eauto 8.
Qed.

End OneUser.

(** ** The user job as a whole *)

Section Finishes.

Context {W : Type}.
Variable serve : service W.

Lemma finishes_ret {A : Type} (a : A) : finishes (@ret W A a).
Proof. intros w. discriminate. Qed.

Lemma finishes_raise {A : Type} (e : exn) : finishes (@raise W A e).
Proof. intros w. discriminate. Qed.

Lemma finishes_emit (e : event) : finishes (@emit W e).
Proof. intros w. discriminate. Qed.

Lemma finishes_call (c : api_call) : finishes (call serve c).
Proof.
  intros w. unfold call. destruct (serve w c) as [[p | e] w1]; discriminate.
Qed.

Lemma finishes_bind {A B : Type} (m : M A) (f : A -> @M W B) :
  finishes m -> (forall a, finishes (f a)) -> finishes (bind m f).
Proof.
  intros Hm Hf w. unfold bind. specialize (Hm w).
  destruct (m w) as [[[a | e |] w1] t1]; cbn in *; try discriminate;
    [| contradiction].
  specialize (Hf a w1). destruct (f a w1) as [[r w2] t2]. exact Hf.
Qed.

Lemma finishes_try_ClientError {A : Type} (m : @M W A) handler :
  finishes m -> (forall code text, finishes (handler code text)) ->
  finishes (try_except_ClientError m handler).
Proof.
  intros Hm Hh w. unfold try_except_ClientError. specialize (Hm w).
  destruct (m w) as [[[a | [code text | nm | pl] |] w1] t1]; cbn in *;
    try discriminate; [| contradiction].
  specialize (Hh code text w1).
  destruct (handler code text w1) as [[r w2] t2]. exact Hh.
Qed.

Lemma finishes_try_Exception {A : Type} (m : @M W A) handler :
  finishes m -> (forall e, finishes (handler e)) ->
  finishes (try_except_Exception m handler).
Proof.
  intros Hm Hh w. unfold try_except_Exception. specialize (Hm w).
  destruct (m w) as [[[a | e |] w1] t1]; cbn in *;
    try discriminate; [| contradiction].
  specialize (Hh e w1). destruct (handler e w1) as [[r w2] t2]. exact Hh.
Qed.

Lemma finishes_for_each {A : Type} (l : list A) (body : A -> @M W unit) :
  (forall x, finishes (body x)) -> finishes (for_each l body).
Proof.
  intros H. induction l as [| x l IH]; cbn [for_each].
  - apply finishes_ret.
  - apply finishes_bind; auto.
Qed.

Lemma emits_only_try_Exception (P : event -> Prop) {A : Type}
    (m : @M W A) handler :
  emits_only P m -> (forall e, emits_only P (handler e)) ->
  emits_only P (try_except_Exception m handler).
Proof.
  intros Hm Hh w. unfold try_except_Exception. specialize (Hm w).
  destruct (m w) as [[[a | e |] w1] t1]; cbn in *; auto.
  specialize (Hh e w1). destruct (handler e w1) as [[r w2] t2]; cbn in *.
  apply Forall_app; auto.
Qed.

Lemma emits_only_bind_returns (P : event -> Prop) {A B : Type}
    (Q : A -> Prop) (m : M A) (f : A -> @M W B) :
  emits_only P m -> returns Q m -> (forall a, Q a -> emits_only P (f a)) ->
  emits_only P (bind m f).
Proof.
  intros Hm HQ Hf w. unfold bind. specialize (Hm w). specialize (HQ w).
  destruct (m w) as [[[a | e |] w1] t1]; cbn in *; auto.
  specialize (Hf a (HQ a w1 t1 eq_refl) w1).
  destruct (f a w1) as [[r w2] t2]; cbn in *.
  apply Forall_app; auto.
Qed.

End Finishes.

(** Breaks a computation without a loop on fuel down to its steps. *)
Ltac finish :=
  repeat first
    [ apply finishes_bind; [| intros ?]
    | apply finishes_try_ClientError; [| intros ? ?]
    | apply finishes_try_Exception; [| intros ?]
    | apply finishes_for_each; intros ?
    | apply finishes_ret
    | apply finishes_raise
    | apply finishes_emit
    | apply finishes_call
    | match goal with
      | |- finishes (if ?b then _ else _) => destruct b
      | |- finishes (match ?p with _ => _ end) => destruct p
      end ].

Lemma last_cons_snoc {A : Type} (x y d : A) (l : list A) :
  last (x :: l ++ [y]) d = y.
Proof. change (x :: l ++ [y]) with ((x :: l) ++ [y]). apply last_last. Qed.

Section UserJob.

Context {W : Type}.
Variable serve : service W.
Variable env : QsUserGov.environ.

Lemma apply_user_governance_finishes (user : QsUserGov.OktaUser) :
  finishes (QsUserGov.apply_user_governance serve env user).
Proof.
  unfold QsUserGov.apply_user_governance,
    QsUserGov.create_if_not_exists_namespace,
    QsUserGov.register_if_not_exists_user, QsUserGov.update_role,
    QsUserGov.delete_user, QsUserGov.create_if_not_exists_groups,
    QsUserGov.update_memberships, QsUserGov.get_memberships.
  finish.
Qed.

Lemma manifest_users_from_manifest (account_id : string) :
  returns (Forall (from_manifest env))
    (QsUserGov.get_user_manifest serve env account_id).
Proof.
  intros w manifest w' t H.
  unfold QsUserGov.get_user_manifest, bind, ret in H.
  destruct (try_except_ClientError _ _ w) as [[[users | e |] w1] t1];
    try discriminate.
  injection H as <- <- <-. apply Forall_forall. intros user Huser.
  apply in_map_iff in Huser. destruct Huser as [[[entry acct] ns] [<- _]].
  repeat eexists.
Qed.

Lemma manifest_read_run (account_id : string) (w : W) :
  let '(r, _, t) := QsUserGov.get_user_manifest serve env account_id w in
  no_client_error r /\ r <> Timeout
  /\ Forall (fun c => is_s3_get_object c = true) (Tr.calls t)
  /\ Forall (fun e => match e with LogTraceback _ => False | _ => True end) t.
Proof.
  unfold QsUserGov.get_user_manifest, bind, try_except_ClientError, call,
    emit, ret, raise.
  destruct (serve w _) as [[p | [code text | nm | pl]] w1]; cbn;
    try destruct p; cbn; repeat split; try discriminate;
    repeat constructor.
Qed.

Lemma registration_of_manifest_user (user : QsUserGov.OktaUser) :
  from_manifest env user ->
  emits_only registers_with_role
    (QsUserGov.apply_user_governance serve env user).
Proof.
  intros [username [email [groups [account_id [namespace ->]]]]].
  unfold QsUserGov.apply_user_governance,
    QsUserGov.create_if_not_exists_namespace,
    QsUserGov.register_if_not_exists_user, QsUserGov.update_role,
    QsUserGov.delete_user, QsUserGov.create_if_not_exists_groups,
    QsUserGov.update_memberships, QsUserGov.get_memberships.
  unfold QsUserGov.new_OktaUser, QsUserGov.post_init_role.
  cbn [QsUserGov.qs_role QsUserGov.email QsUserGov.account_id
       QsUserGov.namespace QsUserGov.qs_username QsUserGov.qs_groups].
  set (relevant := filter _ groups).
  destruct (Py.list_in (QsUserGov.QS_ADMIN_OKTA_GROUP env) relevant);
    [| destruct (Py.list_in (QsUserGov.QS_AUTHOR_OKTA_GROUP env) relevant);
       [| destruct (Py.list_in (QsUserGov.QS_READER_OKTA_GROUP env) relevant)]];
    cbn [Py.truthy_str];
    repeat first
      [ apply emits_only_bind; [| intros ?]
      | apply emits_only_try_ClientError; [| intros ? ?]
      | apply emits_only_for_each; intros ?
      | apply emits_only_ret
      | apply emits_only_raise
      | apply emits_only_emit; exact I
      | apply emits_only_call; intros ?; cbn; auto 6
      | match goal with
        | |- emits_only _ (if ?b then _ else _) => destruct b
        | |- emits_only _ (match ?p with _ => _ end) => destruct p
        end ].
Qed.

(** X13.  Every [register_user] call the user job issues, in any run and
    for any manifest, registers an IAM identity whose session name is the
    e-mail address of the call and whose role is ADMIN, AUTHOR or READER:
    the job never registers a user with an empty role. *)
Theorem user_job_registers_with_role (event arn : string) :
  emits_only registers_with_role (QsUserGov.handler serve env event arn).
Proof.
  unfold QsUserGov.handler.
  apply emits_only_bind; [apply emits_only_emit; exact I | intros _].
  apply emits_only_bind;
    [destruct (nth_error _ 4); [apply emits_only_ret | apply emits_only_raise]
    | intros account_id].
  apply (emits_only_bind_returns _ (Forall (from_manifest env))).
  - unfold QsUserGov.get_user_manifest.
    repeat first
      [ apply emits_only_bind; [| intros ?]
      | apply emits_only_try_ClientError; [| intros ? ?]
      | apply emits_only_ret
      | apply emits_only_raise
      | apply emits_only_emit; exact I
      | apply emits_only_call; intros ?; exact I
      | match goal with
        | |- emits_only _ (match ?p with _ => _ end) => destruct p
        end ].
  - apply manifest_users_from_manifest.
  - intros manifest Hmanifest.
    apply emits_only_try_Exception.
    + apply emits_only_bind; [| intros _; apply emits_only_ret].
      induction Hmanifest as [| user manifest Huser _ IH]; cbn [for_each].
      * apply emits_only_ret.
      * apply emits_only_bind; [| intros _; exact IH].
        apply registration_of_manifest_user. exact Huser.
    + intros e. apply emits_only_bind; [apply emits_only_emit; exact I |].
      intros _. apply emits_only_raise.
Qed.

(** X14.  A run of the user job ends in one of three ways.  It returns the
    success response; or it raises the failure payload, the traceback being
    the last thing it logs; or an exception that is not a [ClientError]
    leaves the handler as it is, without a traceback: this is the case of
    an error before the loop over the users, when the function ARN has no
    account field or when the manifest cannot be read or decoded, and then
    no call other than the read of the manifest has been made. *)
Theorem user_job_outcomes (event arn : string) (w : W) :
  let '(r, _, t) := QsUserGov.handler serve env event arn w in
  r = Ret QsUserGov.SUCCESS_RESPONSE
  \/ (r = Raise (Exception_ QsUserGov.FAILURE_RESPONSE)
      /\ exists e, last t (Sleep 0) = LogTraceback e)
  \/ (exists e,
        r = Raise e /\ no_client_error r
        /\ Forall (fun c => is_s3_get_object c = true) (Tr.calls t)
        /\ Forall (fun e => match e with LogTraceback _ => False | _ => True end) t).
Proof.
  unfold QsUserGov.handler.
  unfold bind at 1 2. cbn [emit].
  destruct (nth_error (Py.split ":" arn) 4) as [account_id |]; cbn [ret raise].
  2: { right. right. eexists. repeat split; repeat constructor. }
  unfold bind at 1.
  pose proof (manifest_read_run account_id w) as Hread.
  destruct (QsUserGov.get_user_manifest serve env account_id w)
    as [[[manifest | e |] w1] t1].
  - unfold try_except_Exception, bind.
    pose proof (finishes_for_each manifest
                  (QsUserGov.apply_user_governance serve env)
                  apply_user_governance_finishes w1) as Hfin.
    destruct (for_each manifest (QsUserGov.apply_user_governance serve env) w1)
      as [[[[] | e |] w2] t2]; cbn -[last append] in Hfin |- *.
    + left. reflexivity.
    + right. left. split; [reflexivity |]. exists e.
      rewrite app_assoc. apply last_cons_snoc.
    + contradiction.
  - right. right. exists e. destruct Hread as [Hnce [_ [Hcalls Hlog]]].
    repeat split; try assumption.
    constructor; [exact I | exact Hlog].
  - destruct Hread as [_ [Hfin _]]. contradiction.
Qed.

End UserJob.

(** ** Role groups and the prefix *)

(** X15.  A role group whose name does not start with the configured prefix
    never gives its role: the role is looked up among the groups that have
    the prefix only. *)
Theorem role_group_needs_prefix
    (env : QsUserGov.environ) (username email : string)
    (groups : list string) (account_id namespace : string) :
  let user :=
    QsUserGov.new_OktaUser env username email groups account_id namespace in
  let has_prefix grp := Py.startswith grp (QsUserGov.QS_PREFIX env) in
  (has_prefix (QsUserGov.QS_ADMIN_OKTA_GROUP env) = false ->
   QsUserGov.qs_role user <> "ADMIN")
  /\ (has_prefix (QsUserGov.QS_AUTHOR_OKTA_GROUP env) = false ->
      QsUserGov.qs_role user <> "AUTHOR")
  /\ (has_prefix (QsUserGov.QS_READER_OKTA_GROUP env) = false ->
      QsUserGov.qs_role user <> "READER").
Proof.
  cbv zeta. unfold QsUserGov.new_OktaUser, QsUserGov.post_init_role.
  cbn [QsUserGov.qs_role].
  set (relevant := filter _ groups).
  assert (Hrel : forall grp,
             Py.startswith grp (QsUserGov.QS_PREFIX env) = false ->
             Py.list_in grp relevant = false).
  { intros grp Hgrp. apply list_in_false. intros Hin.
    apply filter_In in Hin. destruct Hin as [_ Hin]. congruence. }
  repeat split; intros Hprefix; rewrite (Hrel _ Hprefix);
    repeat match goal with |- context [if ?b then _ else _] => destruct b end;
    discriminate.
Qed.

(** ** A failure in the middle of the user manifest *)

Lemma for_each_stops {W A : Type} (body : A -> @M W unit)
    (done : list A) (x : A) (rest : list A) (w w1 w2 : W) (t1 t2 : trace)
    (e : exn) :
  for_each done body w = (Ret tt, w1, t1) ->
  body x w1 = (Raise e, w2, t2) ->
  for_each (done ++ x :: rest) body w = (Raise e, w2, t1 ++ t2).
Proof.
  revert w t1. induction done as [| y done IH]; intros w t1 Hdone Hx.
  - injection Hdone as <- <-. cbn [app for_each]. unfold bind.
    rewrite Hx. reflexivity.
  - cbn [app for_each] in *. unfold bind in *.
    destruct (body y w) as [[[[] | e' |] w3] t3]; try discriminate.
    destruct (for_each done body w3) as [[r4 w4] t4] eqn:Edone.
    injection Hdone as -> -> <-.
    rewrite (IH w3 t4 Edone Hx). now rewrite app_assoc.
Qed.

Section Partial.

Context {W : Type}.
Variable serve : service W.
Variable env : QsUserGov.environ.

(** X16.  When the governance of one user of the manifest raises, the user
    job logs the traceback and raises its failure payload at once: what it
    did for the users before that one stays as it is, and the users after
    it are not looked at. *)
Theorem failure_stops_the_user_job
    (event arn account_id : string)
    (before after : list user_entry) (entry : user_entry)
    (w w0 w1 w2 : W) (t1 t2 : trace) (e : exn) :
  let user_of (entry : user_entry) :=
    QsUserGov.new_OktaUser env (entry_username entry) (entry_email entry)
      (entry_groups entry) account_id "default" in
  let read :=
    s3_get_object (QsUserGov.BUCKET env) (QsUserGov.KEY env) in
  let manifest := UsersDocument (before ++ entry :: after) in
  nth_error (Py.split ":" arn) 4 = Some account_id ->
  serve w read = (Ok manifest, w0) ->
  for_each (map user_of before) (QsUserGov.apply_user_governance serve env) w0
    = (Ret tt, w1, t1) ->
  QsUserGov.apply_user_governance serve env (user_of entry) w1
    = (Raise e, w2, t2) ->
  QsUserGov.handler serve env event arn w
  = (Raise (Exception_ QsUserGov.FAILURE_RESPONSE), w2,
     LogInfo ("event: " ++ event)
       :: Call read (Ok manifest)
       :: t1 ++ t2 ++ [LogTraceback e]).
Proof.
  intros user_of read manifest Harn Hread Hbefore Hentry.
  subst manifest.
  unfold QsUserGov.handler, QsUserGov.get_user_manifest. rewrite Harn.
  unfold bind at 1 2 3. cbn [emit ret].
  unfold bind at 1 2, try_except_ClientError, call.
  fold read. rewrite Hread. cbn [ret app].
  match goal with
  | |- context [map ?f (map ?g (before ++ entry :: after))] =>
      replace (map f (map g (before ++ entry :: after)))
        with (map user_of before ++ user_of entry :: map user_of after)
        by (rewrite map_map, map_app; reflexivity)
  end.
  unfold try_except_Exception, bind at 1.
  rewrite (for_each_stops _ _ _ (map user_of after) _ _ _ _ _ _
             Hbefore Hentry).
  cbn -[append]. rewrite <- app_assoc. reflexivity.
Qed.

End Partial.

(** ** The Okta fetcher as a whole *)

Lemma last_cons_app {A : Type} (x d : A) (l l' : list A) :
  l' <> [] -> last (x :: l ++ l') d = last l' d.
Proof.
  intros Hl'. revert x. induction l as [| y l IH]; intros x.
  - destruct l'; [contradiction | reflexivity].
  - change (last (y :: l ++ l') d = last l' d). apply IH.
Qed.

Section Fetcher.

Context {W : Type}.
Variable serve : service W.
Variable env : GetOktaInfo.environ.

Lemma append_users_requests (users : list okta_user) :
  forall (acc manifest : list user_entry) (w w' : W) (t : trace),
    GetOktaInfo.append_users serve env users acc w = (Ret manifest, w', t) ->
    Tr.calls t = map (groups_request env) users
    /\ Forall okta_answered t
    /\ exists added,
        manifest = acc ++ added
        /\ map entry_groups added = answered_groups t.
Proof.
  induction users as [| usr users IH]; intros acc manifest w w' t H.
  - injection H as <- <- <-. repeat split; [constructor |].
    exists []. now rewrite app_nil_r.
  - cbn [GetOktaInfo.append_users] in H. unfold bind at 1 in H.
    unfold GetOktaInfo.get_users_groups, bind, call, emit in H.
    fold (groups_request env usr) in H.
    destruct (serve w (groups_request env usr)) as [[p | e] w1];
      [| discriminate].
    destruct p; cbn [raise ret app] in H; try discriminate.
    match type of H with
    | context [GetOktaInfo.append_users serve env users ?a w1] =>
        destruct (GetOktaInfo.append_users serve env users a w1)
          as [[r2 w2] t2] eqn:Erest
    end.
    injection H as -> <- <-.
    destruct (IH _ _ _ _ _ Erest) as [Hcalls [Hanswered [added [-> Hgroups]]]].
    split; [cbn; fold (Tr.calls t2); now rewrite Hcalls |].
    split; [repeat (constructor; [exact I |]); exact Hanswered |].
    eexists (_ :: added). rewrite <- app_assoc. split; [reflexivity |].
    cbn. fold (answered_groups t2). now rewrite Hgroups.
Qed.

(** X17.  When [build_user_governance_manifest] returns, it has made one
    request per Okta user, for the groups of that user's id, in the order of
    the users, and the groups of each entry of the manifest are the profile
    names of the groups in the answer for that user, in the order of the
    answer. *)
Theorem manifest_groups_follow_answers
    (users : list okta_user) (manifest : list user_entry) (w w' : W)
    (t : trace) :
  GetOktaInfo.build_user_governance_manifest serve env users w
    = (Ret manifest, w', t) ->
  Tr.calls t = map (groups_request env) users
  /\ map entry_groups manifest = answered_groups t.
Proof.
  intros H. unfold GetOktaInfo.build_user_governance_manifest in H.
  unfold bind at 1 in H.
  destruct (GetOktaInfo.append_users serve env users [] w)
    as [[[m | e |] w1] t1] eqn:Erun; try discriminate.
  cbn in H. injection H as <- <- <-.
  destruct (append_users_requests _ _ _ _ _ _ Erun)
    as [Hcalls [_ [added [-> Hgroups]]]].
  split.
  - rewrite calls_app, Hcalls. cbn. apply app_nil_r.
  - cbn [app]. rewrite Hgroups. unfold answered_groups.
    rewrite flat_map_app. cbn. now rewrite app_nil_r.
Qed.

Lemma append_users_finishes (users : list okta_user) :
  forall acc, finishes (GetOktaInfo.append_users serve env users acc).
Proof.
  induction users as [| usr users IH]; intros acc;
    cbn [GetOktaInfo.append_users]; [apply finishes_ret |].
  apply finishes_bind; [| intros groups; apply IH].
  unfold GetOktaInfo.get_users_groups. finish.
Qed.

Lemma append_users_no_upload (users : list okta_user) :
  forall acc,
    emits_only no_upload_event (GetOktaInfo.append_users serve env users acc).
Proof.
  induction users as [| usr users IH]; intros acc;
    cbn [GetOktaInfo.append_users]; [apply emits_only_ret |].
  apply emits_only_bind; [| intros groups; apply IH].
  unfold GetOktaInfo.get_users_groups. emits.
Qed.

(** What the part of the handler before the upload comes to: no upload in
    it, and when it returns every request has been answered and every entry
    has its user name as e-mail address. *)
Lemma fetch_run (w : W) :
  let '(r, _, t) :=
    bind (GetOktaInfo.get_users serve env)
      (GetOktaInfo.build_user_governance_manifest serve env) w in
  r <> Timeout
  /\ filter is_s3_put_users (Tr.calls t) = []
  /\ forall manifest,
      r = Ret manifest ->
      Forall okta_answered t /\ Forall email_is_username manifest.
Proof.
  unfold bind at 1. unfold GetOktaInfo.get_users at 1.
  unfold bind, call, emit.
  destruct (serve w _) as [[p | e] w1]; cbn [app].
  2: { repeat split; try discriminate; reflexivity. }
  destruct p; cbn [raise ret app];
    try (repeat split; try discriminate; reflexivity).
  unfold GetOktaInfo.build_user_governance_manifest, bind, emit, ret.
  pose proof (append_users_finishes users [] w1) as Hfin.
  pose proof (append_users_no_upload users [] w1) as Hnoup.
  destruct (GetOktaInfo.append_users serve env users [] w1)
    as [[[m | e |] w2] t2] eqn:Erun; cbn in Hfin, Hnoup |- *;
    try contradiction.
  - split; [discriminate |]. split.
    + fold (Tr.calls (t2 ++ [LogManifest m])). rewrite calls_app. cbn.
      rewrite app_nil_r. apply filter_none.
      apply (calls_Forall no_upload_event); [auto | exact Hnoup].
    + intros manifest Hm. injection Hm as <-.
      destruct (append_users_requests _ _ _ _ _ _ Erun)
        as [_ [Hanswered _]].
      destruct (append_users_run _ _ _ _ _ _ _ _ Erun)
        as [added [-> [Hemail _]]].
      split; [| exact Hemail].
      repeat (constructor; [exact I |]).
      apply Forall_app. split; [exact Hanswered | repeat constructor].
  - split; [discriminate |]. split; [| discriminate].
    fold (Tr.calls t2). apply filter_none.
    apply (calls_Forall no_upload_event); [auto | exact Hnoup].
Qed.

(** Writes the trace of the handler as its first log line followed by the
    rest, and looks for an upload among its calls. *)
Ltac expose_calls :=
  match goal with
  | |- context [Tr.calls (LogInfo ?msg :: ?x)] =>
      change (LogInfo msg :: x) with ([LogInfo msg] ++ x)
  end.

Ltac find_upload Hin Hnoup :=
  repeat rewrite in_app_iff in Hin; cbn in Hin;
  repeat match type of Hin with
         | _ \/ _ => destruct Hin as [Hin | Hin]
         | False => destruct Hin
         | In ?c (Tr.calls ?l) =>
             exfalso;
             assert (Hf : In c (filter is_s3_put_users (Tr.calls l)))
               by (apply filter_In; split; [exact Hin | reflexivity]);
             rewrite Hnoup in Hf; exact Hf
         | In ?c (flat_map _ ?l) =>
             exfalso;
             assert (Hf : In c (filter is_s3_put_users (Tr.calls l)))
               by (apply filter_In; split; [exact Hin | reflexivity]);
             rewrite Hnoup in Hf; exact Hf
         end.

(** X18.  A run of the Okta fetcher returns its success response or raises
    its failure payload after logging the traceback; nothing else leaves the
    handler.  It uploads at most once, to the configured bucket and key, and
    only when every request to Okta has been answered: after a failed
    request nothing is uploaded.  What it uploads has, in every entry, the
    user name as e-mail address.  It succeeds only after an upload. *)
Theorem fetcher_uploads_whole_manifest_or_nothing (event : string) (w : W) :
  let '(r, _, t) := GetOktaInfo.handler serve env event w in
  (r = Ret GetOktaInfo.SUCCESS_RESPONSE
   \/ (r = Raise (Exception_ GetOktaInfo.FAILURE_RESPONSE)
       /\ exists e, last t (Sleep 0) = LogTraceback e))
  /\ Tr.count is_s3_put_users t <= 1
  /\ (r = Ret GetOktaInfo.SUCCESS_RESPONSE -> Tr.count is_s3_put_users t = 1)
  /\ forall bucket key manifest,
      In (s3_put_users bucket key manifest) (Tr.calls t) ->
      bucket = GetOktaInfo.BUCKET env /\ key = GetOktaInfo.KEY env
      /\ Forall email_is_username manifest
      /\ Forall okta_answered t.
Proof.
  unfold GetOktaInfo.handler. unfold bind at 1. cbn [emit].
  unfold try_except_Exception.
  match goal with
  | |- context [bind (GetOktaInfo.get_users serve env) ?k w] =>
      pose (upload := fun manifest =>
             bind (GetOktaInfo.upload_to_s3 serve env manifest)
               (fun _ => ret GetOktaInfo.SUCCESS_RESPONSE));
      assert (Hbody : bind (GetOktaInfo.get_users serve env) k w
                      = bind (bind (GetOktaInfo.get_users serve env)
                                (GetOktaInfo.build_user_governance_manifest
                                   serve env)) upload w)
  end.
  { unfold upload. unfold bind.
    destruct (GetOktaInfo.get_users serve env w) as [[[users | e |] w1] t1];
      try reflexivity.
    destruct (GetOktaInfo.build_user_governance_manifest serve env users w1)
      as [[[m | e |] w2] t2]; try reflexivity.
    cbn.
    destruct (GetOktaInfo.upload_to_s3 serve env m w2) as [[[[] | e |] w3] t3];
      cbn; now rewrite ?app_assoc. }
  rewrite Hbody. clear Hbody. unfold bind at 1.
  pose proof (fetch_run w) as Hfetch.
  destruct (bind (GetOktaInfo.get_users serve env)
              (GetOktaInfo.build_user_governance_manifest serve env) w)
    as [[[manifest | e |] w1] t1];
    destruct Hfetch as [Hfin [Hnoup Hret]]; try contradiction.
  - destruct (Hret manifest eq_refl) as [Hanswered Hemail].
    unfold upload, GetOktaInfo.upload_to_s3, bind, call, emit, ret.
    destruct (serve w1 _) as [[p | e] w2]; cbn -[last append Tr.calls Tr.count].
    + split; [left; reflexivity |].
      unfold Tr.count. expose_calls.
      rewrite !calls_app, !filter_app, Hnoup. cbn -[Tr.calls].
      split; [cbn; lia |]. split; [reflexivity |].
      intros bucket key m Hin. find_upload Hin Hnoup.
      injection Hin as <- <- <-. repeat split; try assumption.
      repeat first
        [ assumption | apply Forall_nil | apply Forall_cons; [exact I |]
        | apply Forall_app; split ].
    + split; [right; split; [reflexivity |]; exists e;
              rewrite last_cons_app by discriminate; reflexivity |].
      unfold Tr.count. expose_calls.
      rewrite !calls_app, !filter_app, Hnoup. cbn -[Tr.calls].
      split; [cbn; lia |]. split; [discriminate |].
      intros bucket key m Hin. find_upload Hin Hnoup.
      injection Hin as <- <- <-. repeat split; try assumption.
      repeat first
        [ assumption | apply Forall_nil | apply Forall_cons; [exact I |]
        | apply Forall_app; split ].
  - cbn -[last append Tr.calls Tr.count].
    split; [right; split; [reflexivity |]; exists e; apply last_cons_snoc |].
    unfold Tr.count. expose_calls.
    rewrite !calls_app, !filter_app, Hnoup. cbn -[Tr.calls].
    split; [cbn; lia |]. split; [discriminate |].
    intros bucket key m Hin. find_upload Hin Hnoup.
Qed.

End Fetcher.

(** ** The asset job as a whole *)

Section AssetJob.

Context {W : Type}.
Variable serve : service W.
Variable env : QsAssetGov.environ.

Lemma govern_asset_finishes
    (all_datasets : list dataset_summary) (asset : QsAssetGov.QuickSightAsset) :
  finishes (QsAssetGov.govern_asset serve env all_datasets asset).
Proof.
  unfold QsAssetGov.govern_asset, QsAssetGov.reset_dataset_permissions,
    QsAssetGov.apply_dataset_governance.
  cbv zeta. finish.
Qed.

Lemma asset_manifest_read_run (account_id : string) (w : W) :
  let '(r, _, t) := QsAssetGov.get_asset_manifest serve env account_id w in
  r <> Timeout /\ Forall read_only_event t /\ Forall no_traceback t.
Proof.
  unfold QsAssetGov.get_asset_manifest, bind, try_except_ClientError, call,
    emit, ret, raise.
  destruct (serve w _) as [[p | [code text | nm | pl]] w1]; cbn;
    try destruct p; cbn; repeat split; try discriminate;
    repeat constructor.
Qed.

Lemma listing_logs_no_traceback (fuel : nat) (account_id : string) :
  emits_only no_traceback (QsAssetGov.get_all_datasets serve fuel account_id).
Proof.
  assert (Hpages : forall fuel acc token,
             emits_only no_traceback
               (QsAssetGov.next_pages serve fuel account_id acc token)).
  { clear fuel. induction fuel as [| fuel IH]; intros acc [tok |]; cbn.
    - apply emits_only_timeout.
    - apply emits_only_ret.
    - apply emits_only_bind; [apply emits_only_call; intros ?; exact I |].
      intros p. destruct p; try apply emits_only_raise. apply IH.
    - apply emits_only_ret. }
  unfold QsAssetGov.get_all_datasets.
  apply emits_only_bind; [apply emits_only_call; intros ?; exact I |].
  intros p. destruct p; try apply emits_only_raise. apply Hpages.
Qed.

(** X19.  A run of the asset job ends in one of three ways.  It returns the
    success response; or it raises the failure payload, the traceback being
    the last thing it logs; or it stops before the loop over the assets,
    while it lists the data sets or reads the manifest: then the exception,
    a [ClientError] of [list_data_sets] included, or the timeout leaves the
    handler as it is, no traceback is logged and nothing has been changed at
    the remote end. *)
Theorem asset_job_outcomes (fuel : nat) (event arn : string) (w : W) :
  let '(r, _, t) := QsAssetGov.handler serve env fuel event arn w in
  r = Ret QsAssetGov.SUCCESS_RESPONSE
  \/ (r = Raise (Exception_ QsAssetGov.FAILURE_RESPONSE)
      /\ exists e, last t (Sleep 0) = LogTraceback e)
  \/ ((r = Timeout \/ exists e, r = Raise e)
      /\ Forall read_only_event t /\ Forall no_traceback t).
Proof.
  unfold QsAssetGov.handler.
  unfold bind at 1 2. cbn [emit].
  destruct (nth_error (Py.split ":" arn) 4) as [account_id |]; cbn [ret raise].
  2: { right. right. split; [right; eexists; reflexivity |].
       split; repeat constructor. }
  unfold bind at 1.
  pose proof (listing_is_read_only serve fuel account_id w) as Hro.
  pose proof (listing_logs_no_traceback fuel account_id w) as Hnt.
  destruct (QsAssetGov.get_all_datasets serve fuel account_id w)
    as [[[all_datasets | e |] w0] t0]; cbn in Hro, Hnt.
  2: { right. right. split; [right; eexists; reflexivity |].
       cbn [app]. split; constructor; (exact I || assumption). }
  2: { right. right. split; [left; reflexivity |].
       cbn [app]. split; constructor; (exact I || assumption). }
  unfold bind at 1.
  pose proof (asset_manifest_read_run account_id w0) as Hread.
  destruct (QsAssetGov.get_asset_manifest serve env account_id w0)
    as [[[manifest | e |] w1] t1]; destruct Hread as [Hfin [Hro1 Hnt1]].
  - unfold try_except_Exception, bind.
    pose proof (finishes_for_each manifest
                  (QsAssetGov.govern_asset serve env all_datasets)
                  (govern_asset_finishes all_datasets) w1) as Hloop.
    destruct (for_each manifest (QsAssetGov.govern_asset serve env all_datasets)
                w1) as [[[[] | e |] w2] t2]; cbn -[last append] in Hloop |- *.
    + left. reflexivity.
    + right. left. split; [reflexivity |]. exists e.
      rewrite !app_assoc. apply last_cons_snoc.
    + contradiction.
  - right. right. split; [right; eexists; reflexivity |].
    cbn [app].
    split; (constructor; [exact I |]); apply Forall_app; split; assumption.
  - contradiction.
Qed.

End AssetJob.

(** ** The further properties on concrete runs *)

(** Of two data sets named [sales], the first of the listing is taken. *)
Lemma get_dataset_id_first_match_witness :
  QsAssetGov.get_dataset_id Example.sales
    [More.other_ds; More.sales_ds; More.sales_again] = "ds-1".
Proof.
  apply (get_dataset_id_first_match Example.sales [More.other_ds]
           [More.sales_again] More.sales_ds).
  - intros other [<- | []]. discriminate.
  - reflexivity.
Defined.

(** Three pages are put together with two further requests; with time for
    one further request only, the job times out. *)
Lemma get_all_datasets_concatenates_witness :
  (exists t,
      QsAssetGov.get_all_datasets Stubber.serve 2 Example.account
        More.three_pages
      = (Ret [More.other_ds; More.sales_ds; More.sales_again], [], t)
      /\ length (Tr.calls t) = 3)
  /\ fst (fst (QsAssetGov.get_all_datasets Stubber.serve 1 Example.account
                 More.three_pages)) = Timeout.
Proof.
  assert (Hlisted : listed Stubber.serve Example.account
                      (tl More.three_pages) (Some "page-2")
                      [[More.sales_ds]; [More.sales_again]] []).
  { eapply listed_page; [reflexivity |].
    eapply listed_page; [reflexivity |]. apply listed_end. }
  split.
  - apply (get_all_datasets_concatenates Stubber.serve Example.account 2
             More.three_pages (tl More.three_pages) [] [More.other_ds]
             (Some "page-2") [[More.sales_ds]; [More.sales_again]]
             eq_refl Hlisted).
    cbn. lia.
  - apply (get_all_datasets_concatenates Stubber.serve Example.account 1
             More.three_pages (tl More.three_pages) [] [More.other_ds]
             (Some "page-2") [[More.sales_ds]; [More.sales_again]]
             eq_refl Hlisted).
    cbn. lia.
Defined.

(** The grant for the first group is refused with
    [AccessDeniedException]: the grant for the second group is issued all
    the same, and the function returns. *)
Lemma grants_one_per_group_witness :
  let '(r, _, t) :=
    QsAssetGov.apply_dataset_governance Stubber.serve Example.asset_env
      More.shared "ds-1" More.refused_then_granted in
  r = Ret tt
  /\ Tr.calls t
     = [ grant_call Example.asset_env More.shared "ds-1" "qs_group_ops";
         grant_call Example.asset_env More.shared "ds-1" "qs_group_finance" ].
Proof.
  destruct (QsAssetGov.apply_dataset_governance Stubber.serve Example.asset_env
              More.shared "ds-1" More.refused_then_granted)
    as [[r w'] t] eqn:Erun.
  destruct (grants_one_per_group Stubber.serve Example.asset_env More.shared
              "ds-1" More.refused_then_granted w' r t Erun) as [_ Hcalls].
  assert (Hr : r = Ret tt).
  { vm_compute in Erun. now injection Erun as <- _ _. }
  split; [exact Hr | exact (Hcalls Hr)].
Defined.

Lemma govern_asset_calls_witness :
  Tr.calls
    (snd (QsAssetGov.govern_asset Stubber.serve Example.asset_env
            Example.listing Example.sales Example.govern_answers))
  = [ describe_data_set_permissions Example.account "ds-1";
      revoke_call Example.sales "ds-1" Example.group_entry;
      revoke_call Example.sales "ds-1" Example.workgroup_user_entry;
      grant_call Example.asset_env Example.sales "ds-1" "qs_group_finance" ].
Proof.
  apply (govern_asset_calls Stubber.serve Example.asset_env Example.listing
           Example.sales Example.govern_answers (tl Example.govern_answers)
           [] Example.sales_permissions _ eq_refl eq_refl eq_refl).
Defined.

(** The first revoke is throttled: the reset goes on and returns. *)
Lemma reset_passes_over_refused_revokes_witness :
  no_client_error
    (fst (fst (QsAssetGov.reset_dataset_permissions Stubber.serve Example.sales
                 "ds-1" More.refused_revoke)))
  /\ QsAssetGov.reset_dataset_permissions Stubber.serve Example.sales "ds-1"
       More.refused_revoke
     = (Ret tt, [],
        [ Call (describe_data_set_permissions Example.account "ds-1")
            (Ok (Permissions Example.sales_permissions));
          Call (revoke_call Example.sales "ds-1" Example.group_entry)
            (Example.client_error "ThrottlingException");
          Call (revoke_call Example.sales "ds-1" Example.workgroup_user_entry)
            (Ok Empty);
          LogInfo "Permissions reset for [dataset] [sales]" ]).
Proof.
  split; [| reflexivity].
  apply (reset_passes_over_refused_revokes Stubber.serve Example.sales "ds-1"
           More.refused_revoke (tl More.refused_revoke)
           (Permissions Example.sales_permissions) eq_refl).
Defined.

(** A dashboard and a ["Dataset"] are both passed over. *)
Lemma other_categories_are_ignored_witness :
  QsAssetGov.handler Stubber.serve Example.asset_env 8 "{}"
    Example.function_arn More.no_dataset_answers
  = (Ret QsAssetGov.SUCCESS_RESPONSE, [],
     [ LogInfo "event: {}";
       Call (list_data_sets Example.account None)
         (Ok (DataSetSummaries Example.listing None));
       Call (s3_get_object "qs-governance" "qs-asset-governance.json")
         (Ok (AssetsDocument More.no_dataset)) ]).
Proof.
  apply (other_categories_are_ignored Stubber.serve Example.asset_env 8 "{}"
           Example.function_arn Example.account More.no_dataset_answers
           (tl More.no_dataset_answers) [] Example.listing
           [ Call (list_data_sets Example.account None)
               (Ok (DataSetSummaries Example.listing None)) ]
           More.no_dataset eq_refl eq_refl eq_refl).
  repeat constructor; discriminate.
Defined.

(** The analyst is added to [qs_group_ops] and removed from [qs_old]. *)
Lemma update_memberships_reconciles_witness :
  Tr.calls
    (snd (QsUserGov.update_memberships Stubber.serve More.analyst
            More.reconcile_answers))
  = [ list_user_groups "QSGovernance-FederatedQuickSightRole/c@x.com"
        Example.account "default";
      add_membership_call More.analyst "qs_group_ops";
      remove_membership_call More.analyst "qs_old" ].
Proof.
  apply (update_memberships_reconciles Stubber.serve More.analyst
           More.reconcile_answers (tl More.reconcile_answers) []
           More.analyst_memberships _ eq_refl eq_refl).
Defined.

(** Both groups of the analyst are described; only [qs_group_ops], which is
    not found, is created. *)
Lemma groups_created_only_if_absent_witness :
  let t :=
    snd (QsUserGov.create_if_not_exists_groups Stubber.serve More.analyst
           More.ensure_answers) in
  filter Tr.is_describe_group (Tr.calls t)
  = [ describe_group "qs_role_reader" Example.account "default";
      describe_group "qs_group_ops" Example.account "default" ]
  /\ In (create_group "qs_group_ops" Example.account "default") (Tr.calls t)
  /\ ~ In (create_group "qs_role_reader" Example.account "default")
          (Tr.calls t).
Proof.
  destruct (groups_created_only_if_absent Stubber.serve More.analyst
              More.ensure_answers [] _ eq_refl) as [Hdescribe Hcreate].
  split; [exact Hdescribe |]. split.
  - vm_compute. right. right. left. reflexivity.
  - intros Hin. destruct (Hcreate "qs_role_reader" Hin) as [code [text Hfailed]].
    vm_compute in Hfailed.
    repeat destruct Hfailed as [Hfailed | Hfailed]; try discriminate Hfailed.
    exact Hfailed.
Defined.

(** Nothing has changed for the reader: the role is set again all the
    same. *)
Lemma one_role_update_per_user_witness :
  filter Tr.is_update_user
    (Tr.calls
       (snd (QsUserGov.apply_user_governance Stubber.serve Example.user_env
               Example.reader More.steady_answers)))
  = [ update_user "QSGovernance-FederatedQuickSightRole/a@x.com"
        Example.account "default" "READER" "a@x.com" ].
Proof.
  apply (one_role_update_per_user Stubber.serve Example.user_env
           Example.reader More.steady_answers [] (Ret tt) _ eq_refl eq_refl).
Defined.

(** The role update of the reader is throttled: the run returns there. *)
Lemma other_update_errors_are_dropped_witness :
  QsUserGov.apply_user_governance Stubber.serve Example.user_env
    Example.reader More.throttled_answers
  = (Ret tt, [],
     [ Call (describe_namespace Example.account "default") (Ok Empty);
       Call (describe_user "QSGovernance-FederatedQuickSightRole/a@x.com"
               Example.account "default") (Ok Empty);
       Call (update_user_call Example.reader)
         (Example.client_error "ThrottlingException") ])
  /\ Tr.count Tr.is_group_operation
       (snd (QsUserGov.apply_user_governance Stubber.serve Example.user_env
               Example.reader More.throttled_answers)) = 0.
Proof.
  split; [reflexivity |].
  apply (other_update_errors_are_dropped Stubber.serve Example.user_env
           Example.reader More.throttled_answers [] (Ret tt) _
           "ThrottlingException" "An error occurred (ThrottlingException)"
           eq_refl).
  - vm_compute. right. right. left. reflexivity.
  - discriminate.
  - discriminate.
Defined.

(** The downgraded user is not in QuickSight: the delete fails and the error
    leaves the function. *)
Lemma failed_delete_propagates_witness :
  fst (fst (QsUserGov.apply_user_governance Stubber.serve Example.user_env
              Example.downgraded More.unknown_downgraded_answers))
  = Raise (ClientError "ResourceNotFoundException"
             "An error occurred (ResourceNotFoundException)").
Proof.
  apply (failed_delete_propagates Stubber.serve Example.user_env
           Example.downgraded More.unknown_downgraded_answers []
           _ _ _ eq_refl).
  vm_compute. right. right. right. left. reflexivity.
Defined.

(** In the end-to-end run the reader is registered: QuickSight did not know
    the reader, and the reader has a role. *)
Lemma registers_only_unknown_users_with_role_witness :
  QsUserGov.qs_role Example.reader <> ""
  /\ exists code text,
      In (Call (describe_user "QSGovernance-FederatedQuickSightRole/a@x.com"
                  Example.account "default")
               (Err (ClientError code text)))
         (snd (QsUserGov.apply_user_governance Stubber.serve Example.user_env
                 Example.reader (tl Example.fresh_account_answers))).
Proof.
  apply (registers_only_unknown_users_with_role Stubber.serve Example.user_env
           Example.reader (tl Example.fresh_account_answers) [] (Ret tt) _
           (register_user "IAM" "a@x.com" "READER"
              "arn:aws:iam::111122223333:role/QSGovernance-FederatedQuickSightRole"
              "a@x.com" Example.account "default")
           eq_refl).
  - vm_compute. right. right. left. reflexivity.
  - reflexivity.
Defined.

(** With the admin group named [role_admin] and the prefix [qs_], a member
    of [role_admin] is no administrator. *)
Lemma role_group_needs_prefix_witness :
  QsUserGov.qs_role
    (QsUserGov.new_OktaUser More.misnamed_admin "d@x.com" "d@x.com"
       ["role_admin"] Example.account "default") <> "ADMIN".
Proof.
  apply (role_group_needs_prefix More.misnamed_admin "d@x.com" "d@x.com"
           ["role_admin"] Example.account "default").
  reflexivity.
Defined.

(** Three users: the first is in sync, the second fails on its delete, the
    third is never looked at. *)
Lemma failure_stops_the_user_job_witness :
  let '(r, _, t) :=
    QsUserGov.handler Stubber.serve Example.user_env "{}" Example.function_arn
      More.three_users_answers in
  r = Raise (Exception_ QsUserGov.FAILURE_RESPONSE)
  /\ Tr.count Tr.is_describe_namespace t = 2
  /\ last t (Sleep 0)
     = LogTraceback (ClientError "ResourceNotFoundException"
                       "An error occurred (ResourceNotFoundException)").
Proof.
  rewrite (failure_stops_the_user_job Stubber.serve Example.user_env "{}"
             Example.function_arn Example.account [More.entry_a]
             [More.entry_c] More.entry_b More.three_users_answers
             (tl More.three_users_answers) More.unknown_downgraded_answers []
             _ _ _ eq_refl eq_refl eq_refl eq_refl).
  repeat split.
Defined.

(** The groups of the entry are the profile names of the answer. *)
Lemma manifest_groups_follow_answers_witness :
  let '(r, _, t) :=
    GetOktaInfo.build_user_governance_manifest Stubber.serve Example.okta_env
      [ Example.okta_alice ] Example.okta_answers in
  Tr.calls t
  = [ http_get "https://dev-000000.okta.com/api/v1/users/00u1/groups"
        "SSWS token" ]
  /\ answered_groups t = [ ["Everyone"; "qs_role_reader"] ].
Proof.
  destruct (GetOktaInfo.build_user_governance_manifest Stubber.serve
              Example.okta_env [ Example.okta_alice ] Example.okta_answers)
    as [[r w'] t] eqn:Erun.
  assert (Hr : r = Ret [ {| entry_username := "a@x.com";
                            entry_email := "a@x.com";
                            entry_groups := ["Everyone"; "qs_role_reader"] |} ]).
  { vm_compute in Erun. now injection Erun as <- _ _. }
  subst r.
  destruct (manifest_groups_follow_answers Stubber.serve Example.okta_env
              _ _ _ _ _ Erun) as [Hcalls Hgroups].
  split; [exact Hcalls | symmetry; exact Hgroups].
Defined.

(** The description of the namespace is refused for want of a permission:
    the namespace is created all the same, and the run pauses. *)
Lemma namespace_created_after_any_client_error_witness :
  let t :=
    snd (QsUserGov.create_if_not_exists_namespace Stubber.serve
           Example.reader More.denied_namespace_answers) in
  In (create_namespace Example.account "default" "QUICKSIGHT") (Tr.calls t)
  /\ In (Sleep 120) t.
Proof.
  destruct (namespace_created_after_any_client_error Stubber.serve
              Example.reader More.denied_namespace_answers [] (Ret tt) _
              eq_refl) as [Hcreate [Hsleep _]].
  split.
  - apply Hcreate. eexists; eexists. left. reflexivity.
  - apply Hsleep. exists Empty. right. left. reflexivity.
Defined.

(** * The run level *)

(** C3, counterexample.  A manifest with two entries for the data set
    [sales]: the job returns, and the reset of the second entry revokes,
    after the grant of the first entry, what that grant has given.  Over the
    run a revoke on the data set follows a grant on it. *)
Lemma second_entry_revokes_after_first_grant :
  let '(r, _, t) :=
    QsAssetGov.handler Stubber.serve Example.asset_env 0 "{}"
      Example.function_arn Scenario.sales_twice_answers in
  r = Ret QsAssetGov.SUCCESS_RESPONSE
  /\ Tr.calls t
     = [ list_data_sets Example.account None;
         s3_get_object "qs-governance" "qs-asset-governance.json";
         describe_data_set_permissions Example.account "ds-1";
         update_data_set_permissions Example.account "ds-1"
           [Scenario.finance_entry] [];
         describe_data_set_permissions Example.account "ds-1";
         update_data_set_permissions Example.account "ds-1"
           [] [Scenario.finance_entry];
         update_data_set_permissions Example.account "ds-1"
           [Scenario.ops_entry] [] ]
  /\ ~ Tr.revokes_before_grants t
  /\ ~ reset_before_grants_on "ds-1" (Tr.calls t).
Proof.
  cbv zeta.
  destruct (QsAssetGov.handler Stubber.serve Example.asset_env 0 "{}"
              Example.function_arn Scenario.sales_twice_answers)
    as [[r w'] t] eqn:Erun.
  vm_compute in Erun. injection Erun as <- <- <-.
  split; [reflexivity |]. split; [reflexivity |]. split.
  - intros Horder.
    specialize (Horder
      [ list_data_sets Example.account None;
        s3_get_object "qs-governance" "qs-asset-governance.json";
        describe_data_set_permissions Example.account "ds-1" ]
      [ describe_data_set_permissions Example.account "ds-1";
        update_data_set_permissions Example.account "ds-1"
          [] [Scenario.finance_entry];
        update_data_set_permissions Example.account "ds-1"
          [Scenario.ops_entry] [] ]
      (update_data_set_permissions Example.account "ds-1"
         [Scenario.finance_entry] [])
      eq_refl eq_refl
      (update_data_set_permissions Example.account "ds-1"
         [] [Scenario.finance_entry])
      (or_intror (or_introl eq_refl))).
    discriminate Horder.
  - intros Horder.
    specialize (Horder
      [ list_data_sets Example.account None;
        s3_get_object "qs-governance" "qs-asset-governance.json";
        describe_data_set_permissions Example.account "ds-1" ]
      [ describe_data_set_permissions Example.account "ds-1";
        update_data_set_permissions Example.account "ds-1"
          [] [Scenario.finance_entry];
        update_data_set_permissions Example.account "ds-1"
          [Scenario.ops_entry] [] ]
      (update_data_set_permissions Example.account "ds-1"
         [Scenario.finance_entry] [])
      (update_data_set_permissions Example.account "ds-1"
         [] [Scenario.finance_entry])
      eq_refl eq_refl eq_refl
      (or_intror (or_introl eq_refl)) eq_refl).
    discriminate Horder.
Qed.


(** ** Data sets named once *)

Lemma on_data_set_same (d d' : string) (c : api_call) :
  on_data_set d c = true -> on_data_set d' c = true -> d = d'.
Proof.
  destruct c; cbn; try discriminate; intros H1 H2;
    apply String.eqb_eq in H1, H2; congruence.
Qed.

Lemma ordered_calls_on (d : string) (t : trace) :
  Tr.revokes_before_grants t -> reset_before_grants_on d (Tr.calls t).
Proof.
  intros H before after c c' Heq _ Hgrant Hin _.
  exact (H before after c Heq Hgrant c' Hin).
Qed.

(** Calls on other data sets, before or after, do not matter. *)
Lemma reset_before_grants_on_after (d : string) (l1 l2 : list api_call) :
  Forall (fun c => on_data_set d c = false) l1 ->
  reset_before_grants_on d l2 ->
  reset_before_grants_on d (l1 ++ l2).
Proof.
  intros Hoff H2 before after c c' Heq Hon Hgrant Hin Hon'.
  rewrite Forall_forall in Hoff.
  apply app_eq_app in Heq. destruct Heq as [l [[Hl1 Hrest] | [Hbefore Hl2]]].
  - destruct l as [| x l].
    + cbn in Hrest. rewrite app_nil_r in Hl1.
      apply (H2 [] after c c'); auto.
    + injection Hrest as <- Hafter.
      assert (Hc : on_data_set d c = false).
      { apply Hoff. rewrite Hl1. apply in_or_app. right. left. reflexivity. }
      congruence.
  - apply (H2 l after c c'); auto.
Qed.

Lemma reset_before_grants_on_before (d : string) (l1 l2 : list api_call) :
  reset_before_grants_on d l1 ->
  Forall (fun c => on_data_set d c = false) l2 ->
  reset_before_grants_on d (l1 ++ l2).
Proof.
  intros H1 Hoff before after c c' Heq Hon Hgrant Hin Hon'.
  rewrite Forall_forall in Hoff.
  apply app_eq_app in Heq. destruct Heq as [l [[Hl1 Hrest] | [Hbefore Hl2]]].
  - destruct l as [| x l].
    + cbn in Hrest.
      assert (Hc : on_data_set d c = false).
      { apply Hoff. rewrite <- Hrest. left. reflexivity. }
      congruence.
    + injection Hrest as <- Hafter. subst after.
      apply in_app_or in Hin. destruct Hin as [Hin | Hin].
      * apply (H1 before l c c'); auto.
      * apply Hoff in Hin. congruence.
  - assert (Hc : on_data_set d c = false).
    { apply Hoff. rewrite Hl2. apply in_or_app. right. left. reflexivity. }
    congruence.
Qed.

Lemma off_calls (d : string) (t : trace) :
  Forall (off_data_set d) t ->
  Forall (fun c => on_data_set d c = false) (Tr.calls t).
Proof. apply calls_Forall. auto. Qed.

Lemma reset_before_grants_on_off (d : string) (l : list api_call) :
  Forall (fun c => on_data_set d c = false) l -> reset_before_grants_on d l.
Proof.
  intros Hoff before after c c' Heq Hon _ _ _.
  rewrite Forall_forall in Hoff.
  assert (Hc : on_data_set d c = false).
  { apply Hoff. rewrite Heq. apply in_or_app. right. left. reflexivity. }
  congruence.
Qed.

Section RunLevel.

Context {W : Type}.
Variable serve : service W.
Variable env : QsAssetGov.environ.

(** The calls of one turn of the loop are on the data set the entry
    resolves to. *)
Lemma govern_asset_about
    (all_datasets : list dataset_summary) (asset : QsAssetGov.QuickSightAsset) :
  emits_only
    (about_data_set (QsAssetGov.get_dataset_id asset all_datasets))
    (QsAssetGov.govern_asset serve env all_datasets asset).
Proof.
  unfold QsAssetGov.govern_asset, QsAssetGov.reset_dataset_permissions,
    QsAssetGov.apply_dataset_governance.
  cbv zeta.
  repeat first
    [ apply emits_only_bind; [| intros ?]
    | apply emits_only_try_ClientError; [| intros ? ?]
    | apply emits_only_for_each; intros ?
    | apply emits_only_ret
    | apply emits_only_raise
    | apply emits_only_emit; exact I
    | apply emits_only_call; intros ?; apply String.eqb_refl
    | match goal with
      | |- emits_only _ (if ?b then _ else _) => destruct b
      | |- emits_only _ (match ?p with _ => _ end) => destruct p
      end ].
Qed.

Lemma govern_asset_off (d : string)
    (all_datasets : list dataset_summary) (asset : QsAssetGov.QuickSightAsset) :
  ((QsAssetGov.category asset =? "dataset") = true ->
   QsAssetGov.get_dataset_id asset all_datasets <> d) ->
  emits_only (off_data_set d)
    (QsAssetGov.govern_asset serve env all_datasets asset).
Proof.
  intros Hother w.
  destruct (QsAssetGov.category asset =? "dataset") eqn:Hcat.
  - pose proof (govern_asset_about all_datasets asset w) as Habout.
    eapply Forall_impl; [| exact Habout].
    intros [c r | | | |]; cbn; auto.
    intros Hon. destruct (on_data_set d c) eqn:Hd; [| reflexivity].
    destruct (Hother eq_refl). exact (on_data_set_same _ _ _ Hon Hd).
  - unfold QsAssetGov.govern_asset. rewrite Hcat. constructor.
Qed.

Lemma govern_asset_ordered
    (all_datasets : list dataset_summary) (asset : QsAssetGov.QuickSightAsset)
    (w : W) :
  Tr.revokes_before_grants
    (snd (QsAssetGov.govern_asset serve env all_datasets asset w)).
Proof.
  unfold QsAssetGov.govern_asset.
  destruct (QsAssetGov.category asset =? "dataset").
  2: { intros [| ? ?] ? ? Heq; discriminate Heq. }
  cbv zeta. unfold bind.
  destruct (QsAssetGov.reset_dataset_permissions serve asset _ w)
    as [[r1 w1] t1] eqn:Ereset.
  destruct (reset_run _ _ _ _ _ _ _ Ereset)
    as [resp [rest [_ [_ [Hnogrant _]]]]].
  destruct r1 as [[] | e |]; cbn [snd].
  - pose proof (grants_emit_no_revoke serve env asset
                  (QsAssetGov.get_dataset_id asset all_datasets) w1) as Hgrants.
    destruct (QsAssetGov.apply_dataset_governance serve env asset _ w1)
      as [[r2 w2] t2].
    cbn in Hgrants |- *. apply revokes_then_grants; assumption.
  - rewrite <- (app_nil_r t1). apply revokes_then_grants; [assumption |].
    constructor.
  - rewrite <- (app_nil_r t1). apply revokes_then_grants; [assumption |].
    constructor.
Qed.

(** The loop makes no call on a data set no entry resolves to. *)
Lemma loop_off (d : string) (all_datasets : list dataset_summary)
    (manifest : list QsAssetGov.QuickSightAsset) :
  ~ In d (governed_data_sets all_datasets manifest) ->
  emits_only (off_data_set d)
    (for_each manifest (QsAssetGov.govern_asset serve env all_datasets)).
Proof.
  induction manifest as [| asset rest IH]; intros Hnotin; cbn [for_each].
  - apply emits_only_ret.
  - unfold governed_data_sets in Hnotin. cbn [filter] in Hnotin.
    apply emits_only_bind.
    + apply govern_asset_off. intros Hcat. rewrite Hcat in Hnotin.
      intros Heq. apply Hnotin. left. exact Heq.
    + intros _. apply IH. intros Hin. apply Hnotin.
      destruct (QsAssetGov.category asset =? "dataset"); [right |]; exact Hin.
Qed.

Lemma loop_ordered (all_datasets : list dataset_summary)
    (manifest : list QsAssetGov.QuickSightAsset) :
  NoDup (governed_data_sets all_datasets manifest) ->
  forall (d : string) (w : W),
    reset_before_grants_on d
      (Tr.calls
         (snd (for_each manifest
                 (QsAssetGov.govern_asset serve env all_datasets) w))).
Proof.
  induction manifest as [| asset rest IH]; intros Hnodup d w.
  - apply reset_before_grants_on_off. constructor.
  - cbn [for_each]. unfold bind.
    pose proof (govern_asset_ordered all_datasets asset w) as Hturn.
    destruct (QsAssetGov.govern_asset serve env all_datasets asset w)
      as [[r1 w1] t1] eqn:Eturn.
    cbn [snd] in Hturn.
    destruct r1 as [[] | e |]; cbn [snd];
      try (apply ordered_calls_on; exact Hturn).
    unfold governed_data_sets in Hnodup. cbn [filter] in Hnodup.
    assert (Hrest : NoDup (governed_data_sets all_datasets rest)).
    { destruct (QsAssetGov.category asset =? "dataset"); [| exact Hnodup].
      cbn [map] in Hnodup. now apply NoDup_cons_iff in Hnodup. }
    pose proof (IH Hrest d w1) as Hloop.
    destruct (for_each rest _ w1) as [[r2 w2] t2] eqn:Erest.
    cbn [snd] in Hloop |- *. rewrite calls_app.
    destruct (string_dec (QsAssetGov.get_dataset_id asset all_datasets) d)
      as [Hsame | Hother].
    + destruct (QsAssetGov.category asset =? "dataset") eqn:Hcat.
      * apply reset_before_grants_on_before;
          [apply ordered_calls_on; exact Hturn |].
        apply off_calls.
        cbn [map] in Hnodup. apply NoDup_cons_iff in Hnodup.
        destruct Hnodup as [Hnotin _]. rewrite Hsame in Hnotin.
        pose proof (loop_off d all_datasets rest Hnotin w1) as Hoff.
        rewrite Erest in Hoff. exact Hoff.
      * apply reset_before_grants_on_after; [| exact Hloop].
        apply off_calls.
        assert (Hoff : emits_only (off_data_set d)
                         (QsAssetGov.govern_asset serve env all_datasets asset)).
        { apply govern_asset_off. rewrite Hcat. discriminate. }
        specialize (Hoff w). rewrite Eturn in Hoff. exact Hoff.
    + apply reset_before_grants_on_after; [| exact Hloop].
      apply off_calls.
      assert (Hoff : emits_only (off_data_set d)
                       (QsAssetGov.govern_asset serve env all_datasets asset)).
      { apply govern_asset_off. intros _. exact Hother. }
      specialize (Hoff w). rewrite Eturn in Hoff. exact Hoff.
Qed.

Lemma listing_off (d : string) (fuel : nat) (account_id : string) :
  emits_only (off_data_set d)
    (QsAssetGov.get_all_datasets serve fuel account_id).
Proof.
  assert (Hpages : forall fuel acc token,
             emits_only (off_data_set d)
               (QsAssetGov.next_pages serve fuel account_id acc token)).
  { clear fuel. induction fuel as [| fuel IH]; intros acc [tok |]; cbn; emits.
    apply IH. }
  unfold QsAssetGov.get_all_datasets. emits. apply Hpages.
Qed.

Lemma manifest_read_off (d : string) (account_id : string) :
  emits_only (off_data_set d)
    (QsAssetGov.get_asset_manifest serve env account_id).
Proof. unfold QsAssetGov.get_asset_manifest. emits. Qed.

(** X21.  In a run of the asset job whose manifest names every data set
    once (the entries of category ["dataset"] resolve to pairwise different
    data sets), no revoke on a data set is issued after a grant on that
    data set, over the whole run and whatever its outcome. *)
Theorem data_sets_named_once_reset_before_grants
    (fuel : nat) (event arn account_id : string) (w w0 w1 : W)
    (all_datasets : list dataset_summary)
    (manifest : list QsAssetGov.QuickSightAsset) (listing reading : trace) :
  nth_error (Py.split ":" arn) 4 = Some account_id ->
  QsAssetGov.get_all_datasets serve fuel account_id w
    = (Ret all_datasets, w0, listing) ->
  QsAssetGov.get_asset_manifest serve env account_id w0
    = (Ret manifest, w1, reading) ->
  NoDup (governed_data_sets all_datasets manifest) ->
  forall dataset_id,
    reset_before_grants_on dataset_id
      (Tr.calls (snd (QsAssetGov.handler serve env fuel event arn w))).
Proof.
  intros Harn Hlisting Hreading Hnodup d.
  pose proof (listing_off d fuel account_id w) as Hoff1.
  pose proof (manifest_read_off d account_id w0) as Hoff2.
  pose proof (loop_ordered all_datasets manifest Hnodup d w1) as Hloop.
  rewrite Hlisting in Hoff1. rewrite Hreading in Hoff2. cbn [snd] in Hoff1, Hoff2.
  unfold QsAssetGov.handler. rewrite Harn.
  unfold bind at 1 2 3 4. unfold emit at 1, ret at 1.
  rewrite Hlisting, Hreading.
  unfold try_except_Exception, bind.
  destruct (for_each manifest _ w1) as [[r2 w2] t2] eqn:Eloop.
  cbn [snd] in Hloop.
  assert (Hgoal : forall tail : trace,
             Forall (off_data_set d) tail ->
             reset_before_grants_on d
               (Tr.calls (LogInfo ("event: " ++ event)
                            :: listing ++ reading ++ t2 ++ tail))).
  { intros tail Htail.
    change (reset_before_grants_on d
              (Tr.calls (listing ++ reading ++ t2 ++ tail))).
    rewrite !calls_app.
    apply reset_before_grants_on_after; [apply off_calls; exact Hoff1 |].
    apply reset_before_grants_on_after; [apply off_calls; exact Hoff2 |].
    apply reset_before_grants_on_before; [exact Hloop |].
    apply off_calls; exact Htail. }
  destruct r2 as [[] | e |]; cbn -[append Tr.calls].
  - rewrite ?app_nil_r.
    specialize (Hgoal [] (Forall_nil _)). rewrite app_nil_r in Hgoal.
    exact Hgoal.
  - rewrite ?app_nil_r. apply Hgoal. repeat constructor.
  - rewrite ?app_nil_r.
    specialize (Hgoal [] (Forall_nil _)). rewrite app_nil_r in Hgoal.
    exact Hgoal.
Qed.

End RunLevel.

(** The manifest names [sales] and [other]: over the run, nothing is
    revoked on [sales] after its grant. *)
Lemma data_sets_named_once_reset_before_grants_witness :
  reset_before_grants_on "ds-1"
    (Tr.calls
       (snd (QsAssetGov.handler Stubber.serve Example.asset_env 0 "{}"
               Example.function_arn Scenario.two_data_sets_answers))).
Proof.
  apply (data_sets_named_once_reset_before_grants Stubber.serve
           Example.asset_env 0 "{}" Example.function_arn Example.account
           Scenario.two_data_sets_answers (tl Scenario.two_data_sets_answers)
           (tl (tl Scenario.two_data_sets_answers))
           [More.other_ds; More.sales_ds] _ _ _ eq_refl eq_refl eq_refl).
  vm_compute.
  constructor; [intros [H | []]; discriminate H |].
  constructor; [intros [] | constructor].
Defined.
